(** * The native bridge adapter of tsyne's Android host

    A shallow embedding of the three native sources of the adapter,

    - [android-native/app/src/main/cpp/jni-wrapper.c]  (module [JniWrapper]),
    - [android-native/app/src/main/cpp/node-runner.cpp] (module [NodeRunner]),
    - [bridge/ffi_callback.c]                           (module [FfiCallback]),

    and the properties of the cross-boundary call contract that the
    specification states about them.

    The C code is a set of file-level statics mutated by JNI entry points,
    plus calls into the dynamic linker, the Java VM, pthreads and the peer
    library.  The statics become the record [Proc]; every function becomes
    a computation in the monad [M], which threads the process state and
    records each outside call as an [Event]; what the outside answers is
    read from an oracle, the record [World].

    A call runs from its entry to its return as one step: the statics have
    no lock in the source, and what two racing calls would do to them is not
    modelled. *)

From Stdlib Require Import ZArith String Ascii List Bool Lia.
From stdpp Require Import gmap strings.

Local Open Scope string_scope.
Local Open Scope Z_scope.

(** ** Values that cross the boundary *)

(** A C pointer, a JNI reference or a method id: either null or an address. *)
Inductive ptr : Type :=
| NULL
| Addr (a : positive).

Definition is_NULL (x : ptr) : bool :=
  match x with NULL => true | Addr _ => false end.

#[global] Instance ptr_eq_dec : EqDecision ptr.
Proof. solve_decision. Defined.

(** Arguments and results of outside calls.  A [jfloat] is carried as its
    32-bit pattern: the adapter stores and forwards floats, it never computes
    with them.  [VSym] is the address of one of the adapter's own functions
    or statics. *)
Inductive Val : Type :=
| VVoid
| VInt (z : Z)
| VFloat (bits : Z)
| VStr (s : string)
| VPtr (x : ptr)
| VSym (name : string).

(** The outside functions the adapter calls. *)
Inductive Ext : Type :=
| x_android_log_print
| x_dlopen | x_dlsym | x_dlerror
| x_pthread_create | x_usleep | x_getpid | x_strdup | x_free
| x_GetEnv | x_AttachCurrentThread | x_DetachCurrentThread
| x_NewDirectByteBuffer | x_CallVoidMethod | x_DeleteLocalRef
| x_GetStringUTFChars | x_ReleaseStringUTFChars | x_NewStringUTF
| x_NewGlobalRef | x_DeleteGlobalRef | x_GetObjectClass | x_GetMethodID.

#[global] Instance Ext_eq_dec : EqDecision Ext.
Proof. solve_decision. Defined.

(** What a run leaves behind: the outside calls in order, and the calls made
    through a function pointer (a resolved peer entry point or a callback). *)
Inductive Event : Type :=
| ECall (f : Ext) (args : list Val) (res : Val)
| ECallPtr (target : positive) (args : list Val).

Definition is_ptr_call (e : Event) : bool :=
  match e with ECallPtr _ _ => true | ECall _ _ _ => false end.

(** ** Constants of the platform headers

    [jni.h], [dlfcn.h] (bionic, LP64) and [android/log.h] are not part of the
    repository; the values below are theirs. *)
Definition JNI_OK : Z := 0.
Definition JNI_ERR : Z := -1.
Definition JNI_EDETACHED : Z := -2.
Definition JNI_VERSION_1_6 : Z := 65542. (* 0x00010006 *)
Definition RTLD_NOW : Z := 2.
Definition RTLD_NOLOAD : Z := 4.
Definition ANDROID_LOG_INFO : Z := 4.
Definition ANDROID_LOG_ERROR : Z := 6.

(** ** C strings and integers *)

(** The first [n] bytes of a string: what [strncpy] followed by a
    terminating NUL, or [snprintf] into [n+1] bytes, keeps. *)
Fixpoint str_take (n : nat) (s : string) : string :=
  match n, s with
  | O, _ => EmptyString
  | S _, EmptyString => EmptyString
  | S n', String c s' => String c (str_take n' s')
  end.

Definition digit_char (d : Z) : ascii :=
  ascii_of_nat (48 + Z.to_nat d).

(** Decimal digits of a non-negative number, most significant first; ten
    digits are enough for any 32-bit [int]. *)
Fixpoint dec_digits (fuel : nat) (n : Z) (acc : string) : string :=
  match fuel with
  | O => acc
  | S fuel' =>
      let acc' := String (digit_char (n mod 10)) acc in
      if n <? 10 then acc' else dec_digits fuel' (n / 10) acc'
  end.

(** [printf]'s [%d]. *)
Definition fmt_d (n : Z) : string :=
  if n <? 0 then String "-" (dec_digits 10 (- n) EmptyString)
  else dec_digits 10 n EmptyString.

(** [snprintf(buf, size, ...)]: at most [size - 1] bytes and a NUL. *)
Definition snprintf (size : nat) (formatted : string) : string :=
  str_take (size - 1) formatted.

(** Two's-complement wrap-around of a value stored in a C [int]. *)
Definition wrap_int (z : Z) : Z :=
  (z + 2 ^ 31) mod 2 ^ 32 - 2 ^ 31.

(** ** The process state

    The statics of [jni-wrapper.c] and of [node-runner.cpp], and the two
    pieces of process state outside them that the adapter acts on: the
    libraries resident in the process (name to handle) and the threads
    currently attached to the Java VM. *)
Record Proc : Type := mkProc {
  (* jni-wrapper.c *)
  g_socketDir : string;                     (* char[512]; the C string in it *)
  g_bridgeHandle : ptr;
  g_TsyneInit : ptr;
  g_StartBridgeMsgpackUDS : ptr;
  g_StartBridgeMsgpackUDSWithDir : ptr;
  g_StartBridgeGrpc : ptr;
  g_StartBridgeAndroidEmbedded : ptr;
  g_SetAndroidRenderCallback : ptr;
  g_SetAndroidScreenSize : ptr;
  g_SendAndroidTouchDown : ptr;
  g_SendAndroidTouchMove : ptr;
  g_SendAndroidTouchUp : ptr;
  g_javaVM : ptr;
  g_renderSurface : ptr;
  g_onFrameMethod : ptr;
  g_screenWidth : Z;
  g_screenHeight : Z;
  g_bridgeThread : Z;
  g_bridgeTestMode : Z;
  (* node-runner.cpp *)
  g_nodeHandle : ptr;
  g_nodeStart : ptr;
  g_nodeThread : Z;
  g_scriptPath : option string;             (* char*; the heap copy it points to *)
  (* the process *)
  resident : gmap string positive;
  jvm_attached : gset Z
}.

(** Statics start zeroed. *)
Definition boot (libs : gmap string positive) : Proc :=
  mkProc "" NULL NULL NULL NULL NULL NULL NULL NULL NULL NULL NULL
         NULL NULL NULL 0 0 0 0
         NULL NULL 0 None
         libs ∅.

Definition set_g_socketDir (v : string) (p : Proc) : Proc :=
  mkProc v (g_bridgeHandle p) (g_TsyneInit p) (g_StartBridgeMsgpackUDS p)
    (g_StartBridgeMsgpackUDSWithDir p) (g_StartBridgeGrpc p)
    (g_StartBridgeAndroidEmbedded p) (g_SetAndroidRenderCallback p)
    (g_SetAndroidScreenSize p) (g_SendAndroidTouchDown p) (g_SendAndroidTouchMove p)
    (g_SendAndroidTouchUp p) (g_javaVM p) (g_renderSurface p) (g_onFrameMethod p)
    (g_screenWidth p) (g_screenHeight p) (g_bridgeThread p) (g_bridgeTestMode p)
    (g_nodeHandle p) (g_nodeStart p) (g_nodeThread p) (g_scriptPath p) (resident p)
    (jvm_attached p).
Definition set_g_bridgeHandle (v : ptr) (p : Proc) : Proc :=
  mkProc (g_socketDir p) v (g_TsyneInit p) (g_StartBridgeMsgpackUDS p)
    (g_StartBridgeMsgpackUDSWithDir p) (g_StartBridgeGrpc p)
    (g_StartBridgeAndroidEmbedded p) (g_SetAndroidRenderCallback p)
    (g_SetAndroidScreenSize p) (g_SendAndroidTouchDown p) (g_SendAndroidTouchMove p)
    (g_SendAndroidTouchUp p) (g_javaVM p) (g_renderSurface p) (g_onFrameMethod p)
    (g_screenWidth p) (g_screenHeight p) (g_bridgeThread p) (g_bridgeTestMode p)
    (g_nodeHandle p) (g_nodeStart p) (g_nodeThread p) (g_scriptPath p) (resident p)
    (jvm_attached p).
Definition set_g_TsyneInit (v : ptr) (p : Proc) : Proc :=
  mkProc (g_socketDir p) (g_bridgeHandle p) v (g_StartBridgeMsgpackUDS p)
    (g_StartBridgeMsgpackUDSWithDir p) (g_StartBridgeGrpc p)
    (g_StartBridgeAndroidEmbedded p) (g_SetAndroidRenderCallback p)
    (g_SetAndroidScreenSize p) (g_SendAndroidTouchDown p) (g_SendAndroidTouchMove p)
    (g_SendAndroidTouchUp p) (g_javaVM p) (g_renderSurface p) (g_onFrameMethod p)
    (g_screenWidth p) (g_screenHeight p) (g_bridgeThread p) (g_bridgeTestMode p)
    (g_nodeHandle p) (g_nodeStart p) (g_nodeThread p) (g_scriptPath p) (resident p)
    (jvm_attached p).
Definition set_g_StartBridgeMsgpackUDS (v : ptr) (p : Proc) : Proc :=
  mkProc (g_socketDir p) (g_bridgeHandle p) (g_TsyneInit p) v
    (g_StartBridgeMsgpackUDSWithDir p) (g_StartBridgeGrpc p)
    (g_StartBridgeAndroidEmbedded p) (g_SetAndroidRenderCallback p)
    (g_SetAndroidScreenSize p) (g_SendAndroidTouchDown p) (g_SendAndroidTouchMove p)
    (g_SendAndroidTouchUp p) (g_javaVM p) (g_renderSurface p) (g_onFrameMethod p)
    (g_screenWidth p) (g_screenHeight p) (g_bridgeThread p) (g_bridgeTestMode p)
    (g_nodeHandle p) (g_nodeStart p) (g_nodeThread p) (g_scriptPath p) (resident p)
    (jvm_attached p).
Definition set_g_StartBridgeMsgpackUDSWithDir (v : ptr) (p : Proc) : Proc :=
  mkProc (g_socketDir p) (g_bridgeHandle p) (g_TsyneInit p) (g_StartBridgeMsgpackUDS p)
    v (g_StartBridgeGrpc p) (g_StartBridgeAndroidEmbedded p) (g_SetAndroidRenderCallback
    p) (g_SetAndroidScreenSize p) (g_SendAndroidTouchDown p) (g_SendAndroidTouchMove p)
    (g_SendAndroidTouchUp p) (g_javaVM p) (g_renderSurface p) (g_onFrameMethod p)
    (g_screenWidth p) (g_screenHeight p) (g_bridgeThread p) (g_bridgeTestMode p)
    (g_nodeHandle p) (g_nodeStart p) (g_nodeThread p) (g_scriptPath p) (resident p)
    (jvm_attached p).
Definition set_g_StartBridgeGrpc (v : ptr) (p : Proc) : Proc :=
  mkProc (g_socketDir p) (g_bridgeHandle p) (g_TsyneInit p) (g_StartBridgeMsgpackUDS p)
    (g_StartBridgeMsgpackUDSWithDir p) v (g_StartBridgeAndroidEmbedded p)
    (g_SetAndroidRenderCallback p) (g_SetAndroidScreenSize p) (g_SendAndroidTouchDown p)
    (g_SendAndroidTouchMove p) (g_SendAndroidTouchUp p) (g_javaVM p) (g_renderSurface p)
    (g_onFrameMethod p) (g_screenWidth p) (g_screenHeight p) (g_bridgeThread p)
    (g_bridgeTestMode p) (g_nodeHandle p) (g_nodeStart p) (g_nodeThread p) (g_scriptPath
    p) (resident p) (jvm_attached p).
Definition set_g_StartBridgeAndroidEmbedded (v : ptr) (p : Proc) : Proc :=
  mkProc (g_socketDir p) (g_bridgeHandle p) (g_TsyneInit p) (g_StartBridgeMsgpackUDS p)
    (g_StartBridgeMsgpackUDSWithDir p) (g_StartBridgeGrpc p) v
    (g_SetAndroidRenderCallback p) (g_SetAndroidScreenSize p) (g_SendAndroidTouchDown p)
    (g_SendAndroidTouchMove p) (g_SendAndroidTouchUp p) (g_javaVM p) (g_renderSurface p)
    (g_onFrameMethod p) (g_screenWidth p) (g_screenHeight p) (g_bridgeThread p)
    (g_bridgeTestMode p) (g_nodeHandle p) (g_nodeStart p) (g_nodeThread p) (g_scriptPath
    p) (resident p) (jvm_attached p).
Definition set_g_SetAndroidRenderCallback (v : ptr) (p : Proc) : Proc :=
  mkProc (g_socketDir p) (g_bridgeHandle p) (g_TsyneInit p) (g_StartBridgeMsgpackUDS p)
    (g_StartBridgeMsgpackUDSWithDir p) (g_StartBridgeGrpc p)
    (g_StartBridgeAndroidEmbedded p) v (g_SetAndroidScreenSize p)
    (g_SendAndroidTouchDown p) (g_SendAndroidTouchMove p) (g_SendAndroidTouchUp p)
    (g_javaVM p) (g_renderSurface p) (g_onFrameMethod p) (g_screenWidth p)
    (g_screenHeight p) (g_bridgeThread p) (g_bridgeTestMode p) (g_nodeHandle p)
    (g_nodeStart p) (g_nodeThread p) (g_scriptPath p) (resident p) (jvm_attached p).
Definition set_g_SetAndroidScreenSize (v : ptr) (p : Proc) : Proc :=
  mkProc (g_socketDir p) (g_bridgeHandle p) (g_TsyneInit p) (g_StartBridgeMsgpackUDS p)
    (g_StartBridgeMsgpackUDSWithDir p) (g_StartBridgeGrpc p)
    (g_StartBridgeAndroidEmbedded p) (g_SetAndroidRenderCallback p) v
    (g_SendAndroidTouchDown p) (g_SendAndroidTouchMove p) (g_SendAndroidTouchUp p)
    (g_javaVM p) (g_renderSurface p) (g_onFrameMethod p) (g_screenWidth p)
    (g_screenHeight p) (g_bridgeThread p) (g_bridgeTestMode p) (g_nodeHandle p)
    (g_nodeStart p) (g_nodeThread p) (g_scriptPath p) (resident p) (jvm_attached p).
Definition set_g_SendAndroidTouchDown (v : ptr) (p : Proc) : Proc :=
  mkProc (g_socketDir p) (g_bridgeHandle p) (g_TsyneInit p) (g_StartBridgeMsgpackUDS p)
    (g_StartBridgeMsgpackUDSWithDir p) (g_StartBridgeGrpc p)
    (g_StartBridgeAndroidEmbedded p) (g_SetAndroidRenderCallback p)
    (g_SetAndroidScreenSize p) v (g_SendAndroidTouchMove p) (g_SendAndroidTouchUp p)
    (g_javaVM p) (g_renderSurface p) (g_onFrameMethod p) (g_screenWidth p)
    (g_screenHeight p) (g_bridgeThread p) (g_bridgeTestMode p) (g_nodeHandle p)
    (g_nodeStart p) (g_nodeThread p) (g_scriptPath p) (resident p) (jvm_attached p).
Definition set_g_SendAndroidTouchMove (v : ptr) (p : Proc) : Proc :=
  mkProc (g_socketDir p) (g_bridgeHandle p) (g_TsyneInit p) (g_StartBridgeMsgpackUDS p)
    (g_StartBridgeMsgpackUDSWithDir p) (g_StartBridgeGrpc p)
    (g_StartBridgeAndroidEmbedded p) (g_SetAndroidRenderCallback p)
    (g_SetAndroidScreenSize p) (g_SendAndroidTouchDown p) v (g_SendAndroidTouchUp p)
    (g_javaVM p) (g_renderSurface p) (g_onFrameMethod p) (g_screenWidth p)
    (g_screenHeight p) (g_bridgeThread p) (g_bridgeTestMode p) (g_nodeHandle p)
    (g_nodeStart p) (g_nodeThread p) (g_scriptPath p) (resident p) (jvm_attached p).
Definition set_g_SendAndroidTouchUp (v : ptr) (p : Proc) : Proc :=
  mkProc (g_socketDir p) (g_bridgeHandle p) (g_TsyneInit p) (g_StartBridgeMsgpackUDS p)
    (g_StartBridgeMsgpackUDSWithDir p) (g_StartBridgeGrpc p)
    (g_StartBridgeAndroidEmbedded p) (g_SetAndroidRenderCallback p)
    (g_SetAndroidScreenSize p) (g_SendAndroidTouchDown p) (g_SendAndroidTouchMove p) v
    (g_javaVM p) (g_renderSurface p) (g_onFrameMethod p) (g_screenWidth p)
    (g_screenHeight p) (g_bridgeThread p) (g_bridgeTestMode p) (g_nodeHandle p)
    (g_nodeStart p) (g_nodeThread p) (g_scriptPath p) (resident p) (jvm_attached p).
Definition set_g_javaVM (v : ptr) (p : Proc) : Proc :=
  mkProc (g_socketDir p) (g_bridgeHandle p) (g_TsyneInit p) (g_StartBridgeMsgpackUDS p)
    (g_StartBridgeMsgpackUDSWithDir p) (g_StartBridgeGrpc p)
    (g_StartBridgeAndroidEmbedded p) (g_SetAndroidRenderCallback p)
    (g_SetAndroidScreenSize p) (g_SendAndroidTouchDown p) (g_SendAndroidTouchMove p)
    (g_SendAndroidTouchUp p) v (g_renderSurface p) (g_onFrameMethod p) (g_screenWidth p)
    (g_screenHeight p) (g_bridgeThread p) (g_bridgeTestMode p) (g_nodeHandle p)
    (g_nodeStart p) (g_nodeThread p) (g_scriptPath p) (resident p) (jvm_attached p).
Definition set_g_renderSurface (v : ptr) (p : Proc) : Proc :=
  mkProc (g_socketDir p) (g_bridgeHandle p) (g_TsyneInit p) (g_StartBridgeMsgpackUDS p)
    (g_StartBridgeMsgpackUDSWithDir p) (g_StartBridgeGrpc p)
    (g_StartBridgeAndroidEmbedded p) (g_SetAndroidRenderCallback p)
    (g_SetAndroidScreenSize p) (g_SendAndroidTouchDown p) (g_SendAndroidTouchMove p)
    (g_SendAndroidTouchUp p) (g_javaVM p) v (g_onFrameMethod p) (g_screenWidth p)
    (g_screenHeight p) (g_bridgeThread p) (g_bridgeTestMode p) (g_nodeHandle p)
    (g_nodeStart p) (g_nodeThread p) (g_scriptPath p) (resident p) (jvm_attached p).
Definition set_g_onFrameMethod (v : ptr) (p : Proc) : Proc :=
  mkProc (g_socketDir p) (g_bridgeHandle p) (g_TsyneInit p) (g_StartBridgeMsgpackUDS p)
    (g_StartBridgeMsgpackUDSWithDir p) (g_StartBridgeGrpc p)
    (g_StartBridgeAndroidEmbedded p) (g_SetAndroidRenderCallback p)
    (g_SetAndroidScreenSize p) (g_SendAndroidTouchDown p) (g_SendAndroidTouchMove p)
    (g_SendAndroidTouchUp p) (g_javaVM p) (g_renderSurface p) v (g_screenWidth p)
    (g_screenHeight p) (g_bridgeThread p) (g_bridgeTestMode p) (g_nodeHandle p)
    (g_nodeStart p) (g_nodeThread p) (g_scriptPath p) (resident p) (jvm_attached p).
Definition set_g_screenWidth (v : Z) (p : Proc) : Proc :=
  mkProc (g_socketDir p) (g_bridgeHandle p) (g_TsyneInit p) (g_StartBridgeMsgpackUDS p)
    (g_StartBridgeMsgpackUDSWithDir p) (g_StartBridgeGrpc p)
    (g_StartBridgeAndroidEmbedded p) (g_SetAndroidRenderCallback p)
    (g_SetAndroidScreenSize p) (g_SendAndroidTouchDown p) (g_SendAndroidTouchMove p)
    (g_SendAndroidTouchUp p) (g_javaVM p) (g_renderSurface p) (g_onFrameMethod p) v
    (g_screenHeight p) (g_bridgeThread p) (g_bridgeTestMode p) (g_nodeHandle p)
    (g_nodeStart p) (g_nodeThread p) (g_scriptPath p) (resident p) (jvm_attached p).
Definition set_g_screenHeight (v : Z) (p : Proc) : Proc :=
  mkProc (g_socketDir p) (g_bridgeHandle p) (g_TsyneInit p) (g_StartBridgeMsgpackUDS p)
    (g_StartBridgeMsgpackUDSWithDir p) (g_StartBridgeGrpc p)
    (g_StartBridgeAndroidEmbedded p) (g_SetAndroidRenderCallback p)
    (g_SetAndroidScreenSize p) (g_SendAndroidTouchDown p) (g_SendAndroidTouchMove p)
    (g_SendAndroidTouchUp p) (g_javaVM p) (g_renderSurface p) (g_onFrameMethod p)
    (g_screenWidth p) v (g_bridgeThread p) (g_bridgeTestMode p) (g_nodeHandle p)
    (g_nodeStart p) (g_nodeThread p) (g_scriptPath p) (resident p) (jvm_attached p).
Definition set_g_bridgeThread (v : Z) (p : Proc) : Proc :=
  mkProc (g_socketDir p) (g_bridgeHandle p) (g_TsyneInit p) (g_StartBridgeMsgpackUDS p)
    (g_StartBridgeMsgpackUDSWithDir p) (g_StartBridgeGrpc p)
    (g_StartBridgeAndroidEmbedded p) (g_SetAndroidRenderCallback p)
    (g_SetAndroidScreenSize p) (g_SendAndroidTouchDown p) (g_SendAndroidTouchMove p)
    (g_SendAndroidTouchUp p) (g_javaVM p) (g_renderSurface p) (g_onFrameMethod p)
    (g_screenWidth p) (g_screenHeight p) v (g_bridgeTestMode p) (g_nodeHandle p)
    (g_nodeStart p) (g_nodeThread p) (g_scriptPath p) (resident p) (jvm_attached p).
Definition set_g_bridgeTestMode (v : Z) (p : Proc) : Proc :=
  mkProc (g_socketDir p) (g_bridgeHandle p) (g_TsyneInit p) (g_StartBridgeMsgpackUDS p)
    (g_StartBridgeMsgpackUDSWithDir p) (g_StartBridgeGrpc p)
    (g_StartBridgeAndroidEmbedded p) (g_SetAndroidRenderCallback p)
    (g_SetAndroidScreenSize p) (g_SendAndroidTouchDown p) (g_SendAndroidTouchMove p)
    (g_SendAndroidTouchUp p) (g_javaVM p) (g_renderSurface p) (g_onFrameMethod p)
    (g_screenWidth p) (g_screenHeight p) (g_bridgeThread p) v (g_nodeHandle p)
    (g_nodeStart p) (g_nodeThread p) (g_scriptPath p) (resident p) (jvm_attached p).
Definition set_g_nodeHandle (v : ptr) (p : Proc) : Proc :=
  mkProc (g_socketDir p) (g_bridgeHandle p) (g_TsyneInit p) (g_StartBridgeMsgpackUDS p)
    (g_StartBridgeMsgpackUDSWithDir p) (g_StartBridgeGrpc p)
    (g_StartBridgeAndroidEmbedded p) (g_SetAndroidRenderCallback p)
    (g_SetAndroidScreenSize p) (g_SendAndroidTouchDown p) (g_SendAndroidTouchMove p)
    (g_SendAndroidTouchUp p) (g_javaVM p) (g_renderSurface p) (g_onFrameMethod p)
    (g_screenWidth p) (g_screenHeight p) (g_bridgeThread p) (g_bridgeTestMode p) v
    (g_nodeStart p) (g_nodeThread p) (g_scriptPath p) (resident p) (jvm_attached p).
Definition set_g_nodeStart (v : ptr) (p : Proc) : Proc :=
  mkProc (g_socketDir p) (g_bridgeHandle p) (g_TsyneInit p) (g_StartBridgeMsgpackUDS p)
    (g_StartBridgeMsgpackUDSWithDir p) (g_StartBridgeGrpc p)
    (g_StartBridgeAndroidEmbedded p) (g_SetAndroidRenderCallback p)
    (g_SetAndroidScreenSize p) (g_SendAndroidTouchDown p) (g_SendAndroidTouchMove p)
    (g_SendAndroidTouchUp p) (g_javaVM p) (g_renderSurface p) (g_onFrameMethod p)
    (g_screenWidth p) (g_screenHeight p) (g_bridgeThread p) (g_bridgeTestMode p)
    (g_nodeHandle p) v (g_nodeThread p) (g_scriptPath p) (resident p) (jvm_attached p).
Definition set_g_nodeThread (v : Z) (p : Proc) : Proc :=
  mkProc (g_socketDir p) (g_bridgeHandle p) (g_TsyneInit p) (g_StartBridgeMsgpackUDS p)
    (g_StartBridgeMsgpackUDSWithDir p) (g_StartBridgeGrpc p)
    (g_StartBridgeAndroidEmbedded p) (g_SetAndroidRenderCallback p)
    (g_SetAndroidScreenSize p) (g_SendAndroidTouchDown p) (g_SendAndroidTouchMove p)
    (g_SendAndroidTouchUp p) (g_javaVM p) (g_renderSurface p) (g_onFrameMethod p)
    (g_screenWidth p) (g_screenHeight p) (g_bridgeThread p) (g_bridgeTestMode p)
    (g_nodeHandle p) (g_nodeStart p) v (g_scriptPath p) (resident p) (jvm_attached p).
Definition set_g_scriptPath (v : option string) (p : Proc) : Proc :=
  mkProc (g_socketDir p) (g_bridgeHandle p) (g_TsyneInit p) (g_StartBridgeMsgpackUDS p)
    (g_StartBridgeMsgpackUDSWithDir p) (g_StartBridgeGrpc p)
    (g_StartBridgeAndroidEmbedded p) (g_SetAndroidRenderCallback p)
    (g_SetAndroidScreenSize p) (g_SendAndroidTouchDown p) (g_SendAndroidTouchMove p)
    (g_SendAndroidTouchUp p) (g_javaVM p) (g_renderSurface p) (g_onFrameMethod p)
    (g_screenWidth p) (g_screenHeight p) (g_bridgeThread p) (g_bridgeTestMode p)
    (g_nodeHandle p) (g_nodeStart p) (g_nodeThread p) v (resident p) (jvm_attached p).
Definition set_resident (v : gmap string positive) (p : Proc) : Proc :=
  mkProc (g_socketDir p) (g_bridgeHandle p) (g_TsyneInit p) (g_StartBridgeMsgpackUDS p)
    (g_StartBridgeMsgpackUDSWithDir p) (g_StartBridgeGrpc p)
    (g_StartBridgeAndroidEmbedded p) (g_SetAndroidRenderCallback p)
    (g_SetAndroidScreenSize p) (g_SendAndroidTouchDown p) (g_SendAndroidTouchMove p)
    (g_SendAndroidTouchUp p) (g_javaVM p) (g_renderSurface p) (g_onFrameMethod p)
    (g_screenWidth p) (g_screenHeight p) (g_bridgeThread p) (g_bridgeTestMode p)
    (g_nodeHandle p) (g_nodeStart p) (g_nodeThread p) (g_scriptPath p) v (jvm_attached
    p).
Definition set_jvm_attached (v : gset Z) (p : Proc) : Proc :=
  mkProc (g_socketDir p) (g_bridgeHandle p) (g_TsyneInit p) (g_StartBridgeMsgpackUDS p)
    (g_StartBridgeMsgpackUDSWithDir p) (g_StartBridgeGrpc p)
    (g_StartBridgeAndroidEmbedded p) (g_SetAndroidRenderCallback p)
    (g_SetAndroidScreenSize p) (g_SendAndroidTouchDown p) (g_SendAndroidTouchMove p)
    (g_SendAndroidTouchUp p) (g_javaVM p) (g_renderSurface p) (g_onFrameMethod p)
    (g_screenWidth p) (g_screenHeight p) (g_bridgeThread p) (g_bridgeTestMode p)
    (g_nodeHandle p) (g_nodeStart p) (g_nodeThread p) (g_scriptPath p) (resident p) v.

(** ** The outside world

    What the dynamic linker, the peer library, the Java VM and the kernel
    answer.  The adapter cannot tell these answers in advance, so every
    property below is stated for an arbitrary [World]. *)
Record World : Type := mkWorld {
  (* libraries the linker could load from disk, with the handle they would get *)
  on_disk : gmap string positive;
  (* dlsym: the address of a symbol in a loaded library, NULL if it has none *)
  symbols : positive -> string -> ptr;
  dlerror_msg : string;
  (* the code at an address, called with these arguments: its return code,
     or None when it never returns (a server loop) *)
  entry : positive -> list Val -> option Z;
  getpid_res : Z;
  (* pthread_create: its return code and the id of the thread it starts *)
  pthread_create_res : Z * Z;
  (* whether the VM accepts the attachment of a thread *)
  attach_ok : Z -> bool;
  (* GetStringUTFChars: the bytes of a Java string, None when it returns NULL *)
  string_chars : positive -> option string;
  global_ref : positive -> ptr;
  object_class : positive -> positive;
  method_id : positive -> string -> string -> ptr;
  direct_buffer : ptr -> Z -> ptr
}.

(** ** The monad of adapter code

    A computation reads the world and the id of the thread it runs on,
    transforms the process state and leaves a trace.  It ends in one of
    three ways: it returns; it is still inside a peer entry point that never
    returns; or it has jumped through a null pointer (or handed the VM a null
    reference), after which C promises nothing. *)
Inductive Outcome (A : Type) : Type :=
| Done (a : A) (p : Proc) (t : list Event)
| Blocked (p : Proc) (t : list Event)
| Fault (t : list Event).
Arguments Done {A} a p t.
Arguments Blocked {A} p t.
Arguments Fault {A} t.

Definition M (A : Type) : Type := World -> Z -> Proc -> Outcome A.

Definition ret {A} (a : A) : M A := fun _ _ p => Done a p [].

Definition bind {A B} (m : M A) (k : A -> M B) : M B := fun w self p =>
  match m w self p with
  | Done a p1 t1 =>
      match k a w self p1 with
      | Done b p2 t2 => Done b p2 (t1 ++ t2)
      | Blocked p2 t2 => Blocked p2 (t1 ++ t2)
      | Fault t2 => Fault (t1 ++ t2)
      end
  | Blocked p1 t1 => Blocked p1 t1
  | Fault t1 => Fault t1
  end.

Notation "'let*' x ':=' m 'in' k" := (bind m (fun x => k))
  (at level 10, x name, m at level 100, k at level 200).
Notation "m ';;' k" := (bind m (fun _ => k))
  (at level 100, k at level 200, right associativity).

Definition get {A} (f : Proc -> A) : M A := fun _ _ p => Done (f p) p [].
Definition upd (f : Proc -> Proc) : M unit := fun _ _ p => Done tt (f p) [].
Definition ext (f : Ext) (args : list Val) (res : Val) : M unit :=
  fun _ _ p => Done tt p [ECall f args res].
Definition when (c : bool) (m : M unit) : M unit := if c then m else ret tt.

Definition trace_of {A} (o : Outcome A) : list Event :=
  match o with Done _ _ t | Blocked _ t | Fault t => t end.

Definition state_of {A} (o : Outcome A) : option Proc :=
  match o with Done _ p _ | Blocked p _ => Some p | Fault _ => None end.

Definition result_of {A} (o : Outcome A) : option A :=
  match o with Done a _ _ => Some a | Blocked _ _ | Fault _ => None end.

(** ** The outside functions *)

Definition android_log_print (prio : Z) (tag fmt : string) (args : list Val) : M unit :=
  ext x_android_log_print (VInt prio :: VStr tag :: VStr fmt :: args) VVoid.

(** [dlopen(3)]: a resident library is found whatever the flags; one that is
    not resident is loaded from disk, unless [RTLD_NOLOAD] is among the flags,
    in which case the call returns NULL and loads nothing. *)
Definition dlopen (name : string) (flags : Z) : M ptr := fun w _ p =>
  let ev r := [ECall x_dlopen [VStr name; VInt flags] (VPtr r)] in
  match resident p !! name with
  | Some h => Done (Addr h) p (ev (Addr h))
  | None =>
      if Z.land flags RTLD_NOLOAD =? 0 then
        match on_disk w !! name with
        | Some h => Done (Addr h) (set_resident (<[name := h]> (resident p)) p) (ev (Addr h))
        | None => Done NULL p (ev NULL)
        end
      else Done NULL p (ev NULL)
  end.

Definition dlsym (handle : ptr) (symbol : string) : M ptr := fun w _ p =>
  let r := match handle with Addr h => symbols w h symbol | NULL => NULL end in
  Done r p [ECall x_dlsym [VPtr handle; VStr symbol] (VPtr r)].

Definition dlerror : M string := fun w _ p =>
  Done (dlerror_msg w) p [ECall x_dlerror [] (VStr (dlerror_msg w))].

(** A call through a function pointer. *)
Definition call_int (f : ptr) (args : list Val) : M Z := fun w _ p =>
  match f with
  | NULL => Fault []
  | Addr a =>
      match entry w a args with
      | Some r => Done r p [ECallPtr a args]
      | None => Blocked p [ECallPtr a args]
      end
  end.

Definition call_void (f : ptr) (args : list Val) : M unit :=
  let* _ := call_int f args in ret tt.

Definition getpid : M Z := fun w _ p =>
  Done (getpid_res w) p [ECall x_getpid [] (VInt (getpid_res w))].

Definition usleep (usec : Z) : M unit := ext x_usleep [VInt usec] (VInt 0).

(** [pthread_create(&thread, NULL, start_routine, arg)]: on success the id of
    the new thread is stored through the first argument. *)
Definition pthread_create (store : Z -> Proc -> Proc) (start_routine : string)
    (arg : Val) : M Z := fun w _ p =>
  let rc := fst (pthread_create_res w) in
  let ev := [ECall x_pthread_create [VSym start_routine; arg] (VInt rc)] in
  if rc =? 0 then Done 0 (store (snd (pthread_create_res w)) p) ev
  else Done rc p ev.

(** The invocation interface of the VM.  [GetEnv] succeeds exactly on an
    attached thread. *)
Definition GetEnv : M Z := fun _ self p =>
  let r := if decide (self ∈ jvm_attached p) then JNI_OK else JNI_EDETACHED in
  Done r p [ECall x_GetEnv [VInt JNI_VERSION_1_6] (VInt r)].

Definition AttachCurrentThread : M Z := fun w self p =>
  if decide (self ∈ jvm_attached p) then
    Done JNI_OK p [ECall x_AttachCurrentThread [] (VInt JNI_OK)]
  else if attach_ok w self then
    Done JNI_OK (set_jvm_attached ({[self]} ∪ jvm_attached p) p)
         [ECall x_AttachCurrentThread [] (VInt JNI_OK)]
  else Done JNI_ERR p [ECall x_AttachCurrentThread [] (VInt JNI_ERR)].

Definition DetachCurrentThread : M unit := fun _ self p =>
  Done tt (set_jvm_attached (jvm_attached p ∖ {[self]}) p)
       [ECall x_DetachCurrentThread [] (VInt JNI_OK)].

(** The functions of [JNIEnv] that the adapter uses. *)
Definition NewDirectByteBuffer (address : ptr) (capacity : Z) : M ptr := fun w _ p =>
  let r := direct_buffer w address capacity in
  Done r p [ECall x_NewDirectByteBuffer [VPtr address; VInt capacity] (VPtr r)].

Definition CallVoidMethod (obj mid : ptr) (args : list Val) : M unit :=
  ext x_CallVoidMethod (VPtr obj :: VPtr mid :: args) VVoid.

Definition DeleteLocalRef (ref : ptr) : M unit := ext x_DeleteLocalRef [VPtr ref] VVoid.

Definition GetStringUTFChars (s : ptr) : M (option string) := fun w _ p =>
  match s with
  | NULL => Fault []
  | Addr a =>
      let r := string_chars w a in
      Done r p [ECall x_GetStringUTFChars [VPtr s]
                  (match r with Some c => VStr c | None => VPtr NULL end)]
  end.

Definition ReleaseStringUTFChars (s : ptr) : M unit :=
  ext x_ReleaseStringUTFChars [VPtr s] VVoid.

(** The Java string built from a C string is identified with its bytes. *)
Definition NewStringUTF (bytes : string) : M string :=
  ext x_NewStringUTF [VStr bytes] (VStr bytes);; ret bytes.

Definition NewGlobalRef (obj : ptr) : M ptr := fun w _ p =>
  let r := match obj with Addr a => global_ref w a | NULL => NULL end in
  Done r p [ECall x_NewGlobalRef [VPtr obj] (VPtr r)].

Definition DeleteGlobalRef (ref : ptr) : M unit := ext x_DeleteGlobalRef [VPtr ref] VVoid.

Definition GetObjectClass (obj : ptr) : M ptr := fun w _ p =>
  match obj with
  | NULL => Fault []
  | Addr a =>
      Done (Addr (object_class w a)) p
           [ECall x_GetObjectClass [VPtr obj] (VPtr (Addr (object_class w a)))]
  end.

Definition GetMethodID (clazz : ptr) (name sig : string) : M ptr := fun w _ p =>
  match clazz with
  | NULL => Fault []
  | Addr c =>
      Done (method_id w c name sig) p
           [ECall x_GetMethodID [VPtr clazz; VStr name; VStr sig] (VPtr (method_id w c name sig))]
  end.

(** ** jni-wrapper.c *)
Module JniWrapper.

Definition LOG_TAG : string := "TsyneJNI".
Definition LOGI (fmt : string) (args : list Val) : M unit :=
  android_log_print ANDROID_LOG_INFO LOG_TAG fmt args.
Definition LOGE (fmt : string) (args : list Val) : M unit :=
  android_log_print ANDROID_LOG_ERROR LOG_TAG fmt args.

(** [g_socketDir[0] != '\0'] *)
Definition nonempty (s : string) : bool :=
  match s with EmptyString => false | String _ _ => true end.

(** Lines 54-58. *)
Definition JNI_OnLoad (vm : ptr) : M Z :=
  upd (set_g_javaVM vm);;
  LOGI "JNI_OnLoad: JavaVM captured" [];;
  ret JNI_VERSION_1_6.

(** Lines 78-92: the tail of [nativeRenderCallback], from the creation of
    the byte buffer on; [attached] is the local of that name. *)
Definition deliver_frame (attached : bool) (pixels : ptr) (width height stride : Z)
    : M unit :=
  let dataSize := wrap_int (height * stride) in
  let* buffer := NewDirectByteBuffer pixels dataSize in
  let* onFrame := get g_onFrameMethod in
  let* surface := get g_renderSurface in
  when (negb (is_NULL buffer) && negb (is_NULL onFrame))
    (CallVoidMethod surface onFrame [VPtr buffer; VInt width; VInt height; VInt stride]);;
  when (negb (is_NULL buffer)) (DeleteLocalRef buffer);;
  when attached DetachCurrentThread.

(** Lines 61-93.  The two early returns are the branches that do not reach
    [deliver_frame]. *)
Definition nativeRenderCallback (pixels : ptr) (width height stride : Z) : M unit :=
  let* vm := get g_javaVM in
  let* surface := get g_renderSurface in
  if is_NULL vm || is_NULL surface then ret tt
  else
    let* rc := GetEnv in
    if negb (rc =? JNI_OK) then
      let* rc' := AttachCurrentThread in
      if negb (rc' =? JNI_OK) then
        LOGE "Failed to attach thread for render callback" []
      else deliver_frame true pixels width height stride
    else deliver_frame false pixels width height stride.

(** Lines 96-110: the worker of [startBridgeInBackground].  Its argument is
    the address of [g_bridgeTestMode], read when the worker starts. *)
Definition bridgeThreadFunc : M unit :=
  let* testMode := get g_bridgeTestMode in
  let* dir := get g_socketDir in
  let* withDir := get g_StartBridgeMsgpackUDSWithDir in
  if nonempty dir && negb (is_NULL withDir) then
    LOGI "Bridge thread started, calling StartBridgeMsgpackUDSWithDir(%d, %s)"
         [VInt testMode; VStr dir];;
    let* result := call_int withDir [VInt testMode; VStr dir] in
    LOGI "StartBridgeMsgpackUDSWithDir returned: %d" [VInt result]
  else
    LOGI "Bridge thread started, calling StartBridgeMsgpackUDS(%d)" [VInt testMode];;
    let* uds := get g_StartBridgeMsgpackUDS in
    let* result := call_int uds [VInt testMode] in
    LOGI "StartBridgeMsgpackUDS returned: %d" [VInt result].

(** Lines 113-162.  Every [return 0] is the [ret 0] that ends its branch. *)
Definition initFunctionPointers : M Z :=
  let* cached := get g_TsyneInit in
  if negb (is_NULL cached) then ret 1
  else
    let* handle := dlopen "libtsyne-bridge.so" (Z.lor RTLD_NOW RTLD_NOLOAD) in
    upd (set_g_bridgeHandle handle);;
    if is_NULL handle then
      let* err := dlerror in
      LOGE "Failed to get handle for libtsyne-bridge.so: %s" [VStr err];;
      ret 0
    else
      LOGI "Got handle to libtsyne-bridge.so" [];;
      let* f := dlsym handle "TsyneInit" in
      upd (set_g_TsyneInit f);;
      if is_NULL f then
        let* err := dlerror in
        LOGE "Failed to find TsyneInit: %s" [VStr err];;
        ret 0
      else
        let* f := dlsym handle "StartBridgeMsgpackUDS" in
        upd (set_g_StartBridgeMsgpackUDS f);;
        if is_NULL f then
          let* err := dlerror in
          LOGE "Failed to find StartBridgeMsgpackUDS: %s" [VStr err];;
          ret 0
        else
          let* f := dlsym handle "StartBridgeMsgpackUDSWithDir" in
          upd (set_g_StartBridgeMsgpackUDSWithDir f);;
          when (negb (is_NULL f))
            (LOGI "Found StartBridgeMsgpackUDSWithDir (Android socket directory support)" []);;
          let* f := dlsym handle "StartBridgeGrpc" in
          upd (set_g_StartBridgeGrpc f);;
          if is_NULL f then
            let* err := dlerror in
            LOGE "Failed to find StartBridgeGrpc: %s" [VStr err];;
            ret 0
          else
            let* f := dlsym handle "StartBridgeAndroidEmbedded" in
            upd (set_g_StartBridgeAndroidEmbedded f);;
            when (negb (is_NULL f))
              (LOGI "Found StartBridgeAndroidEmbedded (embedded rendering support)" []);;
            let* f := dlsym handle "SetAndroidRenderCallback" in
            upd (set_g_SetAndroidRenderCallback f);;
            let* f := dlsym handle "SetAndroidScreenSize" in
            upd (set_g_SetAndroidScreenSize f);;
            let* f := dlsym handle "SendAndroidTouchDown" in
            upd (set_g_SendAndroidTouchDown f);;
            let* f := dlsym handle "SendAndroidTouchMove" in
            upd (set_g_SendAndroidTouchMove f);;
            let* f := dlsym handle "SendAndroidTouchUp" in
            upd (set_g_SendAndroidTouchUp f);;
            LOGI "Successfully loaded all function pointers from tsyne-bridge" [];;
            ret 1.

(** Lines 165-198: the three synchronous wrappers. *)
Definition Java_com_tsyne_phonetop_MainActivity_TsyneInit (headless : Z) : M Z :=
  let* ok := initFunctionPointers in
  if ok =? 0 then ret (-1)
  else
    LOGI "JNI: Calling TsyneInit(%d)" [VInt headless];;
    let* f := get g_TsyneInit in
    let* result := call_int f [VInt headless] in
    LOGI "JNI: TsyneInit returned %d" [VInt result];;
    ret result.

Definition Java_com_tsyne_phonetop_MainActivity_StartBridgeMsgpackUDS (testMode : Z) : M Z :=
  let* ok := initFunctionPointers in
  if ok =? 0 then ret (-1)
  else
    LOGI "JNI: Calling StartBridgeMsgpackUDS(%d)" [VInt testMode];;
    let* f := get g_StartBridgeMsgpackUDS in
    let* result := call_int f [VInt testMode] in
    LOGI "JNI: StartBridgeMsgpackUDS returned %d" [VInt result];;
    ret result.

Definition Java_com_tsyne_phonetop_MainActivity_StartBridgeGrpc (testMode : Z) : M Z :=
  let* ok := initFunctionPointers in
  if ok =? 0 then ret (-1)
  else
    LOGI "JNI: Calling StartBridgeGrpc(%d)" [VInt testMode];;
    let* f := get g_StartBridgeGrpc in
    let* result := call_int f [VInt testMode] in
    LOGI "JNI: StartBridgeGrpc returned %d" [VInt result];;
    ret result.

(** Lines 208-216 and again 307-315: the block that both background
    starters use to keep the socket directory, a [strncpy] into the 512-byte
    static followed by a NUL in its last byte. *)
Definition store_socketDir (socketDir : ptr) : M unit :=
  if negb (is_NULL socketDir) then
    let* dir := GetStringUTFChars socketDir in
    match dir with
    | Some d =>
        upd (set_g_socketDir (str_take (512 - 1) d));;
        ReleaseStringUTFChars socketDir;;
        let* stored := get g_socketDir in
        LOGI "JNI: Socket directory set to: %s" [VStr stored]
    | None => ret tt
    end
  else ret tt.

(** Lines 201-232. *)
Definition Java_com_tsyne_phonetop_MainActivity_startBridgeInBackground
    (testMode : Z) (socketDir : ptr) : M Z :=
  let* ok := initFunctionPointers in
  if ok =? 0 then ret (-1)
  else
    store_socketDir socketDir;;
    upd (set_g_bridgeTestMode testMode);;
    LOGI "JNI: Starting bridge in background thread (testMode=%d)" [VInt testMode];;
    let* result :=
      pthread_create set_g_bridgeThread "bridgeThreadFunc" (VSym "g_bridgeTestMode") in
    if negb (result =? 0) then
      LOGE "Failed to create bridge thread: %d" [VInt result];;
      ret (-2)
    else
      usleep 500000;;
      LOGI "JNI: Bridge thread started successfully" [];;
      ret 0.

(** Lines 235-242; [socketPath] is a [char[256]]. *)
Definition Java_com_tsyne_phonetop_MainActivity_getBridgeSocketPath : M string :=
  let* dir := get g_socketDir in
  let socketDir := if nonempty dir then dir else "/data/local/tmp" in
  let* pid := getpid in
  let socketPath :=
    snprintf 256 (socketDir +:+ "/tsyne-" +:+ fmt_d pid +:+ ".sock") in
  LOGI "JNI: Socket path: %s" [VStr socketPath];;
  NewStringUTF socketPath.

(** Lines 266-284: the part of [embeddedBridgeThreadFunc] that follows the
    attachment. *)
Definition embedded_serve : M unit :=
  let* cb := get g_SetAndroidRenderCallback in
  when (negb (is_NULL cb))
    (call_void cb [VSym "nativeRenderCallback"];;
     LOGI "Render callback registered" []);;
  let* start := get g_StartBridgeAndroidEmbedded in
  when (negb (is_NULL start))
    (let* width := get g_screenWidth in
     let* height := get g_screenHeight in
     let* dir := get g_socketDir in
     let* result := call_int start [VFloat width; VFloat height; VStr dir] in
     LOGI "StartBridgeAndroidEmbedded returned: %d" [VInt result]);;
  let* vm := get g_javaVM in
  when (negb (is_NULL vm))
    (DetachCurrentThread;;
     LOGI "Embedded bridge thread detached from JVM" []).

(** Lines 249-285. *)
Definition embeddedBridgeThreadFunc : M unit :=
  let* width := get g_screenWidth in
  let* height := get g_screenHeight in
  LOGI "Embedded bridge thread starting (%.0fx%.0f)" [VFloat width; VFloat height];;
  let* vm := get g_javaVM in
  if negb (is_NULL vm) then
    let* rc := AttachCurrentThread in
    if negb (rc =? JNI_OK) then
      LOGE "Failed to attach embedded bridge thread to JVM" []
    else
      LOGI "Embedded bridge thread attached to JVM" [];;
      embedded_serve
  else
    LOGE "JavaVM is NULL - cannot attach thread" [].

(** Lines 288-344.  [missing] is true on the path that returns -3 from
    inside the registration block. *)
Definition Java_com_tsyne_phonetop_MainActivity_startEmbeddedBridge
    (width height : Z) (socketDir renderTarget : ptr) : M Z :=
  let* ok := initFunctionPointers in
  if ok =? 0 then ret (-1)
  else
    let* start := get g_StartBridgeAndroidEmbedded in
    if is_NULL start then
      LOGE "StartBridgeAndroidEmbedded not available" [];;
      ret (-2)
    else
      upd (set_g_screenWidth width);;
      upd (set_g_screenHeight height);;
      LOGI "JNI: Screen size set to %.0fx%.0f" [VFloat width; VFloat height];;
      store_socketDir socketDir;;
      let* missing :=
        if negb (is_NULL renderTarget) then
          let* ref := NewGlobalRef renderTarget in
          upd (set_g_renderSurface ref);;
          let* targetClass := GetObjectClass renderTarget in
          let* mid := GetMethodID targetClass "onFrame" "(Ljava/nio/ByteBuffer;III)V" in
          upd (set_g_onFrameMethod mid);;
          if is_NULL mid then
            LOGE "Failed to find onFrame method" [];;
            let* surface := get g_renderSurface in
            DeleteGlobalRef surface;;
            upd (set_g_renderSurface NULL);;
            ret true
          else
            LOGI "JNI: Render target registered with onFrame method" [];;
            ret false
        else ret false in
      if missing then ret (-3)
      else
        LOGI "JNI: Starting embedded bridge in background thread" [];;
        let* result :=
          pthread_create set_g_bridgeThread "embeddedBridgeThreadFunc" (VPtr NULL) in
        if negb (result =? 0) then
          LOGE "Failed to create embedded bridge thread: %d" [VInt result];;
          ret (-4)
        else
          usleep 500000;;
          LOGI "JNI: Embedded bridge thread started" [];;
          ret 0.

(** Lines 347-378: the screen size and the three touch events. *)
Definition Java_com_tsyne_phonetop_MainActivity_setScreenSize (width height : Z) : M unit :=
  upd (set_g_screenWidth width);;
  upd (set_g_screenHeight height);;
  let* f := get g_SetAndroidScreenSize in
  when (negb (is_NULL f))
    (call_void f [VFloat width; VFloat height];;
     LOGI "JNI: Screen size updated to %.0fx%.0f" [VFloat width; VFloat height]).

Definition Java_com_tsyne_phonetop_MainActivity_sendTouchDown (x y pointerId : Z) : M unit :=
  let* f := get g_SendAndroidTouchDown in
  LOGI "sendTouchDown: x=%.0f y=%.0f id=%d func=%p" [VFloat x; VFloat y; VInt pointerId; VPtr f];;
  when (negb (is_NULL f)) (call_void f [VFloat x; VFloat y; VInt pointerId]).

Definition Java_com_tsyne_phonetop_MainActivity_sendTouchMove (x y pointerId : Z) : M unit :=
  let* f := get g_SendAndroidTouchMove in
  when (negb (is_NULL f)) (call_void f [VFloat x; VFloat y; VInt pointerId]).

Definition Java_com_tsyne_phonetop_MainActivity_sendTouchUp (x y pointerId : Z) : M unit :=
  let* f := get g_SendAndroidTouchUp in
  when (negb (is_NULL f)) (call_void f [VFloat x; VFloat y; VInt pointerId]).

End JniWrapper.

(** ** node-runner.cpp *)
Module NodeRunner.

Definition LOG_TAG : string := "NodeRunner".
Definition LOGI (fmt : string) (args : list Val) : M unit :=
  android_log_print ANDROID_LOG_INFO LOG_TAG fmt args.
Definition LOGE (fmt : string) (args : list Val) : M unit :=
  android_log_print ANDROID_LOG_ERROR LOG_TAG fmt args.

(** Lines 22-36: the worker of [startNode]; [scriptPath] is the heap copy
    handed to [pthread_create]. *)
Definition nodeThreadFunc (scriptPath : string) : M unit :=
  LOGI "Node.js thread started, running: %s" [VStr scriptPath];;
  let* start := get g_nodeStart in
  let* result := call_int start [VInt 2; VStr "node"; VStr scriptPath] in
  LOGI "Node.js exited with code: %d" [VInt result];;
  ext x_free [VStr scriptPath] VVoid.

(** Lines 39-59. *)
Definition initNode : M Z :=
  let* cached := get g_nodeStart in
  if negb (is_NULL cached) then ret 1
  else
    let* handle := dlopen "libnode.so" (Z.lor RTLD_NOW RTLD_NOLOAD) in
    upd (set_g_nodeHandle handle);;
    if is_NULL handle then
      let* err := dlerror in
      LOGE "Failed to get handle for libnode.so: %s" [VStr err];;
      ret 0
    else
      LOGI "Got handle to libnode.so" [];;
      let* f := dlsym handle "_ZN4node5StartEiPPc" in
      upd (set_g_nodeStart f);;
      if is_NULL f then
        let* err := dlerror in
        LOGE "Failed to find node::Start (_ZN4node5StartEiPPc): %s" [VStr err];;
        ret 0
      else
        LOGI "Successfully loaded node::Start function" [];;
        ret 1.

(** Lines 64-94. *)
Definition Java_com_tsyne_phonetop_MainActivity_startNode (scriptPath : ptr) : M Z :=
  let* ok := initNode in
  if ok =? 0 then ret (-1)
  else
    let* path := GetStringUTFChars scriptPath in
    match path with
    | None =>
        LOGE "Failed to get script path string" [];;
        ret (-2)
    | Some path =>
        ext x_strdup [VStr path] (VStr path);;
        upd (set_g_scriptPath (Some path));;
        ReleaseStringUTFChars scriptPath;;
        LOGI "Starting Node.js thread with script: %s" [VStr path];;
        let* result := pthread_create set_g_nodeThread "nodeThreadFunc" (VStr path) in
        if negb (result =? 0) then
          LOGE "Failed to create Node.js thread: %d" [VInt result];;
          ext x_free [VStr path] VVoid;;
          upd (set_g_scriptPath None);;
          ret (-3)
        else
          LOGI "Node.js thread created successfully" [];;
          ret 0
    end.

End NodeRunner.

(** ** ffi_callback.c *)
Module FfiCallback.

(** Lines 8-12: [callback] is cast to [EventCallback] and called with the
    event. *)
Definition callEventCallback (callback : ptr) (eventJson : string) : M unit :=
  if negb (is_NULL callback) then call_void callback [VStr eventJson]
  else ret tt.

End FfiCallback.

(** ** The process as a transition system

    The host calls the JNI entry points in any order, from any thread and
    against any world; the threads the adapter starts run their bodies; the
    peer calls the render callback; and the host's own start-up loads
    libraries.  A thread that is still inside a peer entry point leaves the
    process running; after a fault there is no process left. *)
Inductive Call : Type :=
| c_JNI_OnLoad (vm : ptr)
| c_TsyneInit (headless : Z)
| c_StartBridgeMsgpackUDS (testMode : Z)
| c_StartBridgeGrpc (testMode : Z)
| c_startBridgeInBackground (testMode : Z) (socketDir : ptr)
| c_getBridgeSocketPath
| c_startEmbeddedBridge (width height : Z) (socketDir renderTarget : ptr)
| c_setScreenSize (width height : Z)
| c_sendTouchDown (x y pointerId : Z)
| c_sendTouchMove (x y pointerId : Z)
| c_sendTouchUp (x y pointerId : Z)
| c_startNode (scriptPath : ptr)
| c_bridgeThreadFunc
| c_embeddedBridgeThreadFunc
| c_nodeThreadFunc (scriptPath : string)
| c_nativeRenderCallback (pixels : ptr) (width height stride : Z).

Definition returning {A} (f : A -> Val) (m : M A) : M Val :=
  let* a := m in ret (f a).

Definition exec (c : Call) : M Val :=
  match c with
  | c_JNI_OnLoad vm => returning VInt (JniWrapper.JNI_OnLoad vm)
  | c_TsyneInit h =>
      returning VInt (JniWrapper.Java_com_tsyne_phonetop_MainActivity_TsyneInit h)
  | c_StartBridgeMsgpackUDS m =>
      returning VInt (JniWrapper.Java_com_tsyne_phonetop_MainActivity_StartBridgeMsgpackUDS m)
  | c_StartBridgeGrpc m =>
      returning VInt (JniWrapper.Java_com_tsyne_phonetop_MainActivity_StartBridgeGrpc m)
  | c_startBridgeInBackground m d =>
      returning VInt
        (JniWrapper.Java_com_tsyne_phonetop_MainActivity_startBridgeInBackground m d)
  | c_getBridgeSocketPath =>
      returning VStr JniWrapper.Java_com_tsyne_phonetop_MainActivity_getBridgeSocketPath
  | c_startEmbeddedBridge wd ht d t =>
      returning VInt
        (JniWrapper.Java_com_tsyne_phonetop_MainActivity_startEmbeddedBridge wd ht d t)
  | c_setScreenSize wd ht =>
      returning (fun _ => VVoid)
        (JniWrapper.Java_com_tsyne_phonetop_MainActivity_setScreenSize wd ht)
  | c_sendTouchDown x y i =>
      returning (fun _ => VVoid)
        (JniWrapper.Java_com_tsyne_phonetop_MainActivity_sendTouchDown x y i)
  | c_sendTouchMove x y i =>
      returning (fun _ => VVoid)
        (JniWrapper.Java_com_tsyne_phonetop_MainActivity_sendTouchMove x y i)
  | c_sendTouchUp x y i =>
      returning (fun _ => VVoid)
        (JniWrapper.Java_com_tsyne_phonetop_MainActivity_sendTouchUp x y i)
  | c_startNode s =>
      returning VInt (NodeRunner.Java_com_tsyne_phonetop_MainActivity_startNode s)
  | c_bridgeThreadFunc => returning (fun _ => VPtr NULL) JniWrapper.bridgeThreadFunc
  | c_embeddedBridgeThreadFunc =>
      returning (fun _ => VPtr NULL) JniWrapper.embeddedBridgeThreadFunc
  | c_nodeThreadFunc s => returning (fun _ => VPtr NULL) (NodeRunner.nodeThreadFunc s)
  | c_nativeRenderCallback px wd ht st =>
      returning (fun _ => VVoid) (JniWrapper.nativeRenderCallback px wd ht st)
  end.

Inductive step : Proc -> Proc -> Prop :=
| step_call (w : World) (self : Z) (c : Call) (p p' : Proc) :
    state_of (exec c w self p) = Some p' -> step p p'
| step_host_load (name : string) (h : positive) (p : Proc) :
    resident p !! name = None ->
    step p (set_resident (<[name := h]> (resident p)) p).

(** The states a process can be in: those that a process started with some
    libraries resident and all statics zeroed reaches in finitely many steps. *)
Definition reachable (p : Proc) : Prop :=
  exists libs, rtc step (boot libs) p.

(** The cached handle and entry-point addresses of each peer library. *)
Definition bridge_cache (p : Proc) : list ptr :=
  [g_bridgeHandle p; g_TsyneInit p; g_StartBridgeMsgpackUDS p;
   g_StartBridgeMsgpackUDSWithDir p; g_StartBridgeGrpc p;
   g_StartBridgeAndroidEmbedded p; g_SetAndroidRenderCallback p;
   g_SetAndroidScreenSize p; g_SendAndroidTouchDown p; g_SendAndroidTouchMove p;
   g_SendAndroidTouchUp p].

Definition node_cache (p : Proc) : list ptr :=
  [g_nodeHandle p; g_nodeStart p].

(** A [dlopen] event asks for no-load semantics when [RTLD_NOLOAD] is among
    its flags. *)
Definition requests_noload (e : Event) : bool :=
  match e with
  | ECall x_dlopen [_; VInt flags] _ => negb (Z.land flags RTLD_NOLOAD =? 0)
  | ECall x_dlopen _ _ => false
  | _ => true
  end.

Definition is_call_to (f : Ext) (e : Event) : bool :=
  match e with
  | ECall g _ _ => bool_decide (f = g)
  | ECallPtr _ _ => false
  end.

(** The same world with another behaviour of the code behind the entry
    points. *)
Definition with_entry (e : positive -> list Val -> option Z) (w : World) : World :=
  mkWorld (on_disk w) (symbols w) (dlerror_msg w) e (getpid_res w)
          (pthread_create_res w) (attach_ok w) (string_chars w) (global_ref w)
          (object_class w) (method_id w) (direct_buffer w).

(** ** Relations between the state before and after a computation *)

(** [m] keeps [R] when every state it can leave the process in is related by
    [R] to the state it started from. *)
Definition preserves {A} (R : relation Proc) (m : M A) : Prop :=
  forall w self p, from_option (R p) True (state_of (m w self p)).

Definition unchanged {B} (f : Proc -> B) : relation Proc :=
  fun p p' => f p' = f p.

(** Once [g_TsyneInit] is set the bridge cache stays as it is; likewise the
    node cache once [g_nodeStart] is set. *)
Definition bridge_stable : relation Proc :=
  fun p p' => g_TsyneInit p <> NULL -> bridge_cache p' = bridge_cache p.

Definition node_stable : relation Proc :=
  fun p p' => g_nodeStart p <> NULL -> node_cache p' = node_cache p.

(** A cached entry point comes from a library that is resident. *)
Definition linked (p : Proc) : Prop :=
  (g_TsyneInit p <> NULL -> is_Some (resident p !! "libtsyne-bridge.so")) /\
  (g_nodeStart p <> NULL -> is_Some (resident p !! "libnode.so")).

Definition keeps_linked : relation Proc :=
  fun p p' => linked p -> linked p'.

(** ** Sample worlds and states *)
Module Sample.

Definition libs : gmap string positive :=
  {[ "libtsyne-bridge.so" := 1%positive; "libnode.so" := 2%positive ]}.

(** A bridge library that exports every entry point, at addresses 10 to 19,
    and a node library that exports [node::Start] at 30. *)
Definition full_symbols (h : positive) (s : string) : ptr :=
  if (h =? 1)%positive then
    if String.eqb s "TsyneInit" then Addr 10
    else if String.eqb s "StartBridgeMsgpackUDS" then Addr 11
    else if String.eqb s "StartBridgeMsgpackUDSWithDir" then Addr 12
    else if String.eqb s "StartBridgeGrpc" then Addr 13
    else if String.eqb s "StartBridgeAndroidEmbedded" then Addr 14
    else if String.eqb s "SetAndroidRenderCallback" then Addr 15
    else if String.eqb s "SetAndroidScreenSize" then Addr 16
    else if String.eqb s "SendAndroidTouchDown" then Addr 17
    else if String.eqb s "SendAndroidTouchMove" then Addr 18
    else if String.eqb s "SendAndroidTouchUp" then Addr 19
    else NULL
  else if (h =? 2)%positive then
    if String.eqb s "_ZN4node5StartEiPPc" then Addr 30 else NULL
  else NULL.

(** The same bridge library without [StartBridgeMsgpackUDS]. *)
Definition partial_symbols (h : positive) (s : string) : ptr :=
  if String.eqb s "StartBridgeMsgpackUDS" then NULL else full_symbols h s.

(** Only the three mandatory entry points. *)
Definition minimal_symbols (h : positive) (s : string) : ptr :=
  if (h =? 1)%positive then
    if String.eqb s "TsyneInit" then Addr 10
    else if String.eqb s "StartBridgeMsgpackUDS" then Addr 11
    else if String.eqb s "StartBridgeGrpc" then Addr 13
    else NULL
  else NULL.

Fixpoint copies (n : nat) (c : ascii) : string :=
  match n with
  | O => EmptyString
  | S n' => String c (copies n' c)
  end.

Definition long_dir : string := copies 300 "a"%char.

(** Java strings: object 5 is ["/tmp/custom"], object 6 a directory name of
    300 bytes, anything else a script path. *)
Definition chars (a : positive) : option string :=
  if (a =? 5)%positive then Some "/tmp/custom"
  else if (a =? 6)%positive then Some long_dir
  else Some "/data/app/main.js".

(** Every entry point returns its own address as its code, except the
    servers at 12 and 14, which never return. *)
Definition code (a : positive) (args : list Val) : option Z :=
  if (a =? 12)%positive || (a =? 14)%positive then None else Some (Z.pos a).

(** Class 50 has [onFrame]; no other class has it. *)
Definition methods (c : positive) (name sig : string) : ptr :=
  if (c =? 50)%positive then Addr 60 else NULL.

Definition world : World :=
  mkWorld libs full_symbols "undefined symbol" code 4242 (0, 7)
          (fun _ => true) chars (fun a => Addr a) (fun a => a) methods
          (fun _ _ => Addr 70).

(** The same device seen from a process with another id. *)
Definition sibling_world : World :=
  mkWorld libs full_symbols "undefined symbol" code 4243 (0, 7)
          (fun _ => true) chars (fun a => Addr a) (fun a => a) methods
          (fun _ _ => Addr 70).

Definition partial_world : World :=
  mkWorld libs partial_symbols "undefined symbol" (fun _ _ => Some 0) 4242 (0, 7)
          (fun _ => true) chars (fun a => Addr a) (fun a => a) methods
          (fun _ _ => Addr 70).

Definition minimal_world : World :=
  mkWorld libs minimal_symbols "undefined symbol" code 4242 (0, 7)
          (fun _ => true) chars (fun a => Addr a) (fun a => a) methods
          (fun _ _ => Addr 70).

(** A VM whose global references differ from the local ones they were
    made from. *)
Definition shifting_refs_world : World :=
  mkWorld libs full_symbols "undefined symbol" code 4242 (0, 7)
          (fun _ => true) chars (fun a => Addr (a + 100)) (fun a => a) methods
          (fun _ _ => Addr 70).

(** A VM that refuses to attach threads. *)
Definition closed_vm_world : World :=
  mkWorld libs full_symbols "undefined symbol" code 4242 (0, 7)
          (fun _ => false) chars (fun a => Addr a) (fun a => a) methods
          (fun _ _ => Addr 70).

(** A process that has run out of threads: [pthread_create] returns
    [EAGAIN]. *)
Definition no_thread_world : World :=
  mkWorld libs full_symbols "undefined symbol" code 4242 (11, 0)
          (fun _ => true) chars (fun a => Addr a) (fun a => a) methods
          (fun _ _ => Addr 70).

(** The state a computation leaves, [d] after a fault. *)
Definition after {A} (o : Outcome A) (d : Proc) : Proc :=
  default d (state_of o).

(** The process with both libraries resident, before any call, and the
    process with neither. *)
Definition fresh : Proc := boot libs.
Definition bare : Proc := boot ∅.

(** After a first [TsyneInit] in the full world. *)
Definition ready : Proc :=
  after (JniWrapper.Java_com_tsyne_phonetop_MainActivity_TsyneInit 0 world 1 fresh) fresh.

(** After [JNI_OnLoad] and an embedded start that registered object 50. *)
Definition rendering : Proc :=
  after (JniWrapper.Java_com_tsyne_phonetop_MainActivity_startEmbeddedBridge
           1080 1920 (Addr 5) (Addr 50) world 1
           (after (JniWrapper.JNI_OnLoad (Addr 40) world 1 fresh) fresh)) fresh.

(** After a background start with the 300-byte directory. *)
Definition long_dir_proc : Proc :=
  after (JniWrapper.Java_com_tsyne_phonetop_MainActivity_startBridgeInBackground
           0 (Addr 6) world 1 fresh) fresh.

(** After [ready], a background start with ["/tmp/custom"]. *)
Definition busy : Proc :=
  after (exec (c_startBridgeInBackground 0 (Addr 5)) world 1 ready) ready.

(** After a first [startNode]. *)
Definition node_ready : Proc :=
  after (NodeRunner.Java_com_tsyne_phonetop_MainActivity_startNode (Addr 7) world 1 fresh)
        fresh.

Definition node_busy : Proc :=
  after (exec (c_sendTouchUp 0 0 0) world 1 node_ready) node_ready.

(** After a first [TsyneInit] that failed for want of
    [StartBridgeMsgpackUDS]: [g_TsyneInit] is set, the later pointers are
    not. *)
Definition stale : Proc :=
  after (JniWrapper.Java_com_tsyne_phonetop_MainActivity_TsyneInit 0 partial_world 1 fresh)
        fresh.

End Sample.

(** A computation is blind to the entry points when its outcome does not
    depend on what the code behind them does. *)
Definition entry_blind {A} (m : M A) : Prop :=
  forall code w self p, m (with_entry code w) self p = m w self p.

(** ** The delivery contract as the specification words it

    Kept beside the code for comparison: on an attached thread, dispatch
    without detaching and stay attached; on a thread that is not attached,
    attach, dispatch, detach, and end detached. *)
Definition delivers_as_worded (w : World) (self : Z) (p : Proc) (pixels : ptr)
    (width height stride : Z) : Prop :=
  let o := JniWrapper.nativeRenderCallback pixels width height stride w self p in
  let did f := existsb (is_call_to f) (trace_of o) in
  (self ∈ jvm_attached p ->
     did x_CallVoidMethod = true /\ did x_DetachCurrentThread = false /\
     exists p', state_of o = Some p' /\ self ∈ jvm_attached p') /\
  (self ∉ jvm_attached p ->
     did x_AttachCurrentThread = true /\ did x_CallVoidMethod = true /\
     did x_DetachCurrentThread = true /\
     exists p', state_of o = Some p' /\ self ∉ jvm_attached p').

(** ** Invariants of the reachable states *)

(** [I] holds after whenever it held before. *)
Definition keeps (I : Proc -> Prop) : relation Proc :=
  fun p p' => I p -> I p'.

(** The stored directory fits the static it lives in, NUL included. *)
Definition dir_fits (p : Proc) : Prop :=
  (String.length (g_socketDir p) <= 511)%nat.

(** A registered render target comes with its dispatch method. *)
Definition target_has_method (p : Proc) : Prop :=
  g_renderSurface p <> NULL -> g_onFrameMethod p <> NULL.

(** The entry points are filled in the order in which
    [initFunctionPointers] looks them up: a later one is set only when the
    mandatory ones before it are. *)
Definition resolved_in_order (p : Proc) : Prop :=
  (g_TsyneInit p <> NULL -> g_bridgeHandle p <> NULL) /\
  (g_StartBridgeMsgpackUDS p <> NULL -> g_TsyneInit p <> NULL) /\
  (g_StartBridgeMsgpackUDSWithDir p <> NULL -> g_StartBridgeMsgpackUDS p <> NULL) /\
  (g_StartBridgeGrpc p <> NULL -> g_StartBridgeMsgpackUDS p <> NULL) /\
  (g_StartBridgeAndroidEmbedded p <> NULL -> g_StartBridgeGrpc p <> NULL) /\
  (g_SetAndroidRenderCallback p <> NULL -> g_StartBridgeGrpc p <> NULL) /\
  (g_SetAndroidScreenSize p <> NULL -> g_StartBridgeGrpc p <> NULL) /\
  (g_SendAndroidTouchDown p <> NULL -> g_StartBridgeGrpc p <> NULL) /\
  (g_SendAndroidTouchMove p <> NULL -> g_StartBridgeGrpc p <> NULL) /\
  (g_SendAndroidTouchUp p <> NULL -> g_StartBridgeGrpc p <> NULL) /\
  (g_nodeStart p <> NULL -> g_nodeHandle p <> NULL).

(** A computation stays on its side of the boundary when it makes no call
    through a function pointer, and so never waits inside the peer. *)
Definition stays_outside {A} (m : M A) : Prop :=
  forall w self p,
    existsb is_ptr_call (trace_of (m w self p)) = false /\
    forall p' t, m w self p <> Blocked p' t.

(** A computation always returns when, in every world and state, it ends
    with a result: it neither faults nor waits. *)
Definition always_returns {A} (m : M A) : Prop :=
  forall w self p, exists a p' t, m w self p = Done a p' t.

(** The entry points that the host calls on its own threads to start
    something in the background or to ask for the socket path. *)
Definition is_launcher (c : Call) : bool :=
  match c with
  | c_JNI_OnLoad _ | c_startBridgeInBackground _ _ | c_getBridgeSocketPath
  | c_startEmbeddedBridge _ _ _ _ | c_startNode _ => true
  | _ => false
  end.

(** The calls that never touch the attachment of a thread: all but the
    embedded worker and the render callback. *)
Definition leaves_threads_alone (c : Call) : bool :=
  match c with
  | c_embeddedBridgeThreadFunc | c_nativeRenderCallback _ _ _ _ => false
  | _ => true
  end.

(** ** Reading a decimal number back

    The number denoted by the run of decimal digits at the head of a
    string, continuing from [v]: the inverse of what [%d] writes, used to
    show that formatting a process id loses nothing. *)
Definition is_digit (c : ascii) : bool :=
  (48 <=? nat_of_ascii c)%nat && (nat_of_ascii c <=? 57)%nat.

Definition digit_value (c : ascii) : Z := Z.of_nat (nat_of_ascii c) - 48.

Fixpoint read_digits (v : Z) (s : string) : Z :=
  match s with
  | String c s' =>
      if is_digit c then read_digits (10 * v + digit_value c) s' else v
  | EmptyString => v
  end.

(** * Proofs *)

#[local] Arguments lookup : simpl never.

(** ** Frame rules *)

#[global] Instance unchanged_preorder {B} (f : Proc -> B) : PreOrder (unchanged f).
Proof. split; [by intros p | intros p q r H1 H2; unfold unchanged in *; congruence]. Qed.

#[global] Instance bridge_stable_preorder : PreOrder bridge_stable.
Proof.
  split; [intros p Hp; reflexivity | intros p q r H1 H2 Hp].
  specialize (H1 Hp). rewrite <- H1. apply H2.
  unfold bridge_cache in H1. injection H1 as _ -> _. exact Hp.
Qed.

#[global] Instance node_stable_preorder : PreOrder node_stable.
Proof.
  split; [intros p Hp; reflexivity | intros p q r H1 H2 Hp].
  specialize (H1 Hp). rewrite <- H1. apply H2.
  unfold node_cache in H1. injection H1 as _ ->. exact Hp.
Qed.

#[global] Instance keeps_linked_preorder : PreOrder keeps_linked.
Proof. split; [intros p Hp; exact Hp | intros p q r H1 H2 Hp; auto]. Qed.

Section Frame.
Context (R : relation Proc) `{!PreOrder R}.

Lemma preserves_ret {A} (a : A) : preserves R (ret a).
Proof. intros w self p. simpl. reflexivity. Qed.

Lemma preserves_bind {A B} (m : M A) (k : A -> M B) :
  preserves R m -> (forall a, preserves R (k a)) -> preserves R (bind m k).
Proof.
  intros Hm Hk w self p. specialize (Hm w self p). unfold bind.
  destruct (m w self p) as [a p1 t1|p1 t1|t1]; simpl in *; try done.
  specialize (Hk a w self p1).
  destruct (k a w self p1) as [b p2 t2|p2 t2|t2]; simpl in *; try done;
    by etrans.
Qed.

Lemma preserves_get {A} (f : Proc -> A) : preserves R (get f).
Proof. intros w self p. simpl. reflexivity. Qed.

Lemma preserves_ext f args res : preserves R (ext f args res).
Proof. intros w self p. simpl. reflexivity. Qed.

Lemma preserves_upd (f : Proc -> Proc) :
  (forall p, R p (f p)) -> preserves R (upd f).
Proof. intros Hf w self p. simpl. apply Hf. Qed.

Lemma preserves_when c m : preserves R m -> preserves R (when c m).
Proof. intros Hm. destruct c; simpl; [done | apply preserves_ret]. Qed.

Lemma preserves_call_int f args : preserves R (call_int f args).
Proof.
  intros w self p. unfold call_int. destruct f; simpl; [done|].
  destruct (entry w a args); simpl; reflexivity.
Qed.

Lemma preserves_dlsym h s : preserves R (dlsym h s).
Proof. intros w self p. simpl. reflexivity. Qed.

Lemma preserves_dlerror : preserves R dlerror.
Proof. intros w self p. simpl. reflexivity. Qed.

Lemma preserves_getpid : preserves R getpid.
Proof. intros w self p. simpl. reflexivity. Qed.

Lemma preserves_GetEnv : preserves R GetEnv.
Proof. intros w self p. simpl. reflexivity. Qed.

Lemma preserves_NewDirectByteBuffer a c : preserves R (NewDirectByteBuffer a c).
Proof. intros w self p. simpl. reflexivity. Qed.

Lemma preserves_GetStringUTFChars s : preserves R (GetStringUTFChars s).
Proof. intros w self p. destruct s; simpl; [done | reflexivity]. Qed.

Lemma preserves_NewGlobalRef o : preserves R (NewGlobalRef o).
Proof. intros w self p. simpl. reflexivity. Qed.

Lemma preserves_GetObjectClass o : preserves R (GetObjectClass o).
Proof. intros w self p. destruct o; simpl; [done | reflexivity]. Qed.

Lemma preserves_GetMethodID c n s : preserves R (GetMethodID c n s).
Proof. intros w self p. destruct c; simpl; [done | reflexivity]. Qed.

Lemma preserves_pthread_create store r a :
  (forall t p, R p (store t p)) -> preserves R (pthread_create store r a).
Proof.
  intros Hs w self p. unfold pthread_create.
  destruct (fst (pthread_create_res w) =? 0); simpl; [apply Hs | reflexivity].
Qed.

Lemma preserves_dlopen_noload name flags :
  Z.land flags RTLD_NOLOAD <> 0 -> preserves R (dlopen name flags).
Proof.
  intros Hf w self p. unfold dlopen.
  destruct (resident p !! name); simpl; [reflexivity|].
  destruct (Z.eqb_spec (Z.land flags RTLD_NOLOAD) 0); [done|]. simpl. reflexivity.
Qed.

Lemma preserves_AttachCurrentThread :
  (forall s p, R p (set_jvm_attached s p)) -> preserves R AttachCurrentThread.
Proof.
  intros Hs w self p. unfold AttachCurrentThread.
  destruct (decide (self ∈ jvm_attached p)); simpl; [reflexivity|].
  destruct (attach_ok w self); simpl; [apply Hs | reflexivity].
Qed.

Lemma preserves_DetachCurrentThread :
  (forall s p, R p (set_jvm_attached s p)) -> preserves R DetachCurrentThread.
Proof. intros Hs w self p. simpl. apply Hs. Qed.
End Frame.

(** [frame] proves [preserves R m] by following the structure of [m]: the
    rules above for the primitives, a case split at every branch, and the
    lemmas of the [frame] hint database for the routines that need a proof
    of their own. *)
Ltac head_of t := lazymatch t with ?f _ => head_of f | _ => t end.

Ltac frame_side :=
  intros; first [ reflexivity | (intro; reflexivity) | (let H := fresh in intro H; exact H) ].

Create HintDb frame discriminated.

Ltac frame_tc := lazymatch goal with |- PreOrder _ => apply _ | |- _ => idtac end.

Ltac frame_rule :=
  lazymatch goal with
  | |- forall _, _ => intros ?
  | |- preserves _ (bind _ _) => apply preserves_bind; frame_tc
  | |- preserves _ (ret _) => apply preserves_ret; frame_tc
  | |- preserves _ (get _) => apply preserves_get; frame_tc
  | |- preserves _ (ext _ _ _) => apply preserves_ext; frame_tc
  | |- preserves _ (upd _) => apply preserves_upd; frame_tc; frame_side
  | |- preserves _ (when _ _) => apply preserves_when; frame_tc
  | |- preserves _ (call_int _ _) => apply preserves_call_int; frame_tc
  | |- preserves _ (dlsym _ _) => apply preserves_dlsym; frame_tc
  | |- preserves _ dlerror => apply preserves_dlerror; frame_tc
  | |- preserves _ getpid => apply preserves_getpid; frame_tc
  | |- preserves _ GetEnv => apply preserves_GetEnv; frame_tc
  | |- preserves _ (NewDirectByteBuffer _ _) => apply preserves_NewDirectByteBuffer; frame_tc
  | |- preserves _ (GetStringUTFChars _) => apply preserves_GetStringUTFChars; frame_tc
  | |- preserves _ (NewGlobalRef _) => apply preserves_NewGlobalRef; frame_tc
  | |- preserves _ (GetObjectClass _) => apply preserves_GetObjectClass; frame_tc
  | |- preserves _ (GetMethodID _ _ _) => apply preserves_GetMethodID; frame_tc
  | |- preserves _ (pthread_create _ _ _) =>
      apply preserves_pthread_create; frame_tc; frame_side
  | |- preserves _ (dlopen _ _) => apply preserves_dlopen_noload; frame_tc; done
  | |- preserves _ AttachCurrentThread =>
      apply preserves_AttachCurrentThread; frame_tc; frame_side
  | |- preserves _ DetachCurrentThread =>
      apply preserves_DetachCurrentThread; frame_tc; frame_side
  | |- preserves _ (if ?b then _ else _) => destruct b
  | |- preserves _ (match ?x with _ => _ end) => destruct x
  | |- preserves _ ?m => let h := head_of m in unfold h
  end.

Ltac frame_step := first [ solve [ auto 1 with frame nocore ] | frame_rule ].

Ltac frame := repeat frame_step.

(** [run_m] unfolds the monad and the outside functions; [run_cases] then
    runs the code on a symbolic state, splitting on each test it cannot
    decide, innermost first. *)
Ltac destruct_stuck :=
  match goal with
  | |- context [is_NULL ?x] => destruct x eqn:?
  | |- context [match ?x with _ => _ end] =>
      lazymatch x with
      | context [match _ with _ => _ end] => fail
      | _ => destruct x eqn:?
      end
  end.

Ltac run_m :=
  unfold JniWrapper.LOGI, JniWrapper.LOGE, NodeRunner.LOGI, NodeRunner.LOGE,
    android_log_print, returning, call_void, when, bind, get, upd, ret, ext,
    dlopen, dlsym, dlerror, call_int, getpid, usleep, pthread_create,
    GetEnv, AttachCurrentThread, DetachCurrentThread, NewDirectByteBuffer,
    CallVoidMethod, DeleteLocalRef, GetStringUTFChars, ReleaseStringUTFChars,
    NewStringUTF, NewGlobalRef, DeleteGlobalRef, GetObjectClass, GetMethodID.

Ltac run_cases := repeat (simpl; destruct_stuck); simpl.

(** ** The resolution routines *)

Lemma initFunctionPointers_cached w self p :
  g_TsyneInit p <> NULL -> JniWrapper.initFunctionPointers w self p = Done 1 p [].
Proof.
  intros Hp. unfold JniWrapper.initFunctionPointers; run_m.
  destruct (g_TsyneInit p); [done | reflexivity].
Qed.

Lemma initNode_cached w self p :
  g_nodeStart p <> NULL -> NodeRunner.initNode w self p = Done 1 p [].
Proof.
  intros Hp. unfold NodeRunner.initNode; run_m.
  destruct (g_nodeStart p); [done | reflexivity].
Qed.

Lemma initFunctionPointers_ok w self p r p1 t :
  JniWrapper.initFunctionPointers w self p = Done r p1 t ->
  r <> 0 -> r = 1 /\ g_TsyneInit p1 <> NULL.
Proof.
  unfold JniWrapper.initFunctionPointers; run_m.
  run_cases; intros; simplify_eq/=; try done; split; congruence.
Qed.

Lemma initNode_ok w self p r p1 t :
  NodeRunner.initNode w self p = Done r p1 t ->
  r <> 0 -> r = 1 /\ g_nodeStart p1 <> NULL.
Proof.
  unfold NodeRunner.initNode; run_m.
  run_cases; intros; simplify_eq/=; try done; split; congruence.
Qed.

Lemma initFunctionPointers_returns w self p :
  exists r p1 t1,
    JniWrapper.initFunctionPointers w self p = Done r p1 t1 /\ (r = 0 \/ r = 1) /\
    g_renderSurface p1 = g_renderSurface p /\ g_onFrameMethod p1 = g_onFrameMethod p /\
    existsb (is_call_to x_pthread_create) t1 = false.
Proof.
  unfold JniWrapper.initFunctionPointers; run_m.
  run_cases; eexists _, _, _; (split; [reflexivity|]); simpl; auto.
Qed.

Lemma initFunctionPointers_bridge_stable :
  preserves bridge_stable JniWrapper.initFunctionPointers.
Proof.
  intros w self p. destruct (decide (g_TsyneInit p = NULL)) as [E|E].
  - destruct (state_of _); simpl; [|done]. intros H. done.
  - rewrite initFunctionPointers_cached by done. simpl. reflexivity.
Qed.

Lemma initNode_node_stable : preserves node_stable NodeRunner.initNode.
Proof.
  intros w self p. destruct (decide (g_nodeStart p = NULL)) as [E|E].
  - destruct (state_of _); simpl; [|done]. intros H. done.
  - rewrite initNode_cached by done. simpl. reflexivity.
Qed.

Lemma initFunctionPointers_node_stable :
  preserves node_stable JniWrapper.initFunctionPointers.
Proof. frame. Qed.

Lemma initNode_bridge_stable : preserves bridge_stable NodeRunner.initNode.
Proof. frame. Qed.

Lemma initFunctionPointers_linked : preserves keeps_linked JniWrapper.initFunctionPointers.
Proof.
  intros w self p. unfold JniWrapper.initFunctionPointers; run_m.
  run_cases; try done; intros [Hb Hn]; split; simpl; eauto; done.
Qed.

Lemma initNode_linked : preserves keeps_linked NodeRunner.initNode.
Proof.
  intros w self p. unfold NodeRunner.initNode; run_m.
  run_cases; try done; intros [Hb Hn]; split; simpl; eauto; done.
Qed.

#[local] Hint Resolve initFunctionPointers_bridge_stable initNode_node_stable
  initFunctionPointers_linked initNode_linked : frame.

(** ** What every step keeps *)

Lemma exec_bridge_stable c : preserves bridge_stable (exec c).
Proof. destruct c; frame. Qed.

Lemma exec_node_stable c : preserves node_stable (exec c).
Proof. destruct c; frame. Qed.

Lemma exec_linked c : preserves keeps_linked (exec c).
Proof. destruct c; frame. Qed.

Lemma step_bridge_stable p p' : step p p' -> bridge_stable p p'.
Proof.
  intros [w self c q q' H | name h q H].
  - pose proof (exec_bridge_stable c w self q) as Hc. by rewrite H in Hc.
  - intros _. reflexivity.
Qed.

Lemma step_node_stable p p' : step p p' -> node_stable p p'.
Proof.
  intros [w self c q q' H | name h q H].
  - pose proof (exec_node_stable c w self q) as Hc. by rewrite H in Hc.
  - intros _. reflexivity.
Qed.

Lemma step_linked p p' : step p p' -> keeps_linked p p'.
Proof.
  intros [w self c q q' H | name h q H].
  - pose proof (exec_linked c w self q) as Hc. by rewrite H in Hc.
  - intros [Hb Hn]. split; simpl; intros Hc.
    + destruct (decide (name = "libtsyne-bridge.so")) as [->|Hne].
      * rewrite lookup_insert_eq. eauto.
      * rewrite lookup_insert_ne by done. auto.
    + destruct (decide (name = "libnode.so")) as [->|Hne].
      * rewrite lookup_insert_eq. eauto.
      * rewrite lookup_insert_ne by done. auto.
Qed.

Lemma rtc_step_keeps (R : relation Proc) `{!PreOrder R} p p' :
  (forall q q', step q q' -> R q q') -> rtc step p p' -> R p p'.
Proof.
  intros HR Hrtc. induction Hrtc as [q | q1 q2 q3 H12 _ IH].
  - reflexivity.
  - etrans; [by apply HR | exact IH].
Qed.

Lemma reachable_linked p : reachable p -> linked p.
Proof.
  intros [libs Hrtc].
  apply (rtc_step_keeps keeps_linked _ _ step_linked Hrtc).
  split; simpl; intros H; done.
Qed.

(** ** Render callback (C1) *)

Lemma attach_then_detach (self : Z) (p : Proc) :
  self ∉ jvm_attached p ->
  set_jvm_attached
    (({[self]} ∪ jvm_attached p) ∖ {[self]})
    (set_jvm_attached ({[self]} ∪ jvm_attached p) p) = p.
Proof.
  intros Hout. destruct p; unfold set_jvm_attached; simpl in *. f_equal.
  apply set_eq. intros x.
  rewrite elem_of_difference, elem_of_union, elem_of_singleton.
  split; [by intros [[?|?] ?] | intros Hx; split; [by right | by intros ->]].
Qed.

Lemma rendering_unattached (self : Z) : self ∉ jvm_attached Sample.rendering.
Proof.
  replace (jvm_attached Sample.rendering) with (∅ : gset Z) by (vm_compute; reflexivity).
  apply not_elem_of_empty.
Defined.

(** At the sample input below the contract as worded fails: the thread is not
    attached, the VM refuses the attachment, and the delivery returns
    after an error line without any dispatch. *)
Lemma delivery_without_dispatch :
  ~ delivers_as_worded Sample.closed_vm_world 9 Sample.rendering (Addr 80) 2 2 8.
Proof.
  intros [_ Hfresh].
  assert (9 ∉ jvm_attached Sample.rendering) as Hout by apply rendering_unattached.
  destruct (Hfresh Hout) as (_ & Hd & _). vm_compute in Hd. discriminate.
Qed.

Ltac close_case :=
  first [ done
        | match goal with H : _ = Addr _ |- _ => rewrite H; done end
        | match goal with H : _ \/ _ |- _ => destruct H; discriminate end ].

(** C1 (as amended).  A delivery always returns and leaves the whole process
    state, the set of attached threads included, exactly as it found it.
    With no VM or no render target it does nothing.  Otherwise: on an
    attached thread it creates the buffer, dispatches [onFrame] when the
    buffer and the method id are non-null, and neither attaches nor
    detaches; on a thread that is not attached and that the VM accepts, it
    attaches, does the same, and detaches last; on a thread the VM refuses,
    it logs the error and returns without dispatching. *)
Theorem nativeRenderCallback_restores_attachment (w : World) (self : Z) (p : Proc)
    (pixels : ptr) (width height stride : Z) :
  let buffer := direct_buffer w pixels (wrap_int (height * stride)) in
  let dispatch : list Event :=
    ([ECall x_NewDirectByteBuffer [VPtr pixels; VInt (wrap_int (height * stride))]
       (VPtr buffer)] ++
    (if negb (is_NULL buffer) && negb (is_NULL (g_onFrameMethod p))
     then [ECall x_CallVoidMethod
             [VPtr (g_renderSurface p); VPtr (g_onFrameMethod p); VPtr buffer;
              VInt width; VInt height; VInt stride] VVoid]
     else []) ++
    (if negb (is_NULL buffer) then [ECall x_DeleteLocalRef [VPtr buffer] VVoid]
     else []))%list in
  exists t,
    JniWrapper.nativeRenderCallback pixels width height stride w self p = Done tt p t /\
    (g_javaVM p = NULL \/ g_renderSurface p = NULL -> t = []) /\
    (g_javaVM p <> NULL -> g_renderSurface p <> NULL -> self ∈ jvm_attached p ->
     t = ECall x_GetEnv [VInt JNI_VERSION_1_6] (VInt JNI_OK) :: dispatch) /\
    (g_javaVM p <> NULL -> g_renderSurface p <> NULL -> self ∉ jvm_attached p ->
     attach_ok w self = true ->
     t = ([ECall x_GetEnv [VInt JNI_VERSION_1_6] (VInt JNI_EDETACHED);
           ECall x_AttachCurrentThread [] (VInt JNI_OK)] ++ dispatch ++
          [ECall x_DetachCurrentThread [] (VInt JNI_OK)])%list) /\
    (g_javaVM p <> NULL -> g_renderSurface p <> NULL -> self ∉ jvm_attached p ->
     attach_ok w self = false ->
     t = [ECall x_GetEnv [VInt JNI_VERSION_1_6] (VInt JNI_EDETACHED);
          ECall x_AttachCurrentThread [] (VInt JNI_ERR);
          ECall x_android_log_print
            [VInt ANDROID_LOG_ERROR; VStr "TsyneJNI";
             VStr "Failed to attach thread for render callback"] VVoid]).
Proof.
  intros buffer dispatch. subst dispatch buffer.
  unfold JniWrapper.nativeRenderCallback, JniWrapper.deliver_frame; run_m.
  destruct (g_javaVM p) eqn:Evm; simpl.
  { eexists. split; [reflexivity|]. repeat split; intros; done. }
  destruct (g_renderSurface p) eqn:Esurf; simpl.
  { eexists. split; [reflexivity|]. repeat split; intros; done. }
  destruct (decide (self ∈ jvm_attached p)) as [Hin|Hout]; simpl.
  - destruct (direct_buffer w pixels (wrap_int (height * stride))) eqn:Ebuf; simpl;
      [| destruct (g_onFrameMethod p) eqn:Emid; simpl];
      (eexists; split; [reflexivity|]; repeat split; intros; close_case).
  - destruct (decide (self ∈ jvm_attached p)) as [|_]; [done|].
    destruct (attach_ok w self) eqn:Eok; simpl.
    + destruct (direct_buffer w pixels (wrap_int (height * stride))) eqn:Ebuf; simpl;
        [| destruct (g_onFrameMethod p) eqn:Emid; simpl];
        rewrite (attach_then_detach self p Hout);
        (eexists; split; [reflexivity|]; repeat split; intros; close_case).
    + eexists; split; [reflexivity|]; repeat split; intros; close_case.
Qed.

Lemma nativeRenderCallback_restores_attachment_witness :
  state_of (JniWrapper.nativeRenderCallback (Addr 80) 2 2 8 Sample.world 9 Sample.rendering)
    = Some Sample.rendering /\
  existsb (is_call_to x_CallVoidMethod)
    (trace_of (JniWrapper.nativeRenderCallback (Addr 80) 2 2 8 Sample.world 9
                 Sample.rendering)) = true.
Proof.
  destruct (nativeRenderCallback_restores_attachment Sample.world 9 Sample.rendering
              (Addr 80) 2 2 8) as (t & Hrun & _ & _ & Hfresh & _).
  rewrite Hrun. split; [reflexivity|]. simpl.
  rewrite Hfresh; [reflexivity | discriminate | discriminate | | reflexivity].
  apply rendering_unattached.
Defined.

(** ** A mandatory entry point that is missing (C2) *)

(** What does hold of C2: a resolution that fails is reported as -1 by the
    operation that ran it, before any call into the peer; and the
    background starters return 0 or one of their negative codes. *)
Lemma initFunctionPointers_calls_no_entry_point w self p :
  existsb is_ptr_call (trace_of (JniWrapper.initFunctionPointers w self p)) = false.
Proof. unfold JniWrapper.initFunctionPointers; run_m. run_cases; reflexivity. Qed.

Lemma unlatched_resolution_fails w self p :
  g_TsyneInit p = NULL ->
  (resident p !! "libtsyne-bridge.so" = None \/
   exists h, resident p !! "libtsyne-bridge.so" = Some h /\
     (symbols w h "TsyneInit" = NULL \/ symbols w h "StartBridgeMsgpackUDS" = NULL \/
      symbols w h "StartBridgeGrpc" = NULL)) ->
  result_of (JniWrapper.initFunctionPointers w self p) = Some 0.
Proof.
  intros Hfresh Hmissing. unfold JniWrapper.initFunctionPointers; run_m.
  simpl. rewrite Hfresh. simpl.
  destruct Hmissing as [-> | (h & -> & Hsym)]; [reflexivity|]. simpl.
  destruct (symbols w h "TsyneInit") eqn:E1; [reflexivity|]. simpl.
  destruct (symbols w h "StartBridgeMsgpackUDS") eqn:E2; [reflexivity|]. simpl.
  destruct (symbols w h "StartBridgeGrpc") eqn:E3.
  - destruct (symbols w h "StartBridgeMsgpackUDSWithDir"); reflexivity.
  - destruct Hsym as [?|[?|?]]; discriminate.
Qed.

Lemma failed_resolution_returns_minus_one w self p p1 t1 :
  JniWrapper.initFunctionPointers w self p = Done 0 p1 t1 ->
  (forall x, JniWrapper.Java_com_tsyne_phonetop_MainActivity_TsyneInit x w self p
             = Done (-1) p1 t1) /\
  (forall x, JniWrapper.Java_com_tsyne_phonetop_MainActivity_StartBridgeMsgpackUDS x w self p
             = Done (-1) p1 t1) /\
  (forall x, JniWrapper.Java_com_tsyne_phonetop_MainActivity_StartBridgeGrpc x w self p
             = Done (-1) p1 t1) /\
  (forall x d,
      JniWrapper.Java_com_tsyne_phonetop_MainActivity_startBridgeInBackground x d w self p
      = Done (-1) p1 t1) /\
  (forall wd ht d tg,
      JniWrapper.Java_com_tsyne_phonetop_MainActivity_startEmbeddedBridge wd ht d tg w self p
      = Done (-1) p1 t1).
Proof.
  intros Hinit.
  unfold JniWrapper.Java_com_tsyne_phonetop_MainActivity_TsyneInit,
    JniWrapper.Java_com_tsyne_phonetop_MainActivity_StartBridgeMsgpackUDS,
    JniWrapper.Java_com_tsyne_phonetop_MainActivity_StartBridgeGrpc,
    JniWrapper.Java_com_tsyne_phonetop_MainActivity_startBridgeInBackground,
    JniWrapper.Java_com_tsyne_phonetop_MainActivity_startEmbeddedBridge, bind.
  rewrite Hinit. simpl. rewrite app_nil_r. repeat split; reflexivity.
Qed.

Lemma background_starters_codes w self p :
  (forall x d r,
      result_of (JniWrapper.Java_com_tsyne_phonetop_MainActivity_startBridgeInBackground
                   x d w self p) = Some r ->
      r = 0 \/ r = -1 \/ r = -2) /\
  (forall wd ht d tg r,
      result_of (JniWrapper.Java_com_tsyne_phonetop_MainActivity_startEmbeddedBridge
                   wd ht d tg w self p) = Some r ->
      r = 0 \/ r = -1 \/ r = -2 \/ r = -3 \/ r = -4) /\
  (forall s r,
      result_of (NodeRunner.Java_com_tsyne_phonetop_MainActivity_startNode s w self p)
        = Some r ->
      r = 0 \/ r = -1 \/ r = -2 \/ r = -3).
Proof.
  destruct (initFunctionPointers_returns w self p)
    as (ok & p1 & t1 & Hinit & Hok & _).
  split; [| split].
  - intros x d r.
    unfold JniWrapper.Java_com_tsyne_phonetop_MainActivity_startBridgeInBackground,
      bind at 1.
    rewrite Hinit. destruct Hok as [-> | ->]; simpl; [intros [= <-]; auto|].
    unfold JniWrapper.store_socketDir; run_m.
    run_cases; intros [= <-]; auto.
  - intros wd ht d tg r.
    unfold JniWrapper.Java_com_tsyne_phonetop_MainActivity_startEmbeddedBridge,
      bind at 1.
    rewrite Hinit. destruct Hok as [-> | ->]; simpl; [intros [= <-]; auto|].
    unfold JniWrapper.store_socketDir; run_m.
    run_cases; intros [= <-]; auto 6.
  - intros s r.
    unfold NodeRunner.Java_com_tsyne_phonetop_MainActivity_startNode,
      NodeRunner.initNode; run_m.
    run_cases; intros [= <-]; auto.
Qed.

(** C2 (the code departs from it).  The bridge library is resident and
    exports [TsyneInit] but not [StartBridgeMsgpackUDS].  The first call of
    [TsyneInit] returns -1 and calls nothing in the peer, but it leaves
    [g_TsyneInit] set, which is what the initialization routine tests to
    decide that it has already run.  So the second call calls [TsyneInit] in
    the peer and returns its code, 0, and [StartBridgeMsgpackUDS] jumps
    through its null pointer. *)
Theorem missing_mandatory_entry_point_not_latched :
  let first :=
    JniWrapper.Java_com_tsyne_phonetop_MainActivity_TsyneInit 0
      Sample.partial_world 1 Sample.fresh in
  let p1 := Sample.after first Sample.fresh in
  symbols Sample.partial_world 1 "StartBridgeMsgpackUDS" = NULL /\
  result_of first = Some (-1) /\
  existsb is_ptr_call (trace_of first) = false /\
  g_TsyneInit p1 = Addr 10 /\
  g_StartBridgeMsgpackUDS p1 = NULL /\
  JniWrapper.initFunctionPointers Sample.partial_world 1 p1 = Done 1 p1 [] /\
  JniWrapper.Java_com_tsyne_phonetop_MainActivity_TsyneInit 0
    Sample.partial_world 1 p1 =
  Done 0 p1
    [ECall x_android_log_print
       [VInt ANDROID_LOG_INFO; VStr "TsyneJNI"; VStr "JNI: Calling TsyneInit(%d)";
        VInt 0] VVoid;
     ECallPtr 10 [VInt 0];
     ECall x_android_log_print
       [VInt ANDROID_LOG_INFO; VStr "TsyneJNI"; VStr "JNI: TsyneInit returned %d";
        VInt 0] VVoid] /\
  JniWrapper.Java_com_tsyne_phonetop_MainActivity_StartBridgeMsgpackUDS 0
    Sample.partial_world 1 p1 =
  Fault
    [ECall x_android_log_print
       [VInt ANDROID_LOG_INFO; VStr "TsyneJNI";
        VStr "JNI: Calling StartBridgeMsgpackUDS(%d)"; VInt 0] VVoid].
Proof. repeat split; vm_compute; reflexivity. Qed.

(** ** Socket path (C3) *)

Lemma str_take_all (n : nat) (s : string) :
  (String.length s <= n)%nat -> str_take n s = s.
Proof.
  revert n. induction s as [|c s IH]; intros [|n] Hlen; simpl in *;
    try reflexivity; try lia.
  f_equal. apply IH. lia.
Qed.

Lemma str_length_append (s1 s2 : string) :
  String.length (s1 +:+ s2) = (String.length s1 + String.length s2)%nat.
Proof. induction s1 as [|c s1 IH]; simpl; [reflexivity | by rewrite IH]. Qed.

Lemma dec_digits_length (fuel : nat) (n : Z) (acc : string) :
  (String.length (dec_digits fuel n acc) <= fuel + String.length acc)%nat.
Proof.
  revert n acc. induction fuel as [|fuel IH]; intros n acc; simpl; [lia|].
  destruct (n <? 10); simpl; [lia|].
  etrans; [apply IH|]. simpl. lia.
Qed.

Lemma fmt_d_length (n : Z) : (String.length (fmt_d n) <= 11)%nat.
Proof.
  unfold fmt_d. destruct (n <? 0); simpl.
  - pose proof (dec_digits_length 10 (- n) EmptyString). simpl in *. lia.
  - pose proof (dec_digits_length 10 n EmptyString). simpl in *. lia.
Qed.

Example fmt_d_samples :
  fmt_d 0 = "0" /\ fmt_d 4242 = "4242" /\ fmt_d 2147483647 = "2147483647" /\
  fmt_d (-17) = "-17".
Proof. repeat split; reflexivity. Qed.

Lemma getBridgeSocketPath_eval (w : World) (self : Z) (p : Proc) :
  JniWrapper.Java_com_tsyne_phonetop_MainActivity_getBridgeSocketPath w self p =
  let socketPath :=
    snprintf 256
      ((if JniWrapper.nonempty (g_socketDir p) then g_socketDir p else "/data/local/tmp")
       +:+ "/tsyne-" +:+ fmt_d (getpid_res w) +:+ ".sock") in
  Done socketPath p
    [ECall x_getpid [] (VInt (getpid_res w));
     ECall x_android_log_print
       [VInt ANDROID_LOG_INFO; VStr "TsyneJNI"; VStr "JNI: Socket path: %s";
        VStr socketPath] VVoid;
     ECall x_NewStringUTF [VStr socketPath] (VStr socketPath)].
Proof. reflexivity. Qed.

(** A stored directory of 300 bytes: the query returns 255 bytes, not the
    316 bytes of the directory followed by ["/tsyne-4242.sock"]. *)
Lemma socket_path_cut_short :
  g_socketDir Sample.long_dir_proc = Sample.long_dir /\
  result_of (JniWrapper.Java_com_tsyne_phonetop_MainActivity_getBridgeSocketPath
               Sample.world 1 Sample.long_dir_proc) = Some (Sample.copies 255 "a") /\
  Sample.copies 255 "a" <> Sample.long_dir +:+ "/tsyne-4242.sock".
Proof.
  split; [vm_compute; reflexivity|]. split; [vm_compute; reflexivity|].
  intros H. apply (f_equal String.length) in H. vm_compute in H. discriminate.
Qed.

(** C3 (as amended).  The path query changes no state.  With an empty
    socket directory it returns exactly ["/data/local/tmp/tsyne-<pid>.sock"].
    With a stored directory [D] it returns the first 255 bytes of
    ["D/tsyne-<pid>.sock"]: the whole string when that has at most 255
    bytes, which is the case whenever [D] has at most 232.  Storing a
    directory keeps its first 511 bytes. *)
Theorem socket_path_query (w : World) (self : Z) (p : Proc) :
  let pid := fmt_d (getpid_res w) in
  let query :=
    JniWrapper.Java_com_tsyne_phonetop_MainActivity_getBridgeSocketPath w self p in
  state_of query = Some p /\
  (g_socketDir p = "" ->
   result_of query = Some ("/data/local/tmp/tsyne-" +:+ pid +:+ ".sock")) /\
  (g_socketDir p <> "" ->
   result_of query =
   Some (str_take 255 (g_socketDir p +:+ "/tsyne-" +:+ pid +:+ ".sock"))) /\
  (g_socketDir p <> "" ->
   (String.length (g_socketDir p +:+ "/tsyne-" +:+ pid +:+ ".sock") <= 255)%nat ->
   result_of query = Some (g_socketDir p +:+ "/tsyne-" +:+ pid +:+ ".sock")) /\
  (g_socketDir p <> "" -> (String.length (g_socketDir p) <= 232)%nat ->
   result_of query = Some (g_socketDir p +:+ "/tsyne-" +:+ pid +:+ ".sock")) /\
  (forall a d, string_chars w a = Some d ->
   state_of (JniWrapper.store_socketDir (Addr a) w self p) =
   Some (set_g_socketDir (str_take 511 d) p)).
Proof.
  intros pid query. subst query.
  assert (forall dir : string,
            dir <> "" -> (if JniWrapper.nonempty dir then dir else "/data/local/tmp") = dir)
    as Hdir by (intros [|c s] H; [done | reflexivity]).
  assert (forall s : string, (String.length s <= 255)%nat -> snprintf 256 s = s)
    as Hfit by (intros s Hs; apply str_take_all; simpl; lia).
  rewrite getBridgeSocketPath_eval. cbn [state_of result_of]. fold pid.
  split; [reflexivity|]. split; [| split; [| split; [| split]]].
  - intros ->. cbn [JniWrapper.nonempty]. f_equal. apply Hfit.
    rewrite !str_length_append. pose proof (fmt_d_length (getpid_res w)).
    fold pid in H. simpl. lia.
  - intros Hne. rewrite (Hdir _ Hne). reflexivity.
  - intros Hne Hlen. rewrite (Hdir _ Hne). f_equal. by apply Hfit.
  - intros Hne Hlen. rewrite (Hdir _ Hne). f_equal. apply Hfit.
    rewrite !str_length_append. pose proof (fmt_d_length (getpid_res w)).
    fold pid in H. simpl. lia.
  - intros a d Hd. unfold JniWrapper.store_socketDir; run_m. simpl. rewrite Hd.
    reflexivity.
Qed.

Lemma socket_path_query_witness :
  result_of (JniWrapper.Java_com_tsyne_phonetop_MainActivity_getBridgeSocketPath
               Sample.world 1 Sample.fresh) = Some "/data/local/tmp/tsyne-4242.sock" /\
  result_of (JniWrapper.Java_com_tsyne_phonetop_MainActivity_getBridgeSocketPath
               Sample.world 1 Sample.busy) = Some "/tmp/custom/tsyne-4242.sock".
Proof.
  split.
  - destruct (socket_path_query Sample.world 1 Sample.fresh) as (_ & Hunset & _).
    rewrite Hunset by reflexivity. reflexivity.
  - destruct (socket_path_query Sample.world 1 Sample.busy) as (_ & _ & _ & _ & Hset & _).
    rewrite Hset; [reflexivity | vm_compute; discriminate | vm_compute; lia].
Defined.

(** ** Cached resolution (C4) *)

(** C4.  Once the initialization routine of a peer library has succeeded,
    the cached handle and entry-point addresses stay what they are through
    every later step of the process, and every later call of the routine
    returns 1 from the cache with an empty trace: no [dlopen], no [dlsym].
    This holds for the bridge library and for the node library. *)
Theorem resolution_cached_for_life (p1 p2 : Proc) :
  rtc step p1 p2 ->
  (forall w self p t,
      JniWrapper.initFunctionPointers w self p = Done 1 p1 t ->
      bridge_cache p2 = bridge_cache p1 /\
      forall w' self', JniWrapper.initFunctionPointers w' self' p2 = Done 1 p2 []) /\
  (forall w self p t,
      NodeRunner.initNode w self p = Done 1 p1 t ->
      node_cache p2 = node_cache p1 /\
      forall w' self', NodeRunner.initNode w' self' p2 = Done 1 p2 []).
Proof.
  intros Hrtc. split; intros w self p t Hinit.
  - destruct (initFunctionPointers_ok _ _ _ _ _ _ Hinit) as [_ Hset]; [done|].
    pose proof (rtc_step_keeps bridge_stable _ _ step_bridge_stable Hrtc Hset) as Hc.
    split; [exact Hc|]. intros w' self'. apply initFunctionPointers_cached.
    unfold bridge_cache in Hc. injection Hc as _ -> _. exact Hset.
  - destruct (initNode_ok _ _ _ _ _ _ Hinit) as [_ Hset]; [done|].
    pose proof (rtc_step_keeps node_stable _ _ step_node_stable Hrtc Hset) as Hc.
    split; [exact Hc|]. intros w' self'. apply initNode_cached.
    unfold node_cache in Hc. injection Hc as _ ->. exact Hset.
Qed.

Lemma resolution_cached_for_life_witness :
  (bridge_cache Sample.busy = bridge_cache Sample.ready /\
   JniWrapper.initFunctionPointers Sample.world 1 Sample.busy = Done 1 Sample.busy []) /\
  (node_cache Sample.node_busy = node_cache Sample.node_ready /\
   NodeRunner.initNode Sample.world 1 Sample.node_busy = Done 1 Sample.node_busy []).
Proof.
  split.
  - assert (rtc step Sample.ready Sample.busy) as Hrun.
    { apply rtc_once.
      apply (step_call Sample.world 1 (c_startBridgeInBackground 0 (Addr 5))).
      vm_compute. reflexivity. }
    destruct (resolution_cached_for_life _ _ Hrun) as [Hb _].
    destruct (Hb Sample.world 1 Sample.fresh
                (trace_of (JniWrapper.initFunctionPointers Sample.world 1 Sample.fresh)))
      as [Hcache Hinit]; [vm_compute; reflexivity|].
    split; [exact Hcache | apply Hinit].
  - assert (rtc step Sample.node_ready Sample.node_busy) as Hrun.
    { apply rtc_once.
      apply (step_call Sample.world 1 (c_sendTouchUp 0 0 0)).
      vm_compute. reflexivity. }
    destruct (resolution_cached_for_life _ _ Hrun) as [_ Hn].
    destruct (Hn Sample.world 1 Sample.node_ready []) as [Hcache Hinit];
      [vm_compute; reflexivity|].
    split; [exact Hcache | apply Hinit].
Defined.

(** ** No-load resolution (C5) *)

(** The model of [dlopen] does load a library from disk when [RTLD_NOLOAD]
    is not among the flags. *)
Example dlopen_without_noload_loads :
  dlopen "libnode.so" RTLD_NOW Sample.world 1 Sample.bare =
  Done (Addr 2) (set_resident {[ "libnode.so" := 2%positive ]} Sample.bare)
       [ECall x_dlopen [VStr "libnode.so"; VInt 2] (VPtr (Addr 2))].
Proof. reflexivity. Qed.

Lemma initFunctionPointers_keeps_resident :
  preserves (unchanged resident) JniWrapper.initFunctionPointers.
Proof. frame. Qed.

Lemma initNode_keeps_resident : preserves (unchanged resident) NodeRunner.initNode.
Proof. frame. Qed.

Lemma initFunctionPointers_requests_noload w self p :
  forallb requests_noload (trace_of (JniWrapper.initFunctionPointers w self p)) = true.
Proof. unfold JniWrapper.initFunctionPointers; run_m. run_cases; reflexivity. Qed.

Lemma initNode_requests_noload w self p :
  forallb requests_noload (trace_of (NodeRunner.initNode w self p)) = true.
Proof. unfold NodeRunner.initNode; run_m. run_cases; reflexivity. Qed.

(** C5.  In every state a process can reach, acquiring the handle of a peer
    library asks [dlopen] for [RTLD_NOLOAD]; the set of resident libraries is
    the same after the call as before, whatever is on disk; and when the
    named library is not resident the routine fails: it returns 0 after one
    [dlopen] that returned NULL.  This holds for the bridge library and for
    the node library. *)
Theorem resolve_requests_no_load (w : World) (self : Z) (p : Proc) :
  reachable p ->
  (forallb requests_noload (trace_of (JniWrapper.initFunctionPointers w self p)) = true /\
   from_option (unchanged resident p) True
     (state_of (JniWrapper.initFunctionPointers w self p)) /\
   (resident p !! "libtsyne-bridge.so" = None ->
    JniWrapper.initFunctionPointers w self p =
    Done 0 (set_g_bridgeHandle NULL p)
      [ECall x_dlopen [VStr "libtsyne-bridge.so"; VInt (Z.lor RTLD_NOW RTLD_NOLOAD)]
         (VPtr NULL);
       ECall x_dlerror [] (VStr (dlerror_msg w));
       ECall x_android_log_print
         [VInt ANDROID_LOG_ERROR; VStr "TsyneJNI";
          VStr "Failed to get handle for libtsyne-bridge.so: %s";
          VStr (dlerror_msg w)] VVoid])) /\
  (forallb requests_noload (trace_of (NodeRunner.initNode w self p)) = true /\
   from_option (unchanged resident p) True (state_of (NodeRunner.initNode w self p)) /\
   (resident p !! "libnode.so" = None ->
    NodeRunner.initNode w self p =
    Done 0 (set_g_nodeHandle NULL p)
      [ECall x_dlopen [VStr "libnode.so"; VInt (Z.lor RTLD_NOW RTLD_NOLOAD)] (VPtr NULL);
       ECall x_dlerror [] (VStr (dlerror_msg w));
       ECall x_android_log_print
         [VInt ANDROID_LOG_ERROR; VStr "NodeRunner";
          VStr "Failed to get handle for libnode.so: %s";
          VStr (dlerror_msg w)] VVoid])).
Proof.
  intros Hreach. destruct (reachable_linked p Hreach) as [Hb Hn].
  split; (split; [| split]).
  - apply initFunctionPointers_requests_noload.
  - apply initFunctionPointers_keeps_resident.
  - intros Hnone. rewrite Hnone in Hb.
    unfold JniWrapper.initFunctionPointers; run_m.
    destruct (g_TsyneInit p) eqn:E.
    + simpl. rewrite Hnone. reflexivity.
    + destruct Hb as [? ?]; done.
  - apply initNode_requests_noload.
  - apply initNode_keeps_resident.
  - intros Hnone. rewrite Hnone in Hn.
    unfold NodeRunner.initNode; run_m.
    destruct (g_nodeStart p) eqn:E.
    + simpl. rewrite Hnone. reflexivity.
    + destruct Hn as [? ?]; done.
Qed.

Lemma resolve_requests_no_load_witness :
  resident (Sample.after (JniWrapper.initFunctionPointers Sample.world 1 Sample.bare)
              Sample.fresh) = ∅ /\
  result_of (JniWrapper.initFunctionPointers Sample.world 1 Sample.bare) = Some 0 /\
  result_of (NodeRunner.initNode Sample.world 1 Sample.bare) = Some 0.
Proof.
  assert (reachable Sample.bare) as Hreach by (exists ∅; apply rtc_refl).
  destruct (resolve_requests_no_load Sample.world 1 Sample.bare Hreach)
    as [(_ & _ & Hb) (_ & _ & Hn)].
  rewrite Hb, Hn by reflexivity. repeat split; reflexivity.
Defined.

(** ** Optional entry points (C6) *)

(** C6.  When the bridge library is resident and exports its three mandatory
    entry points, the initialization routine succeeds whichever of the seven
    optional entry points are missing, and records for each of them what
    [dlsym] returned.  An operation that depends only on a missing one then
    makes no call into the peer and returns normally: [setScreenSize] only
    stores the size, [sendTouchDown] only logs, [sendTouchMove] and
    [sendTouchUp] do nothing. *)
Theorem optional_entry_points_degrade (w : World) (self : Z) (p : Proc) (h : positive) :
  g_TsyneInit p = NULL ->
  resident p !! "libtsyne-bridge.so" = Some h ->
  symbols w h "TsyneInit" <> NULL ->
  symbols w h "StartBridgeMsgpackUDS" <> NULL ->
  symbols w h "StartBridgeGrpc" <> NULL ->
  exists p1 t,
    JniWrapper.initFunctionPointers w self p = Done 1 p1 t /\
    g_StartBridgeMsgpackUDSWithDir p1 = symbols w h "StartBridgeMsgpackUDSWithDir" /\
    g_StartBridgeAndroidEmbedded p1 = symbols w h "StartBridgeAndroidEmbedded" /\
    g_SetAndroidRenderCallback p1 = symbols w h "SetAndroidRenderCallback" /\
    g_SetAndroidScreenSize p1 = symbols w h "SetAndroidScreenSize" /\
    g_SendAndroidTouchDown p1 = symbols w h "SendAndroidTouchDown" /\
    g_SendAndroidTouchMove p1 = symbols w h "SendAndroidTouchMove" /\
    g_SendAndroidTouchUp p1 = symbols w h "SendAndroidTouchUp" /\
    (symbols w h "SetAndroidScreenSize" = NULL ->
     forall w' self' width height,
       JniWrapper.Java_com_tsyne_phonetop_MainActivity_setScreenSize width height
         w' self' p1 =
       Done tt (set_g_screenHeight height (set_g_screenWidth width p1)) []) /\
    (symbols w h "SendAndroidTouchDown" = NULL ->
     forall w' self' x y pointerId,
       JniWrapper.Java_com_tsyne_phonetop_MainActivity_sendTouchDown x y pointerId
         w' self' p1 =
       Done tt p1
         [ECall x_android_log_print
            [VInt ANDROID_LOG_INFO; VStr "TsyneJNI";
             VStr "sendTouchDown: x=%.0f y=%.0f id=%d func=%p";
             VFloat x; VFloat y; VInt pointerId; VPtr NULL] VVoid]) /\
    (symbols w h "SendAndroidTouchMove" = NULL ->
     forall w' self' x y pointerId,
       JniWrapper.Java_com_tsyne_phonetop_MainActivity_sendTouchMove x y pointerId
         w' self' p1 = Done tt p1 []) /\
    (symbols w h "SendAndroidTouchUp" = NULL ->
     forall w' self' x y pointerId,
       JniWrapper.Java_com_tsyne_phonetop_MainActivity_sendTouchUp x y pointerId
         w' self' p1 = Done tt p1 []).
Proof.
  intros Hfresh Hres H1 H2 H3.
  destruct (symbols w h "TsyneInit") eqn:E1; [done|].
  destruct (symbols w h "StartBridgeMsgpackUDS") eqn:E2; [done|].
  destruct (symbols w h "StartBridgeGrpc") eqn:E3; [done|].
  unfold JniWrapper.initFunctionPointers; run_m.
  destruct (symbols w h "StartBridgeMsgpackUDSWithDir") eqn:E4;
    destruct (symbols w h "StartBridgeAndroidEmbedded") eqn:E5;
    repeat (simpl; first [rewrite Hfresh | rewrite Hres | rewrite E1 | rewrite E2
                         | rewrite E3 | rewrite E4 | rewrite E5]);
    (eexists _, _; split; [reflexivity|]; simpl;
     repeat (split; [reflexivity|]);
     unfold JniWrapper.Java_com_tsyne_phonetop_MainActivity_setScreenSize,
       JniWrapper.Java_com_tsyne_phonetop_MainActivity_sendTouchDown,
       JniWrapper.Java_com_tsyne_phonetop_MainActivity_sendTouchMove,
       JniWrapper.Java_com_tsyne_phonetop_MainActivity_sendTouchUp; run_m; simpl;
     repeat split; intros ->; reflexivity).
Qed.

Lemma optional_entry_points_degrade_witness :
  result_of (JniWrapper.initFunctionPointers Sample.minimal_world 1 Sample.fresh) = Some 1 /\
  trace_of (JniWrapper.Java_com_tsyne_phonetop_MainActivity_sendTouchMove 3 4 0
              Sample.world 1
              (Sample.after (JniWrapper.initFunctionPointers Sample.minimal_world 1
                               Sample.fresh) Sample.fresh)) = [].
Proof.
  destruct (optional_entry_points_degrade Sample.minimal_world 1 Sample.fresh 1)
    as (p1 & t & Hinit & _ & _ & _ & _ & _ & _ & _ & _ & _ & Hmove & _);
    [reflexivity | reflexivity | discriminate | discriminate | discriminate |].
  rewrite Hinit. simpl. rewrite Hmove by reflexivity. split; reflexivity.
Defined.

(** ** Background start (C7) *)

Lemma entry_blind_bind {A B} (m : M A) (k : A -> M B) :
  entry_blind m -> (forall a, entry_blind (k a)) -> entry_blind (bind m k).
Proof.
  intros Hm Hk code w self p. unfold bind. rewrite Hm.
  destruct (m w self p); [rewrite Hk|..]; reflexivity.
Qed.

Lemma entry_blind_when c m : entry_blind m -> entry_blind (when c m).
Proof. intros Hm. destruct c; [exact Hm | by intros ? ? ? ?]. Qed.

Ltac blind_step :=
  lazymatch goal with
  | |- forall _, _ => intros ?
  | |- entry_blind (bind _ _) => apply entry_blind_bind
  | |- entry_blind (when _ _) => apply entry_blind_when
  | |- entry_blind (if ?b then _ else _) => destruct b
  | |- entry_blind (match ?x with _ => _ end) => destruct x
  | |- entry_blind (call_int _ _) => fail
  | |- entry_blind ?m =>
      first [ by intros ? ? ? ?
            | let h := head_of m in unfold h ]
  end.

Ltac blind := repeat blind_step.

Lemma startBridgeInBackground_entry_blind testMode socketDir :
  entry_blind
    (JniWrapper.Java_com_tsyne_phonetop_MainActivity_startBridgeInBackground
       testMode socketDir).
Proof. blind. Qed.

(** C7.  When the initialization routine succeeds and the worker thread is
    created, [startBridgeInBackground] ends with these three events in this
    order: the [pthread_create] that returned 0, a [usleep] of 500000
    microseconds on the calling thread, and the closing log line; then it
    returns 0.  The whole outcome is the same whatever the code behind the
    entry points does.  The worker writes no static; when its entry point
    returns, the code it returned appears only as the argument of the
    worker's last log line. *)
Theorem startBridgeInBackground_settles_then_acks (w : World) (self : Z) (p : Proc)
    (testMode : Z) (socketDir : ptr) (p1 : Proc) (t1 : list Event) :
  JniWrapper.initFunctionPointers w self p = Done 1 p1 t1 ->
  fst (pthread_create_res w) = 0 ->
  (exists p2 t2,
      JniWrapper.Java_com_tsyne_phonetop_MainActivity_startBridgeInBackground
        testMode socketDir w self p =
      Done 0 p2
        (t1 ++ t2 ++
         [ECall x_pthread_create [VSym "bridgeThreadFunc"; VSym "g_bridgeTestMode"] (VInt 0);
          ECall x_usleep [VInt 500000] (VInt 0);
          ECall x_android_log_print
            [VInt ANDROID_LOG_INFO; VStr "TsyneJNI";
             VStr "JNI: Bridge thread started successfully"] VVoid]) /\
      g_bridgeTestMode p2 = testMode /\
      g_bridgeThread p2 = snd (pthread_create_res w)) /\
  (forall code,
      JniWrapper.Java_com_tsyne_phonetop_MainActivity_startBridgeInBackground
        testMode socketDir (with_entry code w) self p =
      JniWrapper.Java_com_tsyne_phonetop_MainActivity_startBridgeInBackground
        testMode socketDir w self p) /\
  (forall w' self' q,
      from_option (eq q) True (state_of (JniWrapper.bridgeThreadFunc w' self' q))) /\
  (forall w' self' q a r,
      JniWrapper.nonempty (g_socketDir q) = true ->
      g_StartBridgeMsgpackUDSWithDir q = Addr a ->
      entry w' a [VInt (g_bridgeTestMode q); VStr (g_socketDir q)] = Some r ->
      JniWrapper.bridgeThreadFunc w' self' q =
      Done tt q
        [ECall x_android_log_print
           [VInt ANDROID_LOG_INFO; VStr "TsyneJNI";
            VStr "Bridge thread started, calling StartBridgeMsgpackUDSWithDir(%d, %s)";
            VInt (g_bridgeTestMode q); VStr (g_socketDir q)] VVoid;
         ECallPtr a [VInt (g_bridgeTestMode q); VStr (g_socketDir q)];
         ECall x_android_log_print
           [VInt ANDROID_LOG_INFO; VStr "TsyneJNI";
            VStr "StartBridgeMsgpackUDSWithDir returned: %d"; VInt r] VVoid]) /\
  (forall w' self' q a r,
      JniWrapper.nonempty (g_socketDir q) = false \/
        g_StartBridgeMsgpackUDSWithDir q = NULL ->
      g_StartBridgeMsgpackUDS q = Addr a ->
      entry w' a [VInt (g_bridgeTestMode q)] = Some r ->
      JniWrapper.bridgeThreadFunc w' self' q =
      Done tt q
        [ECall x_android_log_print
           [VInt ANDROID_LOG_INFO; VStr "TsyneJNI";
            VStr "Bridge thread started, calling StartBridgeMsgpackUDS(%d)";
            VInt (g_bridgeTestMode q)] VVoid;
         ECallPtr a [VInt (g_bridgeTestMode q)];
         ECall x_android_log_print
           [VInt ANDROID_LOG_INFO; VStr "TsyneJNI";
            VStr "StartBridgeMsgpackUDS returned: %d"; VInt r] VVoid]).
Proof.
  intros Hinit Hrc. split; [| split; [| split; [| split]]].
  - unfold JniWrapper.Java_com_tsyne_phonetop_MainActivity_startBridgeInBackground,
      bind at 1.
    rewrite Hinit. unfold JniWrapper.store_socketDir; run_m. simpl. rewrite Hrc.
    destruct socketDir as [|s]; simpl; [| destruct (string_chars w s); simpl].
    + eexists _, [_]. split; [reflexivity|]. split; reflexivity.
    + eexists _, [_; _; _; _]. split; [reflexivity|]. split; reflexivity.
    + eexists _, [_; _]. split; [reflexivity|]. split; reflexivity.
  - intros code. apply startBridgeInBackground_entry_blind.
  - intros w' self' q. unfold JniWrapper.bridgeThreadFunc; run_m.
    run_cases; reflexivity.
  - intros w' self' q a r Hdir Hf Hr. unfold JniWrapper.bridgeThreadFunc; run_m. simpl.
    rewrite Hdir, Hf. simpl. rewrite Hr. reflexivity.
  - intros w' self' q a r Hdir Hf Hr. unfold JniWrapper.bridgeThreadFunc; run_m. simpl.
    assert (JniWrapper.nonempty (g_socketDir q) &&
            negb (is_NULL (g_StartBridgeMsgpackUDSWithDir q)) = false) as ->.
    { destruct Hdir as [-> | ->]; [reflexivity | apply andb_false_r]. }
    rewrite Hf. simpl. rewrite Hr. reflexivity.
Qed.

Lemma startBridgeInBackground_settles_then_acks_witness :
  result_of (JniWrapper.Java_com_tsyne_phonetop_MainActivity_startBridgeInBackground
               0 (Addr 5) Sample.world 1 Sample.fresh) = Some 0.
Proof.
  assert (exists p1 t1, JniWrapper.initFunctionPointers Sample.world 1 Sample.fresh =
            Done 1 p1 t1) as (p1 & t1 & Hinit) by (eexists _, _; vm_compute; reflexivity).
  destruct (startBridgeInBackground_settles_then_acks Sample.world 1 Sample.fresh
              0 (Addr 5) p1 t1 Hinit eq_refl) as [(p2 & t2 & Hrun & _) _].
  rewrite Hrun. reflexivity.
Defined.

(** ** Registering the render target (C8) *)

(** Two sample calls with a render target whose class has no [onFrame].
    In a process without the bridge library the call returns -1, not -3.
    In a process that had registered object 50 the call returns -3 and the
    registration is gone: the stored reference changed from object 50 to
    null. *)
Lemma startEmbeddedBridge_other_outcomes :
  method_id Sample.world (object_class Sample.world 51) "onFrame"
    "(Ljava/nio/ByteBuffer;III)V" = NULL /\
  result_of (JniWrapper.Java_com_tsyne_phonetop_MainActivity_startEmbeddedBridge
               1080 1920 NULL (Addr 51) Sample.world 1 Sample.bare) = Some (-1) /\
  g_renderSurface Sample.rendering = Addr 50 /\
  result_of (JniWrapper.Java_com_tsyne_phonetop_MainActivity_startEmbeddedBridge
               1080 1920 NULL (Addr 51) Sample.world 1 Sample.rendering) = Some (-3) /\
  g_renderSurface
    (Sample.after
       (JniWrapper.Java_com_tsyne_phonetop_MainActivity_startEmbeddedBridge
          1080 1920 NULL (Addr 51) Sample.world 1 Sample.rendering) Sample.rendering)
    = NULL.
Proof. repeat split; vm_compute; reflexivity. Qed.

(** C8 (as amended).  A call of [startEmbeddedBridge] with a render target
    whose class has no [onFrame(ByteBuffer,int,int,int)] always fails with a
    negative code and starts no worker.  The two availability checks come
    first: when the initialization routine fails the call returns -1, when
    [StartBridgeAndroidEmbedded] is not resolved it returns -2, and in both
    cases the stored target reference and method id are left as they were.
    Past these checks the call returns -3, deletes the global reference it
    has just created, and leaves the stored target reference and the method
    id null, whatever was registered before: its trace ends with
    [NewGlobalRef] on the target, the class and method lookups, the error
    line and [DeleteGlobalRef] on the reference that [NewGlobalRef]
    returned, and it creates or deletes no other reference. *)
Theorem startEmbeddedBridge_missing_onFrame (w : World) (self : Z) (p : Proc)
    (width height : Z) (socketDir : ptr) (target : positive) :
  method_id w (object_class w target) "onFrame" "(Ljava/nio/ByteBuffer;III)V" = NULL ->
  exists ok p1 t1 r p2 t2,
    JniWrapper.initFunctionPointers w self p = Done ok p1 t1 /\
    JniWrapper.Java_com_tsyne_phonetop_MainActivity_startEmbeddedBridge
      width height socketDir (Addr target) w self p = Done r p2 t2 /\
    r < 0 /\
    existsb (is_call_to x_pthread_create) t2 = false /\
    (ok = 0 ->
     r = -1 /\ g_renderSurface p2 = g_renderSurface p /\
     g_onFrameMethod p2 = g_onFrameMethod p) /\
    (ok <> 0 -> g_StartBridgeAndroidEmbedded p1 = NULL ->
     r = -2 /\ g_renderSurface p2 = g_renderSurface p /\
     g_onFrameMethod p2 = g_onFrameMethod p) /\
    (ok <> 0 -> g_StartBridgeAndroidEmbedded p1 <> NULL ->
     r = -3 /\ g_renderSurface p2 = NULL /\ g_onFrameMethod p2 = NULL /\
     exists t3,
       t2 = (t3 ++
             [ECall x_NewGlobalRef [VPtr (Addr target)] (VPtr (global_ref w target));
              ECall x_GetObjectClass [VPtr (Addr target)]
                (VPtr (Addr (object_class w target)));
              ECall x_GetMethodID
                [VPtr (Addr (object_class w target)); VStr "onFrame";
                 VStr "(Ljava/nio/ByteBuffer;III)V"] (VPtr NULL);
              ECall x_android_log_print
                [VInt ANDROID_LOG_ERROR; VStr "TsyneJNI";
                 VStr "Failed to find onFrame method"] VVoid;
              ECall x_DeleteGlobalRef [VPtr (global_ref w target)] VVoid])%list /\
       existsb (is_call_to x_NewGlobalRef) t3 = false /\
       existsb (is_call_to x_DeleteGlobalRef) t3 = false).
Proof.
  intros Hmissing.
  destruct (initFunctionPointers_returns w self p)
    as (ok & p1 & t1 & Hinit & Hok & Hsurf & Hmid & Hquiet).
  assert (Hrefs : existsb (is_call_to x_NewGlobalRef) t1 = false /\
                  existsb (is_call_to x_DeleteGlobalRef) t1 = false).
  { pose proof (f_equal trace_of Hinit) as Ht. simpl in Ht. rewrite <- Ht. clear.
    unfold JniWrapper.initFunctionPointers; run_m. run_cases; split; reflexivity. }
  destruct Hrefs as [Hnew Hdel].
  exists ok, p1, t1.
  unfold JniWrapper.Java_com_tsyne_phonetop_MainActivity_startEmbeddedBridge, bind at 1.
  rewrite Hinit. destruct Hok as [-> | ->]; simpl.
  { eexists _, _, _. split; [reflexivity|]. split; [reflexivity|].
    rewrite app_nil_r. repeat split; done. }
  unfold JniWrapper.store_socketDir; run_m. simpl.
  destruct (g_StartBridgeAndroidEmbedded p1) eqn:Estart; simpl.
  { eexists _, _, _. split; [reflexivity|]. split; [reflexivity|].
    rewrite existsb_app, Hquiet. repeat split; done. }
  rewrite Hmissing.
  destruct socketDir as [|s]; simpl; [| destruct (string_chars w s); simpl];
    (eexists _, _, _; split; [reflexivity|]; split; [reflexivity|];
     split; [done|]; split; [by rewrite !existsb_app, Hquiet|];
     split; [done|]; split; [done|];
     intros _ _; split; [reflexivity|]; split; [reflexivity|]; split; [reflexivity|];
     first [ eexists (t1 ++ [_])%list; split; [by rewrite <- app_assoc|]
           | eexists (t1 ++ [_; _])%list; split; [by rewrite <- app_assoc|]
           | eexists (t1 ++ [_; _; _; _])%list; split; [by rewrite <- app_assoc|] ];
     rewrite !existsb_app, ?Hnew, ?Hdel; split; reflexivity).
Qed.

Lemma startEmbeddedBridge_missing_onFrame_witness :
  let run :=
    JniWrapper.Java_com_tsyne_phonetop_MainActivity_startEmbeddedBridge
      1080 1920 (Addr 5) (Addr 51) Sample.shifting_refs_world 1 Sample.fresh in
  result_of run = Some (-3) /\
  filter (fun e => is_call_to x_DeleteGlobalRef e) (trace_of run) =
    [ECall x_DeleteGlobalRef [VPtr (Addr 151)] VVoid].
Proof.
  destruct (startEmbeddedBridge_missing_onFrame Sample.shifting_refs_world 1 Sample.fresh
              1080 1920 (Addr 5) 51 eq_refl)
    as (ok & p1 & t1 & r & p2 & t2 & Hinit & Hrun & _ & _ & _ & _ & Hthird).
  assert (ok = 1 /\ g_StartBridgeAndroidEmbedded p1 = Addr 14) as [-> Hstart].
  { vm_compute in Hinit. by injection Hinit as <- <- _. }
  destruct Hthird as (-> & _ & _ & t3 & -> & _ & Hdel); [done | by rewrite Hstart |].
  simpl. rewrite Hrun. simpl. split; [reflexivity|].
  rewrite filter_app.
  assert (filter (fun e => is_call_to x_DeleteGlobalRef e) t3 = []) as ->.
  { clear -Hdel. induction t3 as [|e t3 IH]; [reflexivity|].
    simpl in Hdel. apply orb_false_iff in Hdel as [He Hdel].
    rewrite filter_cons. rewrite decide_False; [by apply IH|].
    intros H. rewrite He in H. exact H. }
  reflexivity.
Defined.

(** ** Pass-through calls (C9) *)

(** C9.  After the initialization routine has succeeded, each synchronous
    operation whose entry point is resolved and returns hands its caller the
    very code the entry point returned; between the two log lines the only
    event is the call through the cached pointer. *)
Theorem synchronous_calls_pass_code_through (w : World) (self : Z) (p p1 : Proc)
    (t1 : list Event) :
  JniWrapper.initFunctionPointers w self p = Done 1 p1 t1 ->
  (forall x a r,
      g_TsyneInit p1 = Addr a -> entry w a [VInt x] = Some r ->
      JniWrapper.Java_com_tsyne_phonetop_MainActivity_TsyneInit x w self p =
      Done r p1
        (t1 ++
         [ECall x_android_log_print
            [VInt ANDROID_LOG_INFO; VStr "TsyneJNI"; VStr "JNI: Calling TsyneInit(%d)";
             VInt x] VVoid;
          ECallPtr a [VInt x];
          ECall x_android_log_print
            [VInt ANDROID_LOG_INFO; VStr "TsyneJNI"; VStr "JNI: TsyneInit returned %d";
             VInt r] VVoid])) /\
  (forall x a r,
      g_StartBridgeMsgpackUDS p1 = Addr a -> entry w a [VInt x] = Some r ->
      JniWrapper.Java_com_tsyne_phonetop_MainActivity_StartBridgeMsgpackUDS x w self p =
      Done r p1
        (t1 ++
         [ECall x_android_log_print
            [VInt ANDROID_LOG_INFO; VStr "TsyneJNI";
             VStr "JNI: Calling StartBridgeMsgpackUDS(%d)"; VInt x] VVoid;
          ECallPtr a [VInt x];
          ECall x_android_log_print
            [VInt ANDROID_LOG_INFO; VStr "TsyneJNI";
             VStr "JNI: StartBridgeMsgpackUDS returned %d"; VInt r] VVoid])) /\
  (forall x a r,
      g_StartBridgeGrpc p1 = Addr a -> entry w a [VInt x] = Some r ->
      JniWrapper.Java_com_tsyne_phonetop_MainActivity_StartBridgeGrpc x w self p =
      Done r p1
        (t1 ++
         [ECall x_android_log_print
            [VInt ANDROID_LOG_INFO; VStr "TsyneJNI"; VStr "JNI: Calling StartBridgeGrpc(%d)";
             VInt x] VVoid;
          ECallPtr a [VInt x];
          ECall x_android_log_print
            [VInt ANDROID_LOG_INFO; VStr "TsyneJNI"; VStr "JNI: StartBridgeGrpc returned %d";
             VInt r] VVoid])).
Proof.
  intros Hinit. repeat split; intros x a r Hf Hr.
  - unfold JniWrapper.Java_com_tsyne_phonetop_MainActivity_TsyneInit, bind at 1.
    rewrite Hinit. run_m. simpl. rewrite Hf, Hr. reflexivity.
  - unfold JniWrapper.Java_com_tsyne_phonetop_MainActivity_StartBridgeMsgpackUDS, bind at 1.
    rewrite Hinit. run_m. simpl. rewrite Hf, Hr. reflexivity.
  - unfold JniWrapper.Java_com_tsyne_phonetop_MainActivity_StartBridgeGrpc, bind at 1.
    rewrite Hinit. run_m. simpl. rewrite Hf, Hr. reflexivity.
Qed.

Lemma synchronous_calls_pass_code_through_witness :
  result_of (JniWrapper.Java_com_tsyne_phonetop_MainActivity_TsyneInit 0
               Sample.world 1 Sample.fresh) = Some 10 /\
  result_of (JniWrapper.Java_com_tsyne_phonetop_MainActivity_StartBridgeMsgpackUDS 1
               Sample.world 1 Sample.fresh) = Some 11 /\
  result_of (JniWrapper.Java_com_tsyne_phonetop_MainActivity_StartBridgeGrpc 1
               Sample.world 1 Sample.fresh) = Some 13.
Proof.
  assert (exists t, JniWrapper.initFunctionPointers Sample.world 1 Sample.fresh =
            Done 1 Sample.ready t) as [t Hinit] by (eexists; vm_compute; reflexivity).
  destruct (synchronous_calls_pass_code_through _ _ _ _ _ Hinit) as (H1 & H2 & H3).
  rewrite (H1 0 10%positive 10), (H2 1 11%positive 11), (H3 1 13%positive 13)
    by reflexivity.
  repeat split; reflexivity.
Defined.

(** ** Event callback helper (C10) *)

(** C10.  With a null callback pointer [callEventCallback] does nothing:
    it returns with the state untouched and an empty trace.  With a non-null
    pointer it makes exactly one call, through that pointer, with [eventJson]
    as the only argument, and changes no state. *)
Theorem callEventCallback_null_or_once (w : World) (self : Z) (p : Proc)
    (eventJson : string) :
  FfiCallback.callEventCallback NULL eventJson w self p = Done tt p [] /\
  forall a,
    trace_of (FfiCallback.callEventCallback (Addr a) eventJson w self p) =
      [ECallPtr a [VStr eventJson]] /\
    state_of (FfiCallback.callEventCallback (Addr a) eventJson w self p) = Some p.
Proof.
  split; [reflexivity|]. intros a.
  unfold FfiCallback.callEventCallback; run_m. simpl.
  destruct (entry w a [VStr eventJson]); split; reflexivity.
Qed.

(** * Further properties of the adapter *)

(** ** What no call does *)

#[global] Instance keeps_preorder (I : Proc -> Prop) : PreOrder (keeps I).
Proof. split; [intros p Hp; exact Hp | intros p q r H1 H2 Hp; auto]. Qed.

Lemma exec_keeps_resident c : preserves (unchanged resident) (exec c).
Proof. destruct c; frame. Qed.

(** X1.  No call into the adapter, on any thread and in any world, changes
    the set of libraries resident in the process: the adapter never loads
    and never unloads. *)
Theorem adapter_never_loads (c : Call) (w : World) (self : Z) (p p' : Proc) :
  state_of (exec c w self p) = Some p' -> resident p' = resident p.
Proof.
  intros H. pose proof (exec_keeps_resident c w self p) as Hc.
  rewrite H in Hc. exact Hc.
Qed.

Lemma adapter_never_loads_witness :
  resident Sample.busy = resident Sample.ready.
Proof.
  apply (adapter_never_loads (c_startBridgeInBackground 0 (Addr 5)) Sample.world 1).
  vm_compute. reflexivity.
Defined.

Lemma exec_keeps_threads c :
  leaves_threads_alone c = true -> preserves (unchanged jvm_attached) (exec c).
Proof. destruct c; intros Hc; try discriminate Hc; frame. Qed.

(** X2.  Apart from the embedded worker and the render callback, no call
    attaches or detaches any thread: the set of threads attached to the VM
    is the same after the call as before. *)
Theorem entry_points_leave_threads_alone (c : Call) (w : World) (self : Z)
    (p p' : Proc) :
  leaves_threads_alone c = true ->
  state_of (exec c w self p) = Some p' ->
  jvm_attached p' = jvm_attached p.
Proof.
  intros Hc H. pose proof (exec_keeps_threads c Hc w self p) as Hk.
  rewrite H in Hk. exact Hk.
Qed.

Lemma entry_points_leave_threads_alone_witness :
  jvm_attached Sample.rendering = jvm_attached
    (Sample.after (JniWrapper.JNI_OnLoad (Addr 40) Sample.world 1 Sample.fresh)
       Sample.fresh).
Proof.
  apply (entry_points_leave_threads_alone
           (c_startEmbeddedBridge 1080 1920 (Addr 5) (Addr 50)) Sample.world 1).
  - reflexivity.
  - vm_compute. reflexivity.
Defined.

(** ** Calls that stay on their side of the boundary *)

Lemma stays_outside_ret {A} (a : A) : stays_outside (ret a).
Proof. intros w self p. split; [reflexivity | discriminate]. Qed.

Lemma stays_outside_bind {A B} (m : M A) (k : A -> M B) :
  stays_outside m -> (forall a, stays_outside (k a)) -> stays_outside (bind m k).
Proof.
  intros Hm Hk w self p. destruct (Hm w self p) as [Hq Hb]. unfold bind.
  destruct (m w self p) as [a p1 t1|p1 t1|t1]; simpl in *.
  - destruct (Hk a w self p1) as [Hq' Hb'].
    destruct (k a w self p1) as [b p2 t2|p2 t2|t2]; simpl in *.
    + split; [by rewrite existsb_app, Hq, Hq' | discriminate].
    + by destruct (Hb' p2 t2).
    + split; [by rewrite existsb_app, Hq, Hq' | discriminate].
  - by destruct (Hb p1 t1).
  - split; [exact Hq | discriminate].
Qed.

Lemma stays_outside_when c m : stays_outside m -> stays_outside (when c m).
Proof. intros Hm. destruct c; [exact Hm | apply stays_outside_ret]. Qed.

Lemma stays_outside_state {A} (m : M A) :
  (forall w self p,
      exists a p' e, m w self p = Done a p' e /\ existsb is_ptr_call e = false) ->
  stays_outside m.
Proof.
  intros Hm w self p. destruct (Hm w self p) as (a & p' & e & -> & He).
  split; [exact He | discriminate].
Qed.

Ltac outside_prim :=
  apply stays_outside_state; intros ? ? ?; run_m; run_cases;
  eexists _, _, _; split; reflexivity.

Ltac outside_fault :=
  intros ? ? ?; split; [reflexivity | discriminate].

Ltac outside_step :=
  lazymatch goal with
  | |- forall _, _ => intros ?
  | |- stays_outside (bind _ _) => apply stays_outside_bind
  | |- stays_outside (ret _) => apply stays_outside_ret
  | |- stays_outside (when _ _) => apply stays_outside_when
  | |- stays_outside (if ?b then _ else _) => destruct b
  | |- stays_outside (match ?x with _ => _ end) => destruct x
  | |- stays_outside (call_int _ _) => fail
  | |- stays_outside (get _) => outside_fault
  | |- stays_outside (upd _) => outside_fault
  | |- stays_outside (ext _ _ _) => outside_fault
  | |- stays_outside (dlopen _ _) => outside_prim
  | |- stays_outside (dlsym _ _) => outside_prim
  | |- stays_outside dlerror => outside_prim
  | |- stays_outside getpid => outside_prim
  | |- stays_outside (pthread_create _ _ _) => outside_prim
  | |- stays_outside (NewGlobalRef _) => outside_prim
  | |- stays_outside (GetStringUTFChars ?s) =>
      destruct s; [ outside_fault | outside_prim ]
  | |- stays_outside (GetObjectClass ?s) =>
      destruct s; [ outside_fault | outside_prim ]
  | |- stays_outside (GetMethodID ?s _ _) =>
      destruct s; [ outside_fault | outside_prim ]
  | |- stays_outside ?m => let h := head_of m in unfold h
  end.

Ltac outside := repeat outside_step.

Lemma launchers_stay_outside c : is_launcher c = true -> stays_outside (exec c).
Proof. destruct c; intros Hc; try discriminate Hc; outside. Qed.

(** ** Calls that always return *)

Lemma always_returns_ret {A} (a : A) : always_returns (ret a).
Proof. intros w self p. by eexists _, _, _. Qed.

Lemma always_returns_bind_post {A B} (Q : A -> Prop) (m : M A) (k : A -> M B) :
  (forall w self p, exists a p' t, m w self p = Done a p' t /\ Q a) ->
  (forall a, Q a -> always_returns (k a)) ->
  always_returns (bind m k).
Proof.
  intros Hm Hk w self p. unfold bind.
  destruct (Hm w self p) as (a & p1 & t1 & -> & Ha).
  destruct (Hk a Ha w self p1) as (b & p2 & t2 & ->).
  by eexists _, _, _.
Qed.

Lemma always_returns_bind {A B} (m : M A) (k : A -> M B) :
  always_returns m -> (forall a, always_returns (k a)) -> always_returns (bind m k).
Proof.
  intros Hm Hk. apply (always_returns_bind_post (fun _ => True)); [| by intros a _].
  intros w self p. destruct (Hm w self p) as (a & p' & t & ->). by eexists _, _, _.
Qed.

Lemma always_returns_when c m : always_returns m -> always_returns (when c m).
Proof. intros Hm. destruct c; [exact Hm | apply always_returns_ret]. Qed.

Lemma GetObjectClass_returns (a : positive) w self p :
  exists c p' t, GetObjectClass (Addr a) w self p = Done c p' t /\ c <> NULL.
Proof. by eexists _, _, _. Qed.

Ltac returns_now := intros ? ? ?; by eexists _, _, _.

Ltac returns_prim := intros ? ? ?; run_m; run_cases; by eexists _, _, _.

Ltac returns_step :=
  lazymatch goal with
  | |- forall _, _ => intros ?
  | |- always_returns (bind (GetObjectClass (Addr ?a)) _) =>
      apply (always_returns_bind_post (fun c => c <> NULL));
      [ apply GetObjectClass_returns | intros [|?] ?; [done|] ]
  | |- always_returns (bind _ _) => apply always_returns_bind
  | |- always_returns (ret _) => apply always_returns_ret
  | |- always_returns (when _ _) => apply always_returns_when
  | |- always_returns (if negb (is_NULL ?s) then _ else _) => destruct s; simpl
  | |- always_returns (if ?b then _ else _) => destruct b
  | |- always_returns (match ?x with _ => _ end) => destruct x
  | |- always_returns (call_int _ _) => fail
  | |- always_returns (GetStringUTFChars NULL) => fail
  | |- always_returns (GetObjectClass NULL) => fail
  | |- always_returns (GetMethodID NULL _ _) => fail
  | |- always_returns (get _) => returns_now
  | |- always_returns (upd _) => returns_now
  | |- always_returns (ext _ _ _) => returns_now
  | |- always_returns (dlopen _ _) => returns_prim
  | |- always_returns (dlsym _ _) => returns_prim
  | |- always_returns dlerror => returns_prim
  | |- always_returns getpid => returns_prim
  | |- always_returns (pthread_create _ _ _) => returns_prim
  | |- always_returns (NewGlobalRef _) => returns_prim
  | |- always_returns (GetStringUTFChars (Addr _)) => returns_prim
  | |- always_returns (GetMethodID (Addr _) _ _) => returns_prim
  | |- always_returns ?m => let h := head_of m in unfold h
  end.

Ltac returns := repeat returns_step.

Lemma launchers_return c :
  is_launcher c = true -> c <> c_startNode NULL -> always_returns (exec c).
Proof.
  destruct c as [| | | | | | | | | | |s| | | |]; intros Hc Hs; try discriminate Hc;
    try (destruct s; [done|]); returns.
Qed.

Lemma startNode_null w self p :
  (result_of (NodeRunner.initNode w self p) = Some 0 /\
   exists p' t, exec (c_startNode NULL) w self p = Done (VInt (-1)) p' t) \/
  (result_of (NodeRunner.initNode w self p) = Some 1 /\
   exists t, exec (c_startNode NULL) w self p = Fault t).
Proof.
  unfold exec, returning, NodeRunner.Java_com_tsyne_phonetop_MainActivity_startNode,
    NodeRunner.initNode; run_m.
  run_cases; first [ left; split; [reflexivity | by eexists _, _]
                   | right; split; [reflexivity | by eexists] ].
Qed.

(** X3.  The entry points that start something in the background or answer
    the path query never call through a function pointer and never wait
    inside the peer.  Each of them returns to the host thread that called
    it, with one exception: [startNode] has no null test before
    [GetStringUTFChars], so with a null string it returns -1 when node
    cannot be resolved and faults in the VM when it can. *)
Theorem launchers_never_enter_peer (c : Call) (w : World) (self : Z) (p : Proc) :
  is_launcher c = true ->
  existsb is_ptr_call (trace_of (exec c w self p)) = false /\
  (forall p' t, exec c w self p <> Blocked p' t) /\
  (c <> c_startNode NULL -> exists r p' t, exec c w self p = Done r p' t) /\
  (c = c_startNode NULL ->
   (result_of (NodeRunner.initNode w self p) = Some 0 /\
    exists p' t, exec c w self p = Done (VInt (-1)) p' t) \/
   (result_of (NodeRunner.initNode w self p) = Some 1 /\
    exists t, exec c w self p = Fault t)).
Proof.
  intros Hc. destruct (launchers_stay_outside c Hc w self p) as [Hquiet Hfree].
  split; [exact Hquiet|]. split; [exact Hfree|]. split.
  - intros Hs. apply (launchers_return c Hc Hs).
  - intros ->. apply startNode_null.
Qed.

Lemma launchers_never_enter_peer_witness :
  existsb is_ptr_call
    (trace_of (exec (c_startEmbeddedBridge 1080 1920 (Addr 5) (Addr 50))
                 Sample.world 1 Sample.fresh)) = false /\
  is_Some (result_of (exec (c_startEmbeddedBridge 1080 1920 (Addr 5) (Addr 50))
                        Sample.world 1 Sample.fresh)) /\
  is_Some (result_of (exec (c_startNode (Addr 7)) Sample.world 1 Sample.fresh)) /\
  exists t, exec (c_startNode NULL) Sample.world 1 Sample.fresh = Fault t.
Proof.
  destruct (launchers_never_enter_peer (c_startEmbeddedBridge 1080 1920 (Addr 5) (Addr 50))
              Sample.world 1 Sample.fresh eq_refl) as (Hquiet & _ & Hret & _).
  destruct (launchers_never_enter_peer (c_startNode (Addr 7))
              Sample.world 1 Sample.fresh eq_refl) as (_ & _ & Hret' & _).
  destruct (launchers_never_enter_peer (c_startNode NULL)
              Sample.world 1 Sample.fresh eq_refl) as (_ & _ & _ & Hnull).
  split; [exact Hquiet|]. split; [| split].
  - destruct Hret as (r & p' & t & ->); [discriminate|]. by eexists.
  - destruct Hret' as (r & p' & t & ->); [discriminate|]. by eexists.
  - destruct (Hnull eq_refl) as [[Hinit _] | [_ Hfault]]; [| exact Hfault].
    vm_compute in Hinit. discriminate Hinit.
Defined.

(** ** Invariants of the reachable states *)

Lemma str_take_length (n : nat) (s : string) : (String.length (str_take n s) <= n)%nat.
Proof.
  revert s. induction n as [|n IH]; intros [|c s]; simpl; try lia.
  specialize (IH s). lia.
Qed.

#[local] Arguments str_take : simpl never.

Lemma store_socketDir_dir_fits s : preserves (keeps dir_fits) (JniWrapper.store_socketDir s).
Proof.
  intros w self p. unfold JniWrapper.store_socketDir; run_m.
  destruct s as [|a]; simpl; [by intros H|].
  destruct (string_chars w a); simpl; [| by intros H].
  intros _. apply str_take_length.
Qed.

Lemma startEmbeddedBridge_target_has_method wd ht d tg :
  preserves (keeps target_has_method)
    (JniWrapper.Java_com_tsyne_phonetop_MainActivity_startEmbeddedBridge wd ht d tg).
Proof.
  intros w self p.
  destruct (initFunctionPointers_returns w self p)
    as (ok & p1 & t1 & Hinit & Hok & Hsurf & Hmid & _).
  unfold JniWrapper.Java_com_tsyne_phonetop_MainActivity_startEmbeddedBridge, bind at 1.
  rewrite Hinit. unfold keeps, target_has_method.
  destruct Hok as [-> | ->]; simpl; [by rewrite Hsurf, Hmid|].
  unfold JniWrapper.store_socketDir; run_m.
  run_cases; rewrite ?Hsurf, ?Hmid; try done; intros _ _; congruence.
Qed.

Lemma initFunctionPointers_resolved_in_order :
  preserves (keeps resolved_in_order) JniWrapper.initFunctionPointers.
Proof.
  intros w self p. unfold JniWrapper.initFunctionPointers; run_m.
  run_cases; try done; unfold keeps, resolved_in_order; simpl;
    intros (H1 & H2 & H3 & H4 & H5 & H6 & H7 & H8 & H9 & H10 & H11);
    repeat split; intros; try congruence; tauto.
Qed.

Lemma initNode_resolved_in_order : preserves (keeps resolved_in_order) NodeRunner.initNode.
Proof.
  intros w self p. unfold NodeRunner.initNode; run_m.
  run_cases; try done; unfold keeps, resolved_in_order; simpl;
    intros (H1 & H2 & H3 & H4 & H5 & H6 & H7 & H8 & H9 & H10 & H11);
    repeat split; intros; try congruence; tauto.
Qed.

#[local] Hint Resolve store_socketDir_dir_fits startEmbeddedBridge_target_has_method
  initFunctionPointers_resolved_in_order initNode_resolved_in_order : frame.

Lemma exec_dir_fits c : preserves (keeps dir_fits) (exec c).
Proof. destruct c; frame. Qed.

Lemma exec_target_has_method c : preserves (keeps target_has_method) (exec c).
Proof. destruct c; frame. Qed.

Lemma exec_resolved_in_order c : preserves (keeps resolved_in_order) (exec c).
Proof. destruct c; frame. Qed.

Lemma reachable_keeps (I : Proc -> Prop) p :
  (forall libs, I (boot libs)) ->
  (forall c, preserves (keeps I) (exec c)) ->
  (forall p name h, I p -> I (set_resident (<[name := h]> (resident p)) p)) ->
  reachable p -> I p.
Proof.
  intros Hboot Hexec Hload [libs Hrtc].
  apply (rtc_step_keeps (keeps I) (boot libs) p); [| exact Hrtc | apply Hboot].
  intros q q' [w self c q1 q2 H | name h q1 H].
  - pose proof (Hexec c w self q1) as Hc. by rewrite H in Hc.
  - intros Hq. by apply Hload.
Qed.

(** X4.  Both fixed buffers are respected: in every reachable state the
    stored socket directory has at most 511 bytes, and whatever is stored
    the path query returns at most 255 bytes. *)
Theorem buffers_are_respected (w : World) (self : Z) (p : Proc) :
  reachable p ->
  (String.length (g_socketDir p) <= 511)%nat /\
  forall path,
    result_of (JniWrapper.Java_com_tsyne_phonetop_MainActivity_getBridgeSocketPath
                 w self p) = Some path ->
    (String.length path <= 255)%nat.
Proof.
  intros Hreach. split.
  - apply (reachable_keeps dir_fits);
      [ | apply exec_dir_fits | by intros q name h Hq | exact Hreach ].
    intros libs. unfold dir_fits. simpl. lia.
  - intros path. rewrite getBridgeSocketPath_eval. cbn [result_of].
    intros [= <-]. apply (str_take_length 255).
Qed.

Lemma buffers_are_respected_witness :
  (String.length (g_socketDir Sample.long_dir_proc) <= 511)%nat.
Proof.
  assert (reachable Sample.long_dir_proc) as Hreach.
  { exists Sample.libs. apply rtc_once.
    apply (step_call Sample.world 1 (c_startBridgeInBackground 0 (Addr 6))).
    vm_compute. reflexivity. }
  apply (buffers_are_respected Sample.world 1 Sample.long_dir_proc Hreach).
Defined.

(** X5.  In every reachable state a registered render target has its
    dispatch method.  So, once the VM is known and a target is registered, a
    delivery on an attached thread dispatches [onFrame] exactly when the VM
    hands out a byte buffer: the trace is [GetEnv], the buffer, the dispatch
    with the registered target and method, and the release of the buffer. *)
Theorem registered_target_is_dispatchable (w : World) (self : Z) (p : Proc)
    (pixels : ptr) (width height stride : Z) (vm surface buffer : positive) :
  reachable p ->
  g_javaVM p = Addr vm ->
  g_renderSurface p = Addr surface ->
  self ∈ jvm_attached p ->
  direct_buffer w pixels (wrap_int (height * stride)) = Addr buffer ->
  exists method,
    g_onFrameMethod p = Addr method /\
    JniWrapper.nativeRenderCallback pixels width height stride w self p =
    Done tt p
      [ECall x_GetEnv [VInt JNI_VERSION_1_6] (VInt JNI_OK);
       ECall x_NewDirectByteBuffer [VPtr pixels; VInt (wrap_int (height * stride))]
         (VPtr (Addr buffer));
       ECall x_CallVoidMethod
         [VPtr (Addr surface); VPtr (Addr method); VPtr (Addr buffer);
          VInt width; VInt height; VInt stride] VVoid;
       ECall x_DeleteLocalRef [VPtr (Addr buffer)] VVoid].
Proof.
  intros Hreach Hvm Hsurf Hin Hbuf.
  assert (target_has_method p) as Hinv.
  { apply (reachable_keeps target_has_method);
      [ | apply exec_target_has_method | by intros q name h Hq | exact Hreach ].
    intros libs H. exact H. }
  unfold target_has_method in Hinv. rewrite Hsurf in Hinv.
  destruct (g_onFrameMethod p) as [|method] eqn:Hmid; [by destruct Hinv|].
  exists method. split; [reflexivity|].
  unfold JniWrapper.nativeRenderCallback, JniWrapper.deliver_frame; run_m.
  rewrite Hvm, Hsurf. simpl.
  destruct (decide (self ∈ jvm_attached p)) as [_|Hout]; [|done]. simpl.
  rewrite Hbuf. simpl. rewrite Hmid, Hsurf. reflexivity.
Qed.

Lemma rendering_reachable : reachable Sample.rendering.
Proof.
  exists Sample.libs.
  apply (rtc_l _ _ (Sample.after (JniWrapper.JNI_OnLoad (Addr 40) Sample.world 1
                                    Sample.fresh) Sample.fresh)).
  - apply (step_call Sample.world 1 (c_JNI_OnLoad (Addr 40))). vm_compute. reflexivity.
  - apply rtc_once.
    apply (step_call Sample.world 1 (c_startEmbeddedBridge 1080 1920 (Addr 5) (Addr 50))).
    vm_compute. reflexivity.
Defined.

(** The state [Sample.rendering] after the embedded worker, thread 7, has
    attached itself and is serving. *)
Lemma serving_reachable :
  reachable (set_jvm_attached {[7]} Sample.rendering).
Proof.
  destruct rendering_reachable as [libs Hrtc]. exists libs.
  eapply rtc_r; [exact Hrtc|].
  apply (step_call Sample.world 7 c_embeddedBridgeThreadFunc).
  vm_compute. reflexivity.
Defined.

Lemma registered_target_is_dispatchable_witness :
  exists method,
    g_onFrameMethod (set_jvm_attached {[7]} Sample.rendering) = Addr method /\
    JniWrapper.nativeRenderCallback (Addr 80) 2 2 8 Sample.world 7
      (set_jvm_attached {[7]} Sample.rendering) =
    Done tt (set_jvm_attached {[7]} Sample.rendering)
      [ECall x_GetEnv [VInt JNI_VERSION_1_6] (VInt JNI_OK);
       ECall x_NewDirectByteBuffer [VPtr (Addr 80); VInt (wrap_int (2 * 8))]
         (VPtr (Addr 70));
       ECall x_CallVoidMethod
         [VPtr (Addr 50); VPtr (Addr method); VPtr (Addr 70);
          VInt 2; VInt 2; VInt 8] VVoid;
       ECall x_DeleteLocalRef [VPtr (Addr 70)] VVoid].
Proof.
  apply (registered_target_is_dispatchable Sample.world 7
           (set_jvm_attached {[7]} Sample.rendering) (Addr 80) 2 2 8 40 50 70).
  - exact serving_reachable.
  - reflexivity.
  - reflexivity.
  - simpl. apply elem_of_singleton. reflexivity.
  - reflexivity.
Defined.

Lemma reachable_resolved_in_order (p : Proc) :
  reachable p -> resolved_in_order p.
Proof.
  intros Hreach.
  apply (reachable_keeps resolved_in_order);
    [ | apply exec_resolved_in_order | by intros q name h Hq | exact Hreach ].
  intros libs. unfold resolved_in_order, boot. simpl. repeat split; intros H; congruence.
Qed.

(** X6.  In every reachable state the cached entry points are filled in
    lookup order: a cached entry point has its library handle; each
    mandatory entry point is set only when the one before it is; and an
    optional entry point looked up after [StartBridgeGrpc] is set only when
    all three mandatory ones are. *)
Theorem entry_points_resolved_in_order (p : Proc) :
  reachable p -> resolved_in_order p.
Proof. apply reachable_resolved_in_order. Qed.

Lemma entry_points_resolved_in_order_witness : resolved_in_order Sample.rendering.
Proof. apply entry_points_resolved_in_order. exact rendering_reachable. Defined.

(** X7.  Until a resolution has succeeded completely, the input operations
    reach nothing: in a reachable state where [StartBridgeGrpc] is not
    cached, [setScreenSize] only stores the size and the three touch
    operations change nothing, and none of them calls into the peer,
    whatever the library exports.  They never run the resolution
    themselves. *)
Theorem input_before_resolution_is_dropped (w : World) (self : Z) (p : Proc)
    (x y i : Z) :
  reachable p ->
  g_StartBridgeGrpc p = NULL ->
  JniWrapper.Java_com_tsyne_phonetop_MainActivity_setScreenSize x y w self p =
    Done tt (set_g_screenHeight y (set_g_screenWidth x p)) [] /\
  JniWrapper.Java_com_tsyne_phonetop_MainActivity_sendTouchDown x y i w self p =
    Done tt p
      [ECall x_android_log_print
         [VInt ANDROID_LOG_INFO; VStr "TsyneJNI";
          VStr "sendTouchDown: x=%.0f y=%.0f id=%d func=%p";
          VFloat x; VFloat y; VInt i; VPtr NULL] VVoid] /\
  JniWrapper.Java_com_tsyne_phonetop_MainActivity_sendTouchMove x y i w self p =
    Done tt p [] /\
  JniWrapper.Java_com_tsyne_phonetop_MainActivity_sendTouchUp x y i w self p =
    Done tt p [].
Proof.
  intros Hreach Hgrpc.
  destruct (reachable_resolved_in_order p Hreach)
    as (_ & _ & _ & _ & _ & _ & Hs & Hd & Hm & Hu & _).
  rewrite Hgrpc in Hs, Hd, Hm, Hu.
  destruct (g_SetAndroidScreenSize p) eqn:Es; [| by destruct Hs].
  destruct (g_SendAndroidTouchDown p) eqn:Ed; [| by destruct Hd].
  destruct (g_SendAndroidTouchMove p) eqn:Em; [| by destruct Hm].
  destruct (g_SendAndroidTouchUp p) eqn:Eu; [| by destruct Hu].
  unfold JniWrapper.Java_com_tsyne_phonetop_MainActivity_setScreenSize,
    JniWrapper.Java_com_tsyne_phonetop_MainActivity_sendTouchDown,
    JniWrapper.Java_com_tsyne_phonetop_MainActivity_sendTouchMove,
    JniWrapper.Java_com_tsyne_phonetop_MainActivity_sendTouchUp; run_m. simpl.
  rewrite Es, Ed, Em, Eu. repeat split; reflexivity.
Qed.

Lemma input_before_resolution_is_dropped_witness :
  JniWrapper.Java_com_tsyne_phonetop_MainActivity_sendTouchUp 3 4 0
    Sample.world 1 Sample.fresh = Done tt Sample.fresh [].
Proof.
  assert (reachable Sample.fresh) as Hreach by (exists Sample.libs; apply rtc_refl).
  apply (input_before_resolution_is_dropped Sample.world 1 Sample.fresh 3 4 0 Hreach
           eq_refl).
Defined.

(** ** The embedded worker *)

Lemma attached_after_attach (self : Z) (A : gset Z) : self ∈ ({[self]} ∪ A : gset Z).
Proof. apply elem_of_union. left. by apply elem_of_singleton. Qed.

Lemma detached_after_detach (self : Z) (A : gset Z) : self ∉ (A ∖ {[self]} : gset Z).
Proof. rewrite elem_of_difference, elem_of_singleton. by intros [_ H]. Qed.

(** X8.  The embedded worker calls into the peer only from a thread that is
    attached to the VM: with no VM, or when the VM refuses the thread, it
    logs and returns without a single call through a pointer.  It never
    jumps through a null pointer.  It changes nothing but the attachment of
    its own thread: when it returns from a process that knows its VM the
    thread is detached, and while it is still inside the peer the thread is
    attached. *)
Theorem embedded_worker_attach_discipline (w : World) (self : Z) (p : Proc) :
  let run := JniWrapper.embeddedBridgeThreadFunc w self p in
  (forall t, run <> Fault t) /\
  (existsb is_ptr_call (trace_of run) = true ->
   g_javaVM p <> NULL /\ (self ∈ jvm_attached p \/ attach_ok w self = true)) /\
  (forall p', state_of run = Some p' -> p' = set_jvm_attached (jvm_attached p') p) /\
  (forall a p' t, run = Done a p' t -> g_javaVM p <> NULL -> self ∉ jvm_attached p') /\
  (forall p' t, run = Blocked p' t -> self ∈ jvm_attached p').
Proof.
  intros run. subst run.
  unfold JniWrapper.embeddedBridgeThreadFunc, JniWrapper.embedded_serve; run_m.
  destruct p; run_cases; repeat split; intros; simplify_eq/=;
    first [ done | by auto | apply detached_after_detach
          | apply attached_after_attach | by f_equal ].
Qed.

Lemma embedded_worker_attach_discipline_witness :
  7 ∈ jvm_attached
        (Sample.after (JniWrapper.embeddedBridgeThreadFunc Sample.world 7 Sample.rendering)
           Sample.fresh).
Proof.
  destruct (embedded_worker_attach_discipline Sample.world 7 Sample.rendering)
    as (_ & _ & _ & _ & Hblocked).
  eapply Hblocked. reflexivity.
Defined.

Ltac case_entry :=
  match goal with |- context [entry ?w ?f ?a] => destruct (entry w f a) end.

(** What the embedded worker hands to the peer, in a process that knows its
    VM, on a thread the VM accepts: first the render callback, when
    [SetAndroidRenderCallback] is cached, then the stored size and
    directory. *)
Lemma embedded_worker_calls (w : World) (self : Z) (q : Proc) (vm st : positive) :
  g_javaVM q = Addr vm ->
  self ∈ jvm_attached q \/ attach_ok w self = true ->
  g_StartBridgeAndroidEmbedded q = Addr st ->
  (forall cb, g_SetAndroidRenderCallback q = Addr cb ->
              is_Some (entry w cb [VSym "nativeRenderCallback"])) ->
  filter (fun e => is_ptr_call e) (trace_of (JniWrapper.embeddedBridgeThreadFunc w self q)) =
  (match g_SetAndroidRenderCallback q with
   | Addr cb => [ECallPtr cb [VSym "nativeRenderCallback"]]
   | NULL => []
   end ++
   [ECallPtr st [VFloat (g_screenWidth q); VFloat (g_screenHeight q);
                 VStr (g_socketDir q)]])%list.
Proof.
  intros Hvm Hatt Hst Hcb.
  unfold JniWrapper.embeddedBridgeThreadFunc, JniWrapper.embedded_serve; run_m.
  destruct q; simpl in *; subst.
  run_cases; try reflexivity.
  all: try (destruct Hatt; [done | congruence]).
  all: destruct (Hcb _ eq_refl) as [? ?]; congruence.
Qed.

Lemma initFunctionPointers_keeps_vm :
  preserves (unchanged g_javaVM) JniWrapper.initFunctionPointers.
Proof. frame. Qed.

Lemma launch_facts_embedded width height socketDir target w self p r p2 t :
  JniWrapper.Java_com_tsyne_phonetop_MainActivity_startEmbeddedBridge
    width height socketDir target w self p = Done r p2 t ->
  g_javaVM p2 = g_javaVM p /\
  (r = 0 \/ r = -4 ->
   g_screenWidth p2 = width /\ g_screenHeight p2 = height /\
   g_StartBridgeAndroidEmbedded p2 <> NULL).
Proof.
  destruct (initFunctionPointers_returns w self p)
    as (ok & p1 & t1 & Hinit & Hok & _).
  pose proof (initFunctionPointers_keeps_vm w self p) as Hvm.
  rewrite Hinit in Hvm. simpl in Hvm. unfold unchanged in Hvm.
  unfold JniWrapper.Java_com_tsyne_phonetop_MainActivity_startEmbeddedBridge, bind at 1.
  rewrite Hinit. destruct Hok as [-> | ->]; simpl.
  { intros [= <- <- _]. split; [exact Hvm|]. intros [?|?]; discriminate. }
  unfold JniWrapper.store_socketDir; run_m.
  run_cases; intros [= <- <- _]; simpl; (split; [exact Hvm|]);
    intros [?|?]; try discriminate; repeat split; congruence.
Qed.

(** X9.  The size given to [startEmbeddedBridge] reaches the peer: after a
    call that returned 0, the worker, run on a thread the VM accepts, hands
    the peer first the render callback (when [SetAndroidRenderCallback] is
    cached) and then exactly the width and height of that call with the
    stored directory, and makes no other call through a pointer. *)
Theorem embedded_launch_then_worker (w w' : World) (self self' : Z) (p p2 : Proc)
    (width height : Z) (socketDir target : ptr) (t : list Event) (vm : positive) :
  JniWrapper.Java_com_tsyne_phonetop_MainActivity_startEmbeddedBridge
    width height socketDir target w self p = Done 0 p2 t ->
  g_javaVM p = Addr vm ->
  self' ∈ jvm_attached p2 \/ attach_ok w' self' = true ->
  (forall cb, g_SetAndroidRenderCallback p2 = Addr cb ->
              is_Some (entry w' cb [VSym "nativeRenderCallback"])) ->
  exists st,
    g_StartBridgeAndroidEmbedded p2 = Addr st /\
    filter (fun e => is_ptr_call e)
      (trace_of (JniWrapper.embeddedBridgeThreadFunc w' self' p2)) =
    (match g_SetAndroidRenderCallback p2 with
     | Addr cb => [ECallPtr cb [VSym "nativeRenderCallback"]]
     | NULL => []
     end ++
     [ECallPtr st [VFloat width; VFloat height; VStr (g_socketDir p2)]])%list.
Proof.
  intros Hrun Hvm Hatt Hcb.
  destruct (launch_facts_embedded _ _ _ _ _ _ _ _ _ _ Hrun) as [Hvm2 Hfacts].
  destruct Hfacts as (Hw & Hh & Hst); [by left|].
  destruct (g_StartBridgeAndroidEmbedded p2) as [|st] eqn:Est; [done|].
  exists st. split; [reflexivity|].
  rewrite (embedded_worker_calls w' self' p2 vm st); try done.
  - by rewrite Hw, Hh.
  - by rewrite Hvm2.
Qed.

Lemma embedded_launch_then_worker_witness :
  filter (fun e => is_ptr_call e)
    (trace_of (JniWrapper.embeddedBridgeThreadFunc Sample.world 7 Sample.rendering)) =
  [ECallPtr 15 [VSym "nativeRenderCallback"];
   ECallPtr 14 [VFloat 1080; VFloat 1920; VStr "/tmp/custom"]].
Proof.
  destruct (embedded_launch_then_worker Sample.world Sample.world 1 7
              (Sample.after (JniWrapper.JNI_OnLoad (Addr 40) Sample.world 1 Sample.fresh)
                 Sample.fresh)
              Sample.rendering 1080 1920 (Addr 5) (Addr 50)
              (trace_of (JniWrapper.Java_com_tsyne_phonetop_MainActivity_startEmbeddedBridge
                           1080 1920 (Addr 5) (Addr 50) Sample.world 1
                           (Sample.after (JniWrapper.JNI_OnLoad (Addr 40) Sample.world 1
                                            Sample.fresh) Sample.fresh)))
              40) as (st & Hst & Hcalls).
  - vm_compute. reflexivity.
  - reflexivity.
  - right. reflexivity.
  - intros cb Hcb. vm_compute in Hcb. injection Hcb as <-. vm_compute. eauto.
  - rewrite Hcalls. vm_compute in Hst. injection Hst as <-. reflexivity.
Defined.

(** X10.  A process that was never told its VM cannot serve in embedded
    mode, and [startEmbeddedBridge] does not notice: whatever that call
    returns, 0 included, the worker run on the state it leaves logs that the
    VM is null and returns without calling into the peer. *)
Theorem embedded_worker_without_vm (w w' : World) (self self' : Z) (p p2 : Proc)
    (width height : Z) (socketDir target : ptr) (r : Z) (t : list Event) :
  g_javaVM p = NULL ->
  JniWrapper.Java_com_tsyne_phonetop_MainActivity_startEmbeddedBridge
    width height socketDir target w self p = Done r p2 t ->
  JniWrapper.embeddedBridgeThreadFunc w' self' p2 =
  Done tt p2
    [ECall x_android_log_print
       [VInt ANDROID_LOG_INFO; VStr "TsyneJNI";
        VStr "Embedded bridge thread starting (%.0fx%.0f)";
        VFloat (g_screenWidth p2); VFloat (g_screenHeight p2)] VVoid;
     ECall x_android_log_print
       [VInt ANDROID_LOG_ERROR; VStr "TsyneJNI";
        VStr "JavaVM is NULL - cannot attach thread"] VVoid].
Proof.
  intros Hvm Hrun.
  destruct (launch_facts_embedded _ _ _ _ _ _ _ _ _ _ Hrun) as [Hvm2 _].
  rewrite Hvm in Hvm2.
  unfold JniWrapper.embeddedBridgeThreadFunc; run_m. simpl. rewrite Hvm2. reflexivity.
Qed.

Lemma embedded_worker_without_vm_witness :
  result_of (JniWrapper.Java_com_tsyne_phonetop_MainActivity_startEmbeddedBridge
               1080 1920 (Addr 5) (Addr 50) Sample.world 1 Sample.fresh) = Some 0 /\
  existsb is_ptr_call
    (trace_of (JniWrapper.embeddedBridgeThreadFunc Sample.world 7
                 (Sample.after
                    (JniWrapper.Java_com_tsyne_phonetop_MainActivity_startEmbeddedBridge
                       1080 1920 (Addr 5) (Addr 50) Sample.world 1 Sample.fresh)
                    Sample.fresh))) = false.
Proof.
  split; [vm_compute; reflexivity|].
  erewrite (embedded_worker_without_vm Sample.world Sample.world 1 7 Sample.fresh _
              1080 1920 (Addr 5) (Addr 50) 0); [reflexivity | reflexivity |].
  vm_compute. reflexivity.
Defined.

(** X11.  A size update is seen by a worker that starts after it:
    [setScreenSize] stores the size whether or not the peer has
    [SetAndroidScreenSize] and whether or not that call returns, and the
    embedded worker, run on the state it leaves, hands the peer that
    size. *)
Theorem size_update_reaches_worker (w w' : World) (self self' : Z) (p p' : Proc)
    (width height : Z) (vm st : positive) :
  state_of (JniWrapper.Java_com_tsyne_phonetop_MainActivity_setScreenSize
              width height w self p) = Some p' ->
  g_javaVM p = Addr vm ->
  g_StartBridgeAndroidEmbedded p = Addr st ->
  self' ∈ jvm_attached p \/ attach_ok w' self' = true ->
  (forall cb, g_SetAndroidRenderCallback p = Addr cb ->
              is_Some (entry w' cb [VSym "nativeRenderCallback"])) ->
  p' = set_g_screenHeight height (set_g_screenWidth width p) /\
  filter (fun e => is_ptr_call e)
    (trace_of (JniWrapper.embeddedBridgeThreadFunc w' self' p')) =
  (match g_SetAndroidRenderCallback p with
   | Addr cb => [ECallPtr cb [VSym "nativeRenderCallback"]]
   | NULL => []
   end ++
   [ECallPtr st [VFloat width; VFloat height; VStr (g_socketDir p)]])%list.
Proof.
  intros Hrun Hvm Hst Hatt Hcb.
  assert (p' = set_g_screenHeight height (set_g_screenWidth width p)) as ->.
  { revert Hrun.
    unfold JniWrapper.Java_com_tsyne_phonetop_MainActivity_setScreenSize; run_m.
    run_cases; intros [= <-]; reflexivity. }
  split; [reflexivity|].
  rewrite (embedded_worker_calls w' self' _ vm st); try done.
Qed.

Lemma size_update_reaches_worker_witness :
  filter (fun e => is_ptr_call e)
    (trace_of (JniWrapper.embeddedBridgeThreadFunc Sample.world 7
                 (set_g_screenHeight 1080 (set_g_screenWidth 1920 Sample.rendering)))) =
  [ECallPtr 15 [VSym "nativeRenderCallback"];
   ECallPtr 14 [VFloat 1920; VFloat 1080; VStr "/tmp/custom"]].
Proof.
  destruct (size_update_reaches_worker Sample.world Sample.world 1 7 Sample.rendering
              (set_g_screenHeight 1080 (set_g_screenWidth 1920 Sample.rendering))
              1920 1080 40 14) as [_ Hcalls].
  - vm_compute. reflexivity.
  - reflexivity.
  - reflexivity.
  - right. reflexivity.
  - intros cb Hcb. vm_compute in Hcb. injection Hcb as <-. vm_compute. eauto.
  - rewrite Hcalls. reflexivity.
Defined.

(** ** The socket directory and the msgpack worker *)

Lemma initFunctionPointers_keeps_dir :
  preserves (unchanged g_socketDir) JniWrapper.initFunctionPointers.
Proof. frame. Qed.

(** What a background start leaves in the statics.  The directory is
    stored before the thread is created, so it is there whether or not the
    creation succeeds. *)
Lemma launch_facts_bridge testMode socketDir w self p r p2 t :
  JniWrapper.Java_com_tsyne_phonetop_MainActivity_startBridgeInBackground
    testMode socketDir w self p = Done r p2 t ->
  (r = -1 /\ g_socketDir p2 = g_socketDir p) \/
  ((r = 0 \/ r = -2) /\
   g_bridgeTestMode p2 = testMode /\
   g_socketDir p2 =
     match socketDir with
     | Addr s =>
         match string_chars w s with
         | Some d => str_take 511 d
         | None => g_socketDir p
         end
     | NULL => g_socketDir p
     end).
Proof.
  destruct (initFunctionPointers_returns w self p)
    as (ok & p1 & t1 & Hinit & Hok & _).
  pose proof (initFunctionPointers_keeps_dir w self p) as Hdir.
  rewrite Hinit in Hdir. simpl in Hdir. unfold unchanged in Hdir.
  unfold JniWrapper.Java_com_tsyne_phonetop_MainActivity_startBridgeInBackground,
    bind at 1.
  rewrite Hinit. destruct Hok as [-> | ->]; simpl.
  { intros [= <- <- _]. left. by split. }
  unfold JniWrapper.store_socketDir; run_m.
  run_cases; intros [= <- <- _]; simpl; right; (split; [by auto|]);
    split; first [ reflexivity | exact Hdir ].
Qed.

(** What the msgpack worker hands to the peer. *)
Lemma bridge_worker_calls (w : World) (self : Z) (q : Proc) :
  let worker := JniWrapper.bridgeThreadFunc w self q in
  (forall a,
      JniWrapper.nonempty (g_socketDir q) = true ->
      g_StartBridgeMsgpackUDSWithDir q = Addr a ->
      filter (fun e => is_ptr_call e) (trace_of worker) =
      [ECallPtr a [VInt (g_bridgeTestMode q); VStr (g_socketDir q)]]) /\
  (forall a,
      JniWrapper.nonempty (g_socketDir q) = false \/
        g_StartBridgeMsgpackUDSWithDir q = NULL ->
      g_StartBridgeMsgpackUDS q = Addr a ->
      filter (fun e => is_ptr_call e) (trace_of worker) =
      [ECallPtr a [VInt (g_bridgeTestMode q)]]) /\
  (JniWrapper.nonempty (g_socketDir q) = false \/
     g_StartBridgeMsgpackUDSWithDir q = NULL ->
   g_StartBridgeMsgpackUDS q = NULL ->
   worker =
   Fault [ECall x_android_log_print
            [VInt ANDROID_LOG_INFO; VStr "TsyneJNI";
             VStr "Bridge thread started, calling StartBridgeMsgpackUDS(%d)";
             VInt (g_bridgeTestMode q)] VVoid]).
Proof.
  cbv zeta. split; [| split]; [intros a Hdir Hf | intros a Hdir Hf | intros Hdir Hf];
    unfold JniWrapper.bridgeThreadFunc; run_m; simpl.
  - rewrite Hdir, Hf. simpl. case_entry; reflexivity.
  - assert (JniWrapper.nonempty (g_socketDir q) &&
            negb (is_NULL (g_StartBridgeMsgpackUDSWithDir q)) = false) as ->.
    { destruct Hdir as [-> | ->]; [reflexivity | apply andb_false_r]. }
    rewrite Hf. simpl. case_entry; reflexivity.
  - assert (JniWrapper.nonempty (g_socketDir q) &&
            negb (is_NULL (g_StartBridgeMsgpackUDSWithDir q)) = false) as ->.
    { destruct Hdir as [-> | ->]; [reflexivity | apply andb_false_r]. }
    rewrite Hf. reflexivity.
Qed.

(** X12.  What the worker of [startBridgeInBackground] does after a call
    that returned 0.  The stored directory is the first 511 bytes of the
    one given.  With a non-empty stored directory and
    [StartBridgeMsgpackUDSWithDir] cached, the worker makes exactly one call
    through a pointer, to it, with the test mode of the launch and the
    stored directory.  Otherwise, with [StartBridgeMsgpackUDS] cached, it
    makes exactly one call, to it, with that test mode.  Otherwise
    [StartBridgeMsgpackUDS] is null, the launcher has not checked it, and
    the worker jumps through the null pointer after its first log line
    without any call into the peer.  A launch from a reachable state that
    leaves [StartBridgeGrpc] cached never ends in this last case. *)
Theorem bridge_launch_then_worker (w w' : World) (self self' : Z) (p p2 : Proc)
    (testMode : Z) (socketDir : ptr) (t : list Event) :
  JniWrapper.Java_com_tsyne_phonetop_MainActivity_startBridgeInBackground
    testMode socketDir w self p = Done 0 p2 t ->
  let worker := JniWrapper.bridgeThreadFunc w' self' p2 in
  (forall s d, socketDir = Addr s -> string_chars w s = Some d ->
               g_socketDir p2 = str_take 511 d) /\
  (forall a,
      JniWrapper.nonempty (g_socketDir p2) = true ->
      g_StartBridgeMsgpackUDSWithDir p2 = Addr a ->
      filter (fun e => is_ptr_call e) (trace_of worker) =
      [ECallPtr a [VInt testMode; VStr (g_socketDir p2)]]) /\
  (forall a,
      JniWrapper.nonempty (g_socketDir p2) = false \/
        g_StartBridgeMsgpackUDSWithDir p2 = NULL ->
      g_StartBridgeMsgpackUDS p2 = Addr a ->
      filter (fun e => is_ptr_call e) (trace_of worker) =
      [ECallPtr a [VInt testMode]]) /\
  (JniWrapper.nonempty (g_socketDir p2) = false \/
     g_StartBridgeMsgpackUDSWithDir p2 = NULL ->
   g_StartBridgeMsgpackUDS p2 = NULL ->
   worker =
   Fault [ECall x_android_log_print
            [VInt ANDROID_LOG_INFO; VStr "TsyneJNI";
             VStr "Bridge thread started, calling StartBridgeMsgpackUDS(%d)";
             VInt testMode] VVoid]) /\
  (reachable p -> g_StartBridgeGrpc p2 <> NULL -> g_StartBridgeMsgpackUDS p2 <> NULL).
Proof.
  intros Hrun worker. subst worker.
  destruct (launch_facts_bridge _ _ _ _ _ _ _ _ Hrun)
    as [[? _] | (_ & Hmode & Hdir)]; [done|].
  destruct (bridge_worker_calls w' self' p2) as (Hwith & Huds & Hnull).
  rewrite Hmode in Hwith, Huds, Hnull.
  split; [| split; [exact Hwith | split; [exact Huds | split; [exact Hnull|]]]].
  - intros s d -> Hd. by rewrite Hdir, Hd.
  - intros Hreach.
    pose proof (exec_resolved_in_order (c_startBridgeInBackground testMode socketDir)
                  w self p) as Hkeep.
    unfold exec, returning, bind in Hkeep. rewrite Hrun in Hkeep. simpl in Hkeep.
    destruct (Hkeep (reachable_resolved_in_order p Hreach))
      as (_ & _ & _ & Hgrpc & _).
    exact Hgrpc.
Qed.

Lemma stale_reachable : reachable Sample.stale.
Proof.
  exists Sample.libs. apply rtc_once.
  apply (step_call Sample.partial_world 1 (c_TsyneInit 0)). vm_compute. reflexivity.
Qed.

Lemma bridge_launch_then_worker_witness :
  let launch :=
    JniWrapper.Java_com_tsyne_phonetop_MainActivity_startBridgeInBackground
      0 NULL Sample.partial_world 1 Sample.stale in
  filter (fun e => is_ptr_call e)
    (trace_of (JniWrapper.bridgeThreadFunc Sample.world 7 Sample.busy)) =
  [ECallPtr 12 [VInt 0; VStr "/tmp/custom"]] /\
  reachable Sample.stale /\
  result_of launch = Some 0 /\
  exists t', JniWrapper.bridgeThreadFunc Sample.partial_world 7
               (Sample.after launch Sample.stale) = Fault t'.
Proof.
  intros launch.
  split; [| split; [exact stale_reachable | split; [vm_compute; reflexivity|]]].
  - destruct (bridge_launch_then_worker Sample.world Sample.world 1 7 Sample.ready
                Sample.busy 0 (Addr 5)
                (trace_of (JniWrapper.Java_com_tsyne_phonetop_MainActivity_startBridgeInBackground
                             0 (Addr 5) Sample.world 1 Sample.ready)))
      as (Hdir & Hwith & _); [vm_compute; reflexivity|].
    rewrite (Hwith 12%positive); [| reflexivity | reflexivity].
    rewrite (Hdir 5%positive "/tmp/custom"); reflexivity.
  - destruct (bridge_launch_then_worker Sample.partial_world Sample.partial_world 1 7
                Sample.stale (Sample.after launch Sample.stale) 0 NULL (trace_of launch))
      as (_ & _ & _ & Hnull & _); [vm_compute; reflexivity|].
    eexists. apply Hnull; [left|]; vm_compute; reflexivity.
Defined.

(** X13.  Setting the directory and asking for the path round-trip: after
    a background start, or an embedded start, that got past its
    availability checks with a non-empty directory of at most 232 bytes,
    the path query returns that directory followed by
    ["/tsyne-<pid>.sock"], also when the thread could not be created. *)
Theorem directory_round_trip (w w' : World) (self self' : Z) (p p2 : Proc)
    (s : positive) (d : string) (r : Z) (t : list Event) :
  string_chars w s = Some d ->
  d <> "" ->
  (String.length d <= 232)%nat ->
  (exists testMode,
      JniWrapper.Java_com_tsyne_phonetop_MainActivity_startBridgeInBackground
        testMode (Addr s) w self p = Done r p2 t /\ r <> -1) \/
  (exists width height target,
      JniWrapper.Java_com_tsyne_phonetop_MainActivity_startEmbeddedBridge
        width height (Addr s) target w self p = Done r p2 t /\ r <> -1 /\ r <> -2) ->
  result_of (JniWrapper.Java_com_tsyne_phonetop_MainActivity_getBridgeSocketPath
               w' self' p2) =
  Some (d +:+ "/tsyne-" +:+ fmt_d (getpid_res w') +:+ ".sock").
Proof.
  intros Hd Hne Hlen Hrun.
  assert (g_socketDir p2 = d) as Hstored.
  { destruct Hrun as [(testMode & Hrun & Hr) | (width & height & target & Hrun & Hr1 & Hr2)].
    - destruct (launch_facts_bridge _ _ _ _ _ _ _ _ Hrun) as [[? _] | (_ & _ & ->)]; [done|].
      rewrite Hd. apply str_take_all. lia.
    - revert Hrun.
      destruct (initFunctionPointers_returns w self p)
        as (ok & p1 & t1 & Hinit & Hok & _).
      unfold JniWrapper.Java_com_tsyne_phonetop_MainActivity_startEmbeddedBridge,
        bind at 1.
      rewrite Hinit. destruct Hok as [-> | ->]; simpl; [by intros [= <- _ _]|].
      unfold JniWrapper.store_socketDir; run_m.
      run_cases; intros [= <- <- _]; simpl;
        first [ done | congruence | (simplify_eq; apply str_take_all; lia) ]. }
  rewrite getBridgeSocketPath_eval. cbn [result_of]. rewrite Hstored.
  destruct d as [|c d']; [done|]. cbn [JniWrapper.nonempty]. f_equal.
  apply str_take_all. rewrite !str_length_append.
  pose proof (fmt_d_length (getpid_res w')). simpl in *. lia.
Qed.

Lemma directory_round_trip_witness :
  result_of (JniWrapper.Java_com_tsyne_phonetop_MainActivity_getBridgeSocketPath
               Sample.world 1 Sample.rendering) = Some "/tmp/custom/tsyne-4242.sock".
Proof.
  apply (directory_round_trip Sample.world Sample.world 1 1
           (Sample.after (JniWrapper.JNI_OnLoad (Addr 40) Sample.world 1 Sample.fresh)
              Sample.fresh)
           Sample.rendering 5 "/tmp/custom" 0
           (trace_of (JniWrapper.Java_com_tsyne_phonetop_MainActivity_startEmbeddedBridge
                        1080 1920 (Addr 5) (Addr 50) Sample.world 1
                        (Sample.after (JniWrapper.JNI_OnLoad (Addr 40) Sample.world 1
                                         Sample.fresh) Sample.fresh)))).
  - reflexivity.
  - discriminate.
  - vm_compute. lia.
  - right. exists 1080, 1920, (Addr 50). split; [vm_compute; reflexivity|].
    split; discriminate.
Defined.

(** X14.  What does not change the stored directory, and what resets it: a
    background start with a null directory, or one whose string the VM
    cannot hand out, keeps the directory that was stored before; one with
    the empty string stores it, and the path query is back at
    ["/data/local/tmp/tsyne-<pid>.sock"]. *)
Theorem directory_kept_or_reset (w w' : World) (self self' : Z) (p p2 : Proc)
    (testMode : Z) (socketDir : ptr) (r : Z) (t : list Event) :
  JniWrapper.Java_com_tsyne_phonetop_MainActivity_startBridgeInBackground
    testMode socketDir w self p = Done r p2 t ->
  (socketDir = NULL -> g_socketDir p2 = g_socketDir p) /\
  (forall s, socketDir = Addr s -> string_chars w s = None ->
             g_socketDir p2 = g_socketDir p) /\
  (forall s, socketDir = Addr s -> string_chars w s = Some "" -> r <> -1 ->
             result_of (JniWrapper.Java_com_tsyne_phonetop_MainActivity_getBridgeSocketPath
                          w' self' p2) =
             Some ("/data/local/tmp/tsyne-" +:+ fmt_d (getpid_res w') +:+ ".sock")).
Proof.
  intros Hrun.
  destruct (launch_facts_bridge _ _ _ _ _ _ _ _ Hrun)
    as [[Hr Hdir] | (Hr & _ & Hdir)].
  - repeat split; intros; subst; done.
  - split; [by intros -> | split].
    + intros s -> Hs. by rewrite Hs in Hdir.
    + intros s -> Hs _. rewrite Hs in Hdir.
      rewrite getBridgeSocketPath_eval. cbn [result_of]. rewrite Hdir.
      change (str_take 511 "") with "". cbn [JniWrapper.nonempty]. f_equal.
      apply str_take_all. rewrite !str_length_append.
      pose proof (fmt_d_length (getpid_res w')). simpl in *. lia.
Qed.

Lemma directory_kept_or_reset_witness :
  g_socketDir
    (Sample.after
       (JniWrapper.Java_com_tsyne_phonetop_MainActivity_startBridgeInBackground
          1 NULL Sample.world 1 Sample.busy) Sample.fresh) = "/tmp/custom".
Proof.
  destruct (directory_kept_or_reset Sample.world Sample.world 1 1 Sample.busy
              (Sample.after
                 (JniWrapper.Java_com_tsyne_phonetop_MainActivity_startBridgeInBackground
                    1 NULL Sample.world 1 Sample.busy) Sample.fresh)
              1 NULL 0
              (trace_of
                 (JniWrapper.Java_com_tsyne_phonetop_MainActivity_startBridgeInBackground
                    1 NULL Sample.world 1 Sample.busy)))
    as (Hnull & _); [vm_compute; reflexivity|].
  rewrite Hnull; reflexivity.
Defined.

(** ** Launching *)

(** X15.  When the thread cannot be created the launchers return at once:
    [startBridgeInBackground] ends with the failed [pthread_create] and
    the error line and returns -2, [startEmbeddedBridge] likewise and
    returns -4; neither waits the settle delay, and neither stores a thread
    id. *)
Theorem failed_thread_creation_returns_at_once (w : World) (self : Z) (p p1 : Proc)
    (t1 : list Event) (rc : Z) :
  JniWrapper.initFunctionPointers w self p = Done 1 p1 t1 ->
  fst (pthread_create_res w) = rc ->
  rc <> 0 ->
  (forall testMode socketDir,
      exists p2 t2,
        JniWrapper.Java_com_tsyne_phonetop_MainActivity_startBridgeInBackground
          testMode socketDir w self p =
        Done (-2) p2
          (t1 ++ t2 ++
           [ECall x_pthread_create [VSym "bridgeThreadFunc"; VSym "g_bridgeTestMode"]
              (VInt rc);
            ECall x_android_log_print
              [VInt ANDROID_LOG_ERROR; VStr "TsyneJNI";
               VStr "Failed to create bridge thread: %d"; VInt rc] VVoid]) /\
        existsb (is_call_to x_usleep) t2 = false /\
        g_bridgeThread p2 = g_bridgeThread p1) /\
  (forall width height socketDir target r p2 t,
      JniWrapper.Java_com_tsyne_phonetop_MainActivity_startEmbeddedBridge
        width height socketDir target w self p = Done r p2 t ->
      r <> -2 -> r <> -3 ->
      r = -4 /\ g_bridgeThread p2 = g_bridgeThread p1 /\
      exists t2,
        t = (t1 ++ t2 ++
             [ECall x_pthread_create [VSym "embeddedBridgeThreadFunc"; VPtr NULL]
                (VInt rc);
              ECall x_android_log_print
                [VInt ANDROID_LOG_ERROR; VStr "TsyneJNI";
                 VStr "Failed to create embedded bridge thread: %d"; VInt rc] VVoid])%list /\
        existsb (is_call_to x_usleep) t2 = false).
Proof.
  intros Hinit Hrc Hne.
  assert ((rc =? 0) = false) as Hrcb by (by apply Z.eqb_neq).
  split.
  - intros testMode socketDir.
    unfold JniWrapper.Java_com_tsyne_phonetop_MainActivity_startBridgeInBackground,
      bind at 1.
    rewrite Hinit. unfold JniWrapper.store_socketDir; run_m.
    destruct socketDir as [|s]; [| destruct (string_chars w s) eqn:Es];
      repeat (simpl; first [rewrite Hrc | rewrite Hrcb | rewrite Es]).
    + eexists _, [_]. repeat split; reflexivity.
    + eexists _, [_; _; _; _]. repeat split; reflexivity.
    + eexists _, [_; _]. repeat split; reflexivity.
  - intros width height socketDir target r p2 t.
    unfold JniWrapper.Java_com_tsyne_phonetop_MainActivity_startEmbeddedBridge,
      bind at 1.
    rewrite Hinit. unfold JniWrapper.store_socketDir; run_m.
    run_cases; rewrite ?Hrc, ?Hrcb in *; simplify_eq/=;
      intros [= <- <- <-] H2 H3; try done; simpl;
      (split; [reflexivity|]); (split; [reflexivity|]).
    all: first [ (eexists [_]; split; reflexivity)
               | (eexists [_; _]; split; reflexivity)
               | (eexists [_; _; _]; split; reflexivity)
               | (eexists [_; _; _; _]; split; reflexivity)
               | (eexists [_; _; _; _; _]; split; reflexivity)
               | (eexists [_; _; _; _; _; _]; split; reflexivity)
               | (eexists [_; _; _; _; _; _; _]; split; reflexivity)
               | (eexists [_; _; _; _; _; _; _; _]; split; reflexivity)
               | (eexists [_; _; _; _; _; _; _; _; _]; split; reflexivity) ].
Qed.

Lemma failed_thread_creation_returns_at_once_witness :
  result_of (JniWrapper.Java_com_tsyne_phonetop_MainActivity_startBridgeInBackground
               0 (Addr 5) Sample.no_thread_world 1 Sample.fresh) = Some (-2).
Proof.
  destruct (failed_thread_creation_returns_at_once Sample.no_thread_world 1 Sample.fresh
              Sample.ready
              (trace_of (JniWrapper.initFunctionPointers Sample.no_thread_world 1
                           Sample.fresh))
              11) as [Hbridge _]; [vm_compute; reflexivity | reflexivity | discriminate |].
  destruct (Hbridge 0 (Addr 5)) as (p2 & t2 & Hrun & _). rewrite Hrun. reflexivity.
Defined.

(** X16.  [startEmbeddedBridge] registers the render target before it
    creates the thread and never takes the registration back: past the
    availability checks, with a target whose class has [onFrame], the
    stored reference is what [NewGlobalRef] returned and the stored method
    is the one found, whether the call then returns 0 or -4; it returns 0
    exactly when the thread was created, and -4 otherwise.  With a null
    target the earlier registration stays. *)
Theorem embedded_launch_registers_target (w : World) (self : Z) (p p1 : Proc)
    (t1 : list Event) (width height : Z) (socketDir : ptr) :
  JniWrapper.initFunctionPointers w self p = Done 1 p1 t1 ->
  g_StartBridgeAndroidEmbedded p1 <> NULL ->
  (forall tg mid,
      method_id w (object_class w tg) "onFrame" "(Ljava/nio/ByteBuffer;III)V" = Addr mid ->
      exists r p2 t,
        JniWrapper.Java_com_tsyne_phonetop_MainActivity_startEmbeddedBridge
          width height socketDir (Addr tg) w self p = Done r p2 t /\
        g_renderSurface p2 = global_ref w tg /\
        g_onFrameMethod p2 = Addr mid /\
        r = (if fst (pthread_create_res w) =? 0 then 0 else -4)) /\
  (exists r p2 t,
      JniWrapper.Java_com_tsyne_phonetop_MainActivity_startEmbeddedBridge
        width height socketDir NULL w self p = Done r p2 t /\
      g_renderSurface p2 = g_renderSurface p /\
      g_onFrameMethod p2 = g_onFrameMethod p /\
      r = (if fst (pthread_create_res w) =? 0 then 0 else -4)).
Proof.
  intros Hinit Hstart.
  destruct (initFunctionPointers_returns w self p)
    as (ok & p1' & t1' & Hinit' & _ & Hsurf & Hmid & _).
  rewrite Hinit in Hinit'. injection Hinit' as <- <- <-.
  destruct (g_StartBridgeAndroidEmbedded p1) as [|st] eqn:Est; [done|].
  split.
  - intros tg mid Hm.
    unfold JniWrapper.Java_com_tsyne_phonetop_MainActivity_startEmbeddedBridge,
      bind at 1.
    rewrite Hinit. unfold JniWrapper.store_socketDir; run_m.
    destruct socketDir as [|s]; [| destruct (string_chars w s) eqn:Es];
      destruct (fst (pthread_create_res w) =? 0) eqn:Hrc;
      repeat (simpl; first [rewrite Est | rewrite Es | rewrite Hm | rewrite Hrc]);
      eexists _, _, _; (split; [reflexivity|]); simpl; repeat split; reflexivity.
  - unfold JniWrapper.Java_com_tsyne_phonetop_MainActivity_startEmbeddedBridge,
      bind at 1.
    rewrite Hinit. unfold JniWrapper.store_socketDir; run_m.
    destruct socketDir as [|s]; [| destruct (string_chars w s) eqn:Es];
      destruct (fst (pthread_create_res w) =? 0) eqn:Hrc;
      repeat (simpl; first [rewrite Est | rewrite Es | rewrite Hrc]);
      eexists _, _, _; (split; [reflexivity|]); simpl; repeat split;
      first [ exact Hsurf | exact Hmid | reflexivity ].
Qed.

Lemma embedded_launch_registers_target_witness :
  g_renderSurface
    (Sample.after
       (JniWrapper.Java_com_tsyne_phonetop_MainActivity_startEmbeddedBridge
          1080 1920 (Addr 5) (Addr 50) Sample.no_thread_world 1 Sample.fresh)
       Sample.fresh) = Addr 50 /\
  result_of
    (JniWrapper.Java_com_tsyne_phonetop_MainActivity_startEmbeddedBridge
       1080 1920 (Addr 5) (Addr 50) Sample.no_thread_world 1 Sample.fresh) = Some (-4).
Proof.
  destruct (embedded_launch_registers_target Sample.no_thread_world 1 Sample.fresh
              Sample.ready
              (trace_of (JniWrapper.initFunctionPointers Sample.no_thread_world 1
                           Sample.fresh))
              1080 1920 (Addr 5)) as [Hreg _];
    [vm_compute; reflexivity | discriminate |].
  destruct (Hreg 50%positive 60%positive eq_refl) as (r & p2 & t & Hrun & Hs & _ & Hr).
  rewrite Hrun. simpl. split; [exact Hs | by rewrite Hr].
Defined.

(** ** node-runner.cpp *)

Lemma initNode_returns w self p :
  exists r p1 t1,
    NodeRunner.initNode w self p = Done r p1 t1 /\
    (r = 0 \/ r = 1 /\ g_nodeStart p1 <> NULL) /\
    g_scriptPath p1 = g_scriptPath p /\ g_nodeThread p1 = g_nodeThread p.
Proof.
  unfold NodeRunner.initNode; run_m.
  run_cases; eexists _, _, _; (split; [reflexivity|]); simpl;
    (split; [| split; reflexivity]); first [ by left | right; split; congruence ].
Qed.

(** What [startNode] does after [initNode] has succeeded. *)
Lemma startNode_cases w self p p1 t1 s :
  NodeRunner.initNode w self p = Done 1 p1 t1 ->
  let run := NodeRunner.Java_com_tsyne_phonetop_MainActivity_startNode (Addr s) w self p in
  match string_chars w s with
  | None =>
      exists t2, run = Done (-2) p1 (t1 ++ t2) /\
        existsb (is_call_to x_strdup) t2 = false /\
        existsb (is_call_to x_pthread_create) t2 = false
  | Some path =>
      if fst (pthread_create_res w) =? 0 then
        exists t2,
          run = Done 0 (set_g_nodeThread (snd (pthread_create_res w))
                          (set_g_scriptPath (Some path) p1)) (t1 ++ t2) /\
          In (ECall x_pthread_create [VSym "nodeThreadFunc"; VStr path] (VInt 0)) t2 /\
          existsb (is_call_to x_free) t2 = false
      else
        exists t2,
          run = Done (-3) (set_g_scriptPath None (set_g_scriptPath (Some path) p1))
                  (t1 ++ t2) /\
          In (ECall x_free [VStr path] VVoid) t2
  end.
Proof.
  intros Hinit run. subst run.
  destruct (string_chars w s) as [path|] eqn:Hs;
    [destruct (fst (pthread_create_res w) =? 0) eqn:Hrc|];
    unfold NodeRunner.Java_com_tsyne_phonetop_MainActivity_startNode, bind at 1;
    rewrite Hinit; run_m; simpl; rewrite Hs; simpl; rewrite ?Hrc; simpl.
  - apply Z.eqb_eq in Hrc. rewrite Hrc.
    eexists. split; [reflexivity|]. split; [simpl; auto 10 | reflexivity].
  - eexists. split; [reflexivity|]. simpl; auto 10.
  - eexists. split; [reflexivity|]. split; reflexivity.
Qed.

(** X17.  [startNode] past a successful [initNode]: with a null string it
    faults in the VM; when the VM cannot hand out the path it returns -2
    and copies nothing; when the thread is created it returns 0 with the
    copy of the path in [g_scriptPath], the thread id stored, and the copy
    handed to the thread and not freed; when the thread cannot be created
    it frees the copy, clears [g_scriptPath] and returns -3. *)
Theorem startNode_outcomes (w : World) (self : Z) (p p1 : Proc) (t1 : list Event)
    (s : positive) :
  NodeRunner.initNode w self p = Done 1 p1 t1 ->
  (exists t, NodeRunner.Java_com_tsyne_phonetop_MainActivity_startNode NULL w self p
             = Fault t) /\
  (string_chars w s = None ->
   exists t,
     NodeRunner.Java_com_tsyne_phonetop_MainActivity_startNode (Addr s) w self p =
       Done (-2) p1 t /\
     existsb (is_call_to x_strdup) (skipn (length t1) t) = false /\
     existsb (is_call_to x_pthread_create) (skipn (length t1) t) = false) /\
  (forall path, string_chars w s = Some path -> fst (pthread_create_res w) = 0 ->
   exists t,
     NodeRunner.Java_com_tsyne_phonetop_MainActivity_startNode (Addr s) w self p =
       Done 0 (set_g_nodeThread (snd (pthread_create_res w))
                 (set_g_scriptPath (Some path) p1)) t /\
     In (ECall x_pthread_create [VSym "nodeThreadFunc"; VStr path] (VInt 0)) t /\
     existsb (is_call_to x_free) (skipn (length t1) t) = false) /\
  (forall path, string_chars w s = Some path -> fst (pthread_create_res w) <> 0 ->
   exists t,
     NodeRunner.Java_com_tsyne_phonetop_MainActivity_startNode (Addr s) w self p =
       Done (-3) (set_g_scriptPath None (set_g_scriptPath (Some path) p1)) t /\
     In (ECall x_free [VStr path] VVoid) t).
Proof.
  intros Hinit. pose proof (startNode_cases w self p p1 t1 s Hinit) as Hcases.
  simpl in Hcases.
  split; [| split; [| split]].
  - unfold NodeRunner.Java_com_tsyne_phonetop_MainActivity_startNode, bind at 1.
    rewrite Hinit. eexists. reflexivity.
  - intros Hs. rewrite Hs in Hcases. destruct Hcases as (t2 & -> & H1 & H2).
    eexists. split; [reflexivity|]. by rewrite drop_app_length.
  - intros path Hs Hrc. rewrite Hs, Hrc in Hcases.
    destruct Hcases as (t2 & -> & H1 & H2).
    eexists. split; [reflexivity|]. rewrite drop_app_length.
    split; [apply in_or_app; by right | done].
  - intros path Hs Hrc. apply Z.eqb_neq in Hrc. rewrite Hs, Hrc in Hcases.
    destruct Hcases as (t2 & -> & H1).
    eexists. split; [reflexivity|]. apply in_or_app; by right.
Qed.

Lemma startNode_outcomes_witness :
  result_of (NodeRunner.Java_com_tsyne_phonetop_MainActivity_startNode (Addr 7)
               Sample.no_thread_world 1 Sample.fresh) = Some (-3) /\
  g_scriptPath
    (Sample.after (NodeRunner.Java_com_tsyne_phonetop_MainActivity_startNode (Addr 7)
                     Sample.no_thread_world 1 Sample.fresh) Sample.fresh) = None.
Proof.
  destruct (startNode_outcomes Sample.no_thread_world 1 Sample.fresh
              (Sample.after (NodeRunner.initNode Sample.no_thread_world 1 Sample.fresh)
                 Sample.fresh)
              (trace_of (NodeRunner.initNode Sample.no_thread_world 1 Sample.fresh)) 7)
    as (_ & _ & _ & Hfail); [vm_compute; reflexivity|].
  destruct (Hfail "/data/app/main.js" eq_refl) as (t & Hrun & _); [discriminate|].
  rewrite Hrun. split; reflexivity.
Defined.

(** X18.  The path given to [startNode] reaches node: after a call that
    returned 0 the copy of the path is in [g_scriptPath] and was handed to
    the thread, and the worker started on it calls [node::Start] exactly
    once, with [argc = 2] and [argv = {"node", path}].  When node returns,
    the worker logs the code, frees the copy and leaves the process state
    as it was; while node runs, nothing is freed. *)
Theorem node_launch_then_worker (w w' : World) (self self' : Z) (p p2 : Proc)
    (s : positive) (t : list Event) :
  NodeRunner.Java_com_tsyne_phonetop_MainActivity_startNode (Addr s) w self p
    = Done 0 p2 t ->
  exists path start,
    string_chars w s = Some path /\
    g_scriptPath p2 = Some path /\
    g_nodeStart p2 = Addr start /\
    In (ECall x_pthread_create [VSym "nodeThreadFunc"; VStr path] (VInt 0)) t /\
    filter (fun e => is_ptr_call e) (trace_of (NodeRunner.nodeThreadFunc path w' self' p2))
      = [ECallPtr start [VInt 2; VStr "node"; VStr path]] /\
    match entry w' start [VInt 2; VStr "node"; VStr path] with
    | Some r =>
        exists t',
          NodeRunner.nodeThreadFunc path w' self' p2 =
            Done tt p2 (t' ++ [ECall x_android_log_print
                                 [VInt ANDROID_LOG_INFO; VStr "NodeRunner";
                                  VStr "Node.js exited with code: %d"; VInt r] VVoid;
                               ECall x_free [VStr path] VVoid])
    | None =>
        exists t',
          NodeRunner.nodeThreadFunc path w' self' p2 = Blocked p2 t' /\
          existsb (is_call_to x_free) t' = false
    end.
Proof.
  intros Hrun.
  destruct (initNode_returns w self p) as (r & p1 & t1 & Hinit & Hr & _).
  destruct Hr as [-> | [-> Hstart]].
  { unfold NodeRunner.Java_com_tsyne_phonetop_MainActivity_startNode, bind at 1 in Hrun.
    rewrite Hinit in Hrun. discriminate. }
  pose proof (startNode_cases w self p p1 t1 s Hinit) as Hcases. simpl in Hcases.
  destruct (string_chars w s) as [path|] eqn:Hs.
  2: { destruct Hcases as (t2 & Heq & _). rewrite Heq in Hrun. discriminate. }
  destruct (fst (pthread_create_res w) =? 0) eqn:Hrc.
  2: { destruct Hcases as (t2 & Heq & _). rewrite Heq in Hrun. discriminate. }
  destruct Hcases as (t2 & Heq & Hin & _). rewrite Heq in Hrun.
  injection Hrun as <- <-.
  destruct (g_nodeStart p1) as [|start] eqn:Est; [done|].
  exists path, start.
  split; [reflexivity|]. split; [reflexivity|]. split; [exact Est|].
  split; [apply in_or_app; by right|].
  unfold NodeRunner.nodeThreadFunc; run_m. simpl. rewrite Est. simpl.
  destruct (entry w' start [VInt 2; VStr "node"; VStr path]) as [r|]; simpl.
  - split; [reflexivity|]. by eexists [_; _].
  - split; [reflexivity|]. eexists. split; reflexivity.
Qed.

Lemma node_launch_then_worker_witness :
  filter (fun e => is_ptr_call e)
    (trace_of (NodeRunner.nodeThreadFunc "/data/app/main.js" Sample.world 9
                 Sample.node_ready)) =
  [ECallPtr 30 [VInt 2; VStr "node"; VStr "/data/app/main.js"]].
Proof.
  destruct (node_launch_then_worker Sample.world Sample.world 1 9 Sample.fresh
              Sample.node_ready 7
              (trace_of (NodeRunner.Java_com_tsyne_phonetop_MainActivity_startNode
                           (Addr 7) Sample.world 1 Sample.fresh)))
    as (path & start & Hpath & _ & Hstart & _ & Hcalls & _); [vm_compute; reflexivity|].
  injection Hpath as <-. injection Hstart as <-. exact Hcalls.
Defined.

(** X19.  A failed resolution of node is not remembered.  When
    [g_nodeStart] is null and [libnode.so] is not resident, or is resident
    without [node::Start], [startNode] returns -1, calls nothing in node,
    creates no thread and leaves [g_nodeStart] null, so the next call asks
    [dlopen] again; and once the host has loaded a library that has the
    symbol, resolution succeeds. *)
Theorem node_resolution_failure_is_retried (w : World) (self : Z) (p : Proc)
    (scriptPath : ptr) :
  g_nodeStart p = NULL ->
  (resident p !! "libnode.so" = None \/
   exists h, resident p !! "libnode.so" = Some h /\
             symbols w h "_ZN4node5StartEiPPc" = NULL) ->
  exists p' t,
    NodeRunner.Java_com_tsyne_phonetop_MainActivity_startNode scriptPath w self p
      = Done (-1) p' t /\
    g_nodeStart p' = NULL /\
    g_scriptPath p' = g_scriptPath p /\ g_nodeThread p' = g_nodeThread p /\
    resident p' = resident p /\
    existsb is_ptr_call t = false /\
    existsb (is_call_to x_pthread_create) t = false /\
    (forall w2 self2,
        existsb (is_call_to x_dlopen) (trace_of (NodeRunner.initNode w2 self2 p')) = true) /\
    (forall w2 self2 h f,
        symbols w2 h "_ZN4node5StartEiPPc" = Addr f ->
        result_of (NodeRunner.initNode w2 self2
                     (set_resident (<["libnode.so" := h]> (resident p')) p')) = Some 1).
Proof.
  intros Hnull Hmissing.
  assert (Hlater : forall q w2 self2, g_nodeStart q = NULL ->
            existsb (is_call_to x_dlopen) (trace_of (NodeRunner.initNode w2 self2 q)) = true).
  { intros q w2 self2 Hq. unfold NodeRunner.initNode; run_m. simpl. rewrite Hq. simpl.
    destruct (resident q !! "libnode.so") as [h|]; simpl; [| reflexivity].
    destruct (symbols w2 h "_ZN4node5StartEiPPc"); reflexivity. }
  assert (Hload : forall q w2 self2 h f, g_nodeStart q = NULL ->
            symbols w2 h "_ZN4node5StartEiPPc" = Addr f ->
            result_of (NodeRunner.initNode w2 self2
                         (set_resident (<["libnode.so" := h]> (resident q)) q)) = Some 1).
  { intros q w2 self2 h f Hq Hf. unfold NodeRunner.initNode; run_m. simpl.
    rewrite Hq. simpl. rewrite lookup_insert_eq. simpl. rewrite Hf. reflexivity. }
  unfold NodeRunner.Java_com_tsyne_phonetop_MainActivity_startNode, NodeRunner.initNode;
    run_m. simpl. rewrite Hnull. simpl.
  destruct Hmissing as [Hlib | (h & Hlib & Hsym)]; rewrite Hlib; simpl.
  - eexists _, _. split; [reflexivity|].
    split_and!; try reflexivity; try exact Hnull.
    + intros w2 self2. apply Hlater. exact Hnull.
    + intros w2 self2 h f Hf.
      match goal with
      | |- context [set_resident _ ?q] => apply (Hload q w2 self2 h f)
      end; [exact Hnull | exact Hf].
  - rewrite Hsym. simpl. eexists _, _. split; [reflexivity|].
    split_and!; try reflexivity.
    + intros w2 self2. by apply Hlater.
    + intros w2 self2 h' f Hf.
      match goal with
      | |- context [set_resident _ ?q] => apply (Hload q w2 self2 h' f)
      end; [reflexivity | exact Hf].
Qed.

Lemma node_resolution_failure_is_retried_witness :
  result_of (NodeRunner.Java_com_tsyne_phonetop_MainActivity_startNode (Addr 7)
               Sample.world 1 Sample.bare) = Some (-1) /\
  g_nodeStart
    (Sample.after (NodeRunner.Java_com_tsyne_phonetop_MainActivity_startNode (Addr 7)
                     Sample.world 1 Sample.bare) Sample.bare) = NULL.
Proof.
  destruct (node_resolution_failure_is_retried Sample.world 1 Sample.bare (Addr 7))
    as (p' & t & Hrun & Hnull & _); [reflexivity | by left |].
  rewrite Hrun. split; [reflexivity | exact Hnull].
Defined.

(** ** Socket paths of different processes *)

Lemma digit_char_read (d : Z) :
  0 <= d < 10 -> is_digit (digit_char d) = true /\ digit_value (digit_char d) = d.
Proof.
  intros Hd.
  assert (d = 0 \/ d = 1 \/ d = 2 \/ d = 3 \/ d = 4 \/ d = 5 \/ d = 6 \/ d = 7 \/
          d = 8 \/ d = 9) as Hcases by lia.
  repeat (destruct Hcases as [-> | Hcases]; [split; reflexivity|]).
  subst d. split; reflexivity.
Qed.

Lemma dec_digits_step (fuel : nat) (n : Z) (acc : string) :
  dec_digits (S fuel) n acc =
  if n <? 10 then String (digit_char (n mod 10)) acc
  else dec_digits fuel (n / 10) (String (digit_char (n mod 10)) acc).
Proof. reflexivity. Qed.

Lemma read_digits_step (v : Z) (c : ascii) (s : string) :
  read_digits v (String c s) =
  if is_digit c then read_digits (10 * v + digit_value c) s else v.
Proof. reflexivity. Qed.

Lemma read_dec_digits (fuel : nat) (n : Z) (acc : string) :
  0 <= n < 10 ^ Z.of_nat fuel ->
  exists k : nat, forall v rest,
    read_digits v (dec_digits fuel n acc +:+ rest) =
    read_digits (v * 10 ^ Z.of_nat k + n) (acc +:+ rest).
Proof.
  revert n acc. induction fuel as [|fuel IH]; intros n acc Hn.
  - exists 0%nat. intros v rest. simpl in Hn. f_equal. simpl. lia.
  - rewrite dec_digits_step.
    assert (0 <= n mod 10 < 10) as Hd by (apply Z.mod_pos_bound; lia).
    destruct (digit_char_read _ Hd) as [Hdig Hval].
    destruct (n <? 10) eqn:Hsmall.
    + exists 1%nat. intros v rest.
      change (String (digit_char (n mod 10)) acc +:+ rest)
        with (String (digit_char (n mod 10)) (acc +:+ rest)).
      rewrite read_digits_step, Hdig, Hval.
      apply Z.ltb_lt in Hsmall. rewrite Z.mod_small by lia.
      f_equal. change (10 ^ Z.of_nat 1) with 10. lia.
    + apply Z.ltb_ge in Hsmall.
      destruct (IH (n / 10) (String (digit_char (n mod 10)) acc)) as [k Hk].
      { split; [apply Z.div_pos; lia|].
        apply Z.div_lt_upper_bound; [lia|].
        rewrite Nat2Z.inj_succ, Z.pow_succ_r in Hn by lia. lia. }
      exists (S k). intros v rest. rewrite Hk.
      change (String (digit_char (n mod 10)) acc +:+ rest)
        with (String (digit_char (n mod 10)) (acc +:+ rest)).
      rewrite read_digits_step, Hdig, Hval. f_equal.
      rewrite Nat2Z.inj_succ, Z.pow_succ_r by lia.
      pose proof (Z.div_mod n 10). lia.
Qed.

Lemma read_fmt_d (n : Z) :
  0 <= n < 2 ^ 31 -> read_digits 0 (fmt_d n +:+ ".sock") = n.
Proof.
  intros Hn. unfold fmt_d.
  destruct (n <? 0) eqn:Hneg; [apply Z.ltb_lt in Hneg; lia|].
  destruct (read_dec_digits 10 n EmptyString) as [k Hk].
  { split; [lia|]. change (10 ^ Z.of_nat 10) with 10000000000.
    change (2 ^ 31) with 2147483648 in Hn. lia. }
  rewrite Hk. simpl. lia.
Qed.

Lemma str_append_inv_head (s x y : string) : s +:+ x = s +:+ y -> x = y.
Proof. induction s as [|c s IH]; simpl; intros H; [exact H | injection H; auto]. Qed.

Lemma str_take_prefix (n : nat) (s r : string) :
  (n <= String.length s)%nat -> str_take n (s +:+ r) = str_take n s.
Proof.
  revert s. induction n as [|n IH]; intros [|c s] Hlen; try reflexivity;
    simpl in Hlen; try lia.
  change (String c (str_take n (s +:+ r)) = String c (str_take n s)).
  f_equal. apply IH. lia.
Qed.

(** X20.  Socket paths of two processes that use the same directory.
    When the stored directory has at most 232 bytes (or is empty), the
    paths are equal only if the process ids are: different processes never
    share a socket.  When it has 255 bytes or more, the path is the first
    255 bytes of the directory for every process id. *)
Theorem socket_paths_collide_only_when_cut (w1 w2 : World) (self1 self2 : Z) (p : Proc) :
  0 <= getpid_res w1 < 2 ^ 31 ->
  0 <= getpid_res w2 < 2 ^ 31 ->
  let path w self :=
    result_of (JniWrapper.Java_com_tsyne_phonetop_MainActivity_getBridgeSocketPath
                 w self p) in
  ((String.length (g_socketDir p) <= 232)%nat ->
   path w1 self1 = path w2 self2 -> getpid_res w1 = getpid_res w2) /\
  ((255 <= String.length (g_socketDir p))%nat ->
   path w1 self1 = Some (str_take 255 (g_socketDir p)) /\
   path w2 self2 = Some (str_take 255 (g_socketDir p))).
Proof.
  intros H1 H2 path. subst path. cbv beta.
  rewrite !getBridgeSocketPath_eval. cbn [result_of]. unfold snprintf.
  change (256 - 1)%nat with 255%nat.
  set (dir := if JniWrapper.nonempty (g_socketDir p) then g_socketDir p
              else "/data/local/tmp").
  split.
  - intros Hlen Heq.
    assert (String.length dir <= 232)%nat as Hdir.
    { subst dir. destruct (g_socketDir p); simpl in *; lia. }
    assert (forall pid, str_take 255 (dir +:+ "/tsyne-" +:+ fmt_d pid +:+ ".sock") =
                        dir +:+ "/tsyne-" +:+ fmt_d pid +:+ ".sock") as Hfit.
    { intros pid. apply str_take_all. rewrite !str_length_append.
      pose proof (fmt_d_length pid). simpl. lia. }
    rewrite !Hfit in Heq. injection Heq as Heq.
    apply str_append_inv_head in Heq. apply str_append_inv_head in Heq.
    apply (f_equal (read_digits 0)) in Heq.
    by rewrite !read_fmt_d in Heq.
  - intros Hlen.
    assert (dir = g_socketDir p) as ->.
    { subst dir. destruct (g_socketDir p); simpl in *; [lia | reflexivity]. }
    by rewrite !str_take_prefix.
Qed.

Lemma socket_paths_collide_only_when_cut_witness :
  result_of (JniWrapper.Java_com_tsyne_phonetop_MainActivity_getBridgeSocketPath
               Sample.world 1 Sample.long_dir_proc) =
  result_of (JniWrapper.Java_com_tsyne_phonetop_MainActivity_getBridgeSocketPath
               Sample.sibling_world 2 Sample.long_dir_proc) /\
  getpid_res Sample.world <> getpid_res Sample.sibling_world.
Proof.
  destruct (socket_paths_collide_only_when_cut Sample.world Sample.sibling_world 1 2
              Sample.long_dir_proc) as [_ Hcut]; [vm_compute; split; [discriminate | reflexivity] ..|].
  destruct Hcut as [-> ->]; [vm_compute; lia|].
  split; [reflexivity | discriminate].
Defined.
